(** * Health-metric ingestion: validation and idempotent upsert

    A shallow embedding of the cloud function of mobile-healthhub
    ([validators.py], [models.py], [main.py]) together with the properties
    its specification states about it.

    Python values are modelled by [pyval] (the values [json] can produce),
    Python exceptions by the error monad [result], the SQLAlchemy session by
    the interface [SessionOps], and the SQL Server table behind it by the
    concrete transactional table of module [Store]. *)

From Stdlib Require Import ZArith String List Floats DecimalString.
From stdpp Require Import base option gmap strings list.

Set Default Proof Using "Type".
Set Warnings "-register-all".

(** ** Python values and exceptions *)

Module Py.

(** What [request.get_json()] can hand to the function: JSON null, booleans,
    integers (unbounded), binary64 floats, strings, arrays and objects. *)
Inductive pyval : Type :=
| VNone
| VBool (b : bool)
| VInt (z : Z)
| VFloat (f : float)
| VStr (s : string)
| VList (l : list pyval)
| VDict (d : gmap string pyval).

(** An exception: its class name and [str(e)]. Every exception below is a
    subclass of [Exception], so every [except Exception] catches it. *)
Record exn : Type := Exn { exn_class : string; exn_str : string }.

Inductive result (A : Type) : Type :=
| Ok (a : A)
| Raise (e : exn).
Arguments Ok {A} a.
Arguments Raise {A} e.

Definition bind {A B} (r : result A) (k : A -> result B) : result B :=
  match r with
  | Ok a => k a
  | Raise e => Raise e
  end.

Definition rmap {A B} (f : A -> B) (r : result A) : result B :=
  bind r (fun a => Ok (f a)).

Definition returns {A} (r : result A) : Prop := exists a, r = Ok a.

Declare Scope py_scope.
Delimit Scope py_scope with py.
Notation "x <- c ;; k" := (bind c (fun x => k))
  (at level 100, c at next level, right associativity) : py_scope.

(** [type(v).__name__] *)
Definition type_name (v : pyval) : string :=
  match v with
  | VNone => "NoneType"
  | VBool _ => "bool"
  | VInt _ => "int"
  | VFloat _ => "float"
  | VStr _ => "str"
  | VList _ => "list"
  | VDict _ => "dict"
  end.

(** [str(n)] for an int, as an f-string renders it. *)
Definition str_int (n : Z) : string := NilZero.string_of_int (Z.to_int n).

(** [not v] is [negb (truthy v)]. *)
Definition truthy (v : pyval) : bool :=
  match v with
  | VNone => false
  | VBool b => b
  | VInt z => negb (z =? 0)%Z
  | VFloat f => negb (PrimFloat.eqb f 0%float)
  | VStr s => negb (String.eqb s "")
  | VList l => negb (Nat.eqb (length l) 0)
  | VDict d => negb (Nat.eqb (size d) 0)
  end.

(** [d.get(k)] and [d.get(k, dflt)] *)
Definition dict_get (d : gmap string pyval) (k : string) : pyval :=
  default VNone (d !! k).

Definition dict_get_default (d : gmap string pyval) (k : string) (dflt : pyval) : pyval :=
  default dflt (d !! k).

(** [isinstance(v, (int, float))], [isinstance(v, int)], [isinstance(v, bool)];
    [bool] is a subclass of [int]. *)
Definition is_numeric (v : pyval) : bool :=
  match v with
  | VBool _ | VInt _ | VFloat _ => true
  | _ => false
  end.

Definition is_int (v : pyval) : bool :=
  match v with
  | VBool _ | VInt _ => true
  | _ => false
  end.

Definition is_bool (v : pyval) : bool :=
  match v with
  | VBool _ => true
  | _ => false
  end.

Definition is_none (v : pyval) : bool :=
  match v with
  | VNone => true
  | _ => false
  end.

(** The integer constants the validator compares with are all in
    [0, 1440]; as a float such a constant is exact. *)
Definition float_of_const (c : Z) : float := PrimFloat.of_uint63 (Uint63.of_Z c).

(** [v <= c] and [c <= v] for an integral constant [c]. Python compares an
    int with a float by value, without rounding; [True] counts as 1, and a
    NaN compares false. Any other operand type raises [TypeError]. *)
Definition not_supported (op : string) (l r : string) : exn :=
  Exn "TypeError"
      ("'" +:+ op +:+ "' not supported between instances of '" +:+ l
           +:+ "' and '" +:+ r +:+ "'").

Definition le_const (v : pyval) (c : Z) (ctype : string) : result bool :=
  match v with
  | VBool b => Ok (Z.b2z b <=? c)%Z
  | VInt z => Ok (z <=? c)%Z
  | VFloat f => Ok (PrimFloat.leb f (float_of_const c))
  | _ => Raise (not_supported "<=" (type_name v) ctype)
  end.

Definition const_le (c : Z) (ctype : string) (v : pyval) : result bool :=
  match v with
  | VBool b => Ok (c <=? Z.b2z b)%Z
  | VInt z => Ok (c <=? z)%Z
  | VFloat f => Ok (PrimFloat.leb (float_of_const c) f)
  | _ => Raise (not_supported "<=" ctype (type_name v))
  end.

Definition lt_const (v : pyval) (c : Z) (ctype : string) : result bool :=
  match v with
  | VBool b => Ok (Z.b2z b <? c)%Z
  | VInt z => Ok (z <? c)%Z
  | VFloat f => Ok (PrimFloat.ltb f (float_of_const c))
  | _ => Raise (not_supported "<" (type_name v) ctype)
  end.

(** The chained comparison [lo <= v <= hi]: the second test is evaluated
    only when the first holds. *)
Definition between (lo : Z) (v : pyval) (hi : Z) (ctype : string) : result bool :=
  (b <- const_le lo ctype v ;;
   if b then le_const v hi ctype else Ok false)%py.

End Py.

(** ** validators.py *)

Module Validators.
Import Py.
Local Open Scope py_scope.

(** [f"Record {index}: ..."] *)
Definition record_msg (index : Z) (text : string) : string :=
  "Record " +:+ str_int index +:+ ": " +:+ text.

(** [errors.append(msg)] under a condition. *)
Definition append_if (c : bool) (msg : string) (errors : list string) : list string :=
  if c then errors ++ [msg] else errors.

(** [k in metric and metric[k] is not None], giving the value to check. *)
Definition present (metric : gmap string pyval) (k : string) : option pyval :=
  match metric !! k with
  | Some v => if is_none v then None else Some v
  | None => None
  end.

(** The four shapes of optional-field check that [validate_metric] repeats:
    a type test, then (in the [elif]) a range test. *)
Definition numeric_range (metric : gmap string pyval) (index : Z) (k : string)
    (lo hi : Z) (ctype range : string) (errors : list string) : result (list string) :=
  match present metric k with
  | None => Ok errors
  | Some v =>
      if negb (is_numeric v)
      then Ok (errors ++ [record_msg index (k +:+ " must be numeric")])
      else
        inside <- between lo v hi ctype ;;
        Ok (append_if (negb inside)
              (record_msg index (k +:+ " out of range (" +:+ range +:+ ")")) errors)
  end.

Definition integer_range (metric : gmap string pyval) (index : Z) (k : string)
    (lo hi : Z) (range : string) (errors : list string) : result (list string) :=
  match present metric k with
  | None => Ok errors
  | Some v =>
      if negb (is_int v)
      then Ok (errors ++ [record_msg index (k +:+ " must be integer")])
      else
        inside <- between lo v hi "int" ;;
        Ok (append_if (negb inside)
              (record_msg index (k +:+ " out of range (" +:+ range +:+ ")")) errors)
  end.

Definition numeric_nonneg (metric : gmap string pyval) (index : Z) (k : string)
    (errors : list string) : result (list string) :=
  match present metric k with
  | None => Ok errors
  | Some v =>
      if negb (is_numeric v)
      then Ok (errors ++ [record_msg index (k +:+ " must be numeric")])
      else
        negative <- lt_const v 0 "int" ;;
        Ok (append_if negative (record_msg index (k +:+ " cannot be negative")) errors)
  end.

Definition integer_nonneg (metric : gmap string pyval) (index : Z) (k : string)
    (errors : list string) : result (list string) :=
  match present metric k with
  | None => Ok errors
  | Some v =>
      if negb (is_int v)
      then Ok (errors ++ [record_msg index (k +:+ " must be integer")])
      else
        negative <- lt_const v 0 "int" ;;
        Ok (append_if negative (record_msg index (k +:+ " cannot be negative")) errors)
  end.

(** [if "isWearing" in metric: if not isinstance(metric["isWearing"], bool)] *)
Definition wearing_check (metric : gmap string pyval) (index : Z)
    (errors : list string) : list string :=
  match metric !! "isWearing" with
  | None => errors
  | Some v => append_if (negb (is_bool v))
                (record_msg index "isWearing must be boolean") errors
  end.

(** [timestamp is None or timestamp <= 0] *)
Definition timestamp_invalid (timestamp : pyval) : result bool :=
  if is_none timestamp then Ok true else le_const timestamp 0 "int".

Definition validate_metric (metric : gmap string pyval) (index : Z) : result (list string) :=
  let errors := [] in
  let errors := append_if (negb (truthy (dict_get metric "userId")))
                  (record_msg index "userId is required") errors in
  let errors := append_if (negb (truthy (dict_get metric "deviceId")))
                  (record_msg index "deviceId is required") errors in
  let timestamp := dict_get metric "timestamp" in
  bad <- timestamp_invalid timestamp ;;
  let errors := append_if bad
                  (record_msg index "invalid timestamp (must be positive)") errors in
  let record_hash := dict_get metric "recordHash" in
  let errors := append_if (negb (truthy record_hash))
                  (record_msg index "recordHash is required for deduplication") errors in
  errors <- numeric_range metric index "heartRate" 30 220 "int" "30-220 bpm" errors ;;
  errors <- numeric_range metric index "bpSystolic" 60 280 "int" "60-280 mmHg" errors ;;
  errors <- numeric_range metric index "bpDiastolic" 30 150 "int" "30-150 mmHg" errors ;;
  errors <- numeric_range metric index "spO2" 70 100 "int" "70-100%" errors ;;
  errors <- numeric_range metric index "temperature" 35 41 "float" "35.0-41.0°C" errors ;;
  errors <- numeric_range metric index "bloodGlucose" 50 500 "int" "50-500" errors ;;
  errors <- integer_nonneg metric index "steps" errors ;;
  errors <- numeric_nonneg metric index "calories" errors ;;
  errors <- numeric_nonneg metric index "distance" errors ;;
  errors <- integer_range metric index "totalSleep" 0 1440 "0-1440 minutes" errors ;;
  errors <- integer_range metric index "deepSleep" 0 1440 "0-1440 minutes" errors ;;
  errors <- integer_range metric index "lightSleep" 0 1440 "0-1440 minutes" errors ;;
  errors <- integer_range metric index "stress" 0 100 "0-100" errors ;;
  errors <- numeric_range metric index "met" 0 20 "float" "0.0-20.0" errors ;;
  errors <- integer_range metric index "mai" 0 100 "0-100" errors ;;
  let errors := wearing_check metric index errors in
  Ok errors.

(** One turn of the loop of [validate_batch]: what element [i] adds to
    [all_errors]. *)
Definition element_errors (i : nat) (metric : pyval) : result (list string) :=
  match metric with
  | VDict d => validate_metric d (Z.of_nat i)
  | _ => Ok [record_msg (Z.of_nat i) "must be a JSON object"]
  end.

(** [for i, metric in enumerate(metrics)], from index [i] on. *)
Fixpoint validate_loop (i : nat) (metrics : list pyval) (all_errors : list string)
    : result (list string) :=
  match metrics with
  | [] => Ok all_errors
  | metric :: rest =>
      errors <- element_errors i metric ;;
      validate_loop (S i) rest (all_errors ++ errors)
  end.

Definition validate_batch (metrics : pyval) : result (bool * list string) :=
  match metrics with
  | VList l =>
      if Nat.eqb (length l) 0
      then Ok (false, ["metrics array cannot be empty"])
      else if Nat.ltb 500 (length l)
      then Ok (false, ["batch size " +:+ str_int (Z.of_nat (length l))
                          +:+ " exceeds maximum of 500"])
      else
        all_errors <- validate_loop 0 l [] ;;
        let is_valid := Nat.eqb (length all_errors) 0 in
        Ok (is_valid, all_errors)
  | _ => Ok (false, ["metrics must be an array"])
  end.

End Validators.

(** ** models.py: the mapped class [HealthMetric] *)

Module Models.
Import Py.

(** The attributes [insert_or_update_metrics] sets on a [HealthMetric], which
    it then copies one for one into the statement's [params]. [datetime] is
    Python's [datetime.datetime]. The columns [id] and [created_at] are
    assigned by the server and appear in rows only. *)
Record HealthMetric (datetime : Type) : Type := {
  user_id : pyval;
  device_id : pyval;
  timestamp : datetime;
  heart_rate : pyval;
  bp_systolic : pyval;
  bp_diastolic : pyval;
  spo2 : pyval;
  steps : pyval;
  calories : pyval;
  distance : pyval;
  temperature : pyval;
  blood_glucose : pyval;
  total_sleep : pyval;
  deep_sleep : pyval;
  light_sleep : pyval;
  stress : pyval;
  met : pyval;
  mai : pyval;
  is_wearing : pyval;
  record_hash : pyval;
}.
Arguments user_id {datetime}.
Arguments device_id {datetime}.
Arguments timestamp {datetime}.
Arguments heart_rate {datetime}.
Arguments bp_systolic {datetime}.
Arguments bp_diastolic {datetime}.
Arguments spo2 {datetime}.
Arguments steps {datetime}.
Arguments calories {datetime}.
Arguments distance {datetime}.
Arguments temperature {datetime}.
Arguments blood_glucose {datetime}.
Arguments total_sleep {datetime}.
Arguments deep_sleep {datetime}.
Arguments light_sleep {datetime}.
Arguments stress {datetime}.
Arguments met {datetime}.
Arguments mai {datetime}.
Arguments is_wearing {datetime}.
Arguments record_hash {datetime}.

(** Column constraints declared by the class. *)
Definition UserId_max : nat := 100.
Definition DeviceId_max : nat := 50.
Definition RecordHash_max : nat := 32.

End Models.

(** ** The libraries the engine calls *)

Module Runtime.
Import Py Models.

(** Python's [datetime]: the type and [datetime.utcfromtimestamp], which
    raises on a float it cannot convert (NaN, infinities, out of range). *)
Class DatetimeLib : Type := {
  datetime : Type;
  utcfromtimestamp : float -> result datetime;
}.

(** The SQLAlchemy session as the engine uses it. [execute s p] runs the
    MERGE statement of [insert_or_update_metrics] with parameters [p];
    [Some e] is the exception the call raises. [close], called in the
    [finally], is taken not to raise. *)
Class SessionOps (datetime : Type) (Sess : Type) : Type := {
  execute : Sess -> HealthMetric datetime -> Sess * option exn;
  commit : Sess -> Sess * option exn;
  rollback : Sess -> Sess * option exn;
  close : Sess -> Sess;
}.

(** [logging]: one entry per call. The f-string prefix [[{correlation_id}]]
    is kept as the value it renders. *)
Inductive level : Type := DEBUG | INFO | WARNING | ERROR.

Record log_entry : Type := LogEntry {
  log_level : level;
  log_id : option pyval;
  log_text : string;
}.

End Runtime.

(** ** main.py: the upsert engine *)

Module Engine.
Import Py Models Runtime.
Local Open Scope py_scope.

(** [metric['timestamp']] *)
Definition getitem (v : pyval) (k : string) : result pyval :=
  match v with
  | VDict d =>
      match d !! k with
      | Some x => Ok x
      | None => Raise (Exn "KeyError" ("'" +:+ k +:+ "'"))
      end
  | VList _ => Raise (Exn "TypeError" "list indices must be integers or slices, not str")
  | VStr _ => Raise (Exn "TypeError" "string indices must be integers, not 'str'")
  | _ => Raise (Exn "TypeError" ("'" +:+ type_name v +:+ "' object is not subscriptable"))
  end.

(** [float(z)]: round to nearest even, [OverflowError] past the largest
    binary64. *)
Definition float_of_int (z : Z) : result float :=
  let f := SF2Prim (binary_normalize prec emax z 0 false) in
  if PrimFloat.is_infinity f
  then Raise (Exn "OverflowError" "int too large to convert to float")
  else Ok f.

(** [v / c] for a non-zero float constant [c]. *)
Definition truediv (v : pyval) (c : float) : result float :=
  match v with
  | VBool b => Ok (PrimFloat.div (if b then 1%float else 0%float) c)
  | VInt z => f <- float_of_int z ;; Ok (PrimFloat.div f c)
  | VFloat f => Ok (PrimFloat.div f c)
  | _ => Raise (Exn "TypeError"
                  ("unsupported operand type(s) for /: '" +:+ type_name v
                     +:+ "' and 'float'"))
  end.

Record upsert_result : Type := {
  success : bool;
  inserted : Z;
  failed : Z;
  errors : list string;
}.

(** The result for a batch of one record that was written. *)
Definition persisted : upsert_result :=
  {| success := true; inserted := 1; failed := 0; errors := [] |}.

Section WithSession.
Context `{DT : DatetimeLib} {Sess : Type} `{SO : !SessionOps datetime Sess}.

(** The statements of the inner [try] up to the call of [session.execute]:
    the timestamp conversion and the twenty attribute reads. A value that
    can be subscripted with a string is a dict, so every [metric.get] that
    follows [metric['timestamp']] is a dict lookup. *)
Definition build_params (metric : pyval) : result (HealthMetric datetime) :=
  raw <- getitem metric "timestamp" ;;
  secs <- truediv raw 1000%float ;;
  ts <- utcfromtimestamp secs ;;
  match metric with
  | VDict d =>
      Ok {| user_id := dict_get d "userId";
            device_id := dict_get d "deviceId";
            timestamp := ts;
            heart_rate := dict_get d "heartRate";
            bp_systolic := dict_get d "bpSystolic";
            bp_diastolic := dict_get d "bpDiastolic";
            spo2 := dict_get d "spO2";
            steps := dict_get d "steps";
            calories := dict_get d "calories";
            distance := dict_get d "distance";
            temperature := dict_get d "temperature";
            blood_glucose := dict_get d "bloodGlucose";
            total_sleep := dict_get d "totalSleep";
            deep_sleep := dict_get d "deepSleep";
            light_sleep := dict_get d "lightSleep";
            stress := dict_get d "stress";
            met := dict_get d "met";
            mai := dict_get d "mai";
            is_wearing := dict_get_default d "isWearing" (VBool true);
            record_hash := dict_get d "recordHash" |}
  | _ => Raise (Exn "AttributeError"
                  ("'" +:+ type_name metric +:+ "' object has no attribute 'get'"))
  end.

(** The body of the inner [try]: the session after it, and the exception it
    raised if any. *)
Definition attempt (session : Sess) (metric : pyval) : Sess * option exn :=
  match build_params metric with
  | Raise e => (session, Some e)
  | Ok params => execute session params
  end.

(** The variables the loop updates. *)
Record loop_state : Type := {
  ls_session : Sess;
  inserted_count : Z;
  failed_count : Z;
  ls_errors : list string;
  ls_log : list log_entry;
}.

Definition error_msg (i : nat) (e : exn) : string :=
  "Record " +:+ str_int (Z.of_nat i) +:+ ": " +:+ exn_str e.

(** One iteration of [for i, metric in enumerate(metrics)], with its
    [try ... except Exception]. *)
Definition process (correlation_id : pyval) (i : nat) (st : loop_state) (metric : pyval)
    : loop_state :=
  match attempt (ls_session st) metric with
  | (session, None) =>
      {| ls_session := session;
         inserted_count := inserted_count st + 1;
         failed_count := failed_count st;
         ls_errors := ls_errors st;
         ls_log := ls_log st ++
           [LogEntry DEBUG (Some correlation_id)
              ("Record " +:+ str_int (Z.of_nat i) +:+ " inserted/updated successfully")] |}
  | (session, Some e) =>
      {| ls_session := session;
         inserted_count := inserted_count st;
         failed_count := failed_count st + 1;
         ls_errors := ls_errors st ++ [error_msg i e];
         ls_log := ls_log st ++ [LogEntry ERROR (Some correlation_id) (error_msg i e)] |}
  end.

Fixpoint loop (correlation_id : pyval) (i : nat) (metrics : list pyval) (st : loop_state)
    : loop_state :=
  match metrics with
  | [] => st
  | metric :: rest => loop correlation_id (S i) rest (process correlation_id i st metric)
  end.

(** [inserted_count = 0], [failed_count = 0], [errors = []] *)
Definition start (session : Sess) : loop_state :=
  {| ls_session := session; inserted_count := 0; failed_count := 0;
     ls_errors := []; ls_log := [] |}.

(** What a call leaves behind: the session (closed by the [finally]), the
    log, and the value returned or the exception raised. *)
Record outcome : Type := {
  final_session : Sess;
  logged : list log_entry;
  returned : result upsert_result;
}.

Definition insert_or_update_metrics (session : Sess) (metrics : list pyval)
    (correlation_id : pyval) : outcome :=
  let st := loop correlation_id 0 metrics (start session) in
  match commit (ls_session st) with
  | (session, None) =>
      {| final_session := close session;
         logged := ls_log st ++
           [LogEntry INFO (Some correlation_id)
              ("Batch committed: " +:+ str_int (inserted_count st)
                 +:+ " inserted/updated, " +:+ str_int (failed_count st) +:+ " failed")];
         returned := Ok {| success := (failed_count st =? 0)%Z;
                           inserted := inserted_count st;
                           failed := failed_count st;
                           errors := firstn 5 (ls_errors st) |} |}
  | (session, Some e) =>
      match rollback session with
      | (session, None) =>
          {| final_session := close session;
             logged := ls_log st ++
               [LogEntry ERROR (Some correlation_id) ("Transaction failed: " +:+ exn_str e)];
             returned := Raise (Exn "Exception" ("Batch insert failed: " +:+ exn_str e)) |}
      | (session, Some e') =>
          {| final_session := close session;
             logged := ls_log st;
             returned := Raise e' |}
      end
  end.

End WithSession.

End Engine.

(** ** The table [health_data] behind the session

    The MERGE statement of [insert_or_update_metrics] run against the table
    that [models.py] declares, inside one transaction per session. The
    server assigns [id] (an identity column: values are never reused, also
    after a rollback) and [CreatedAt] (the column default, the server's
    clock when the row is inserted). The table enforces what the class
    declares: NOT NULL columns, string lengths, and a parameter that does not
    fit its column's type is refused. *)

Module Store.
Import Py Models Runtime.
Local Open Scope py_scope.

Section Table.
Context {datetime : Type} `{EqDecision datetime}.

Record row : Type := {
  id : Z;
  UserId : string;
  DeviceId : string;
  Timestamp : datetime;
  RecordHash : string;
  cells : gmap string pyval;
  CreatedAt : Z;
}.

(** The natural key, the ON clause of the MERGE. *)
Definition key : Type := string * string * datetime * string.

Definition row_key (r : row) : key :=
  (UserId r, DeviceId r, Timestamp r, RecordHash r).

Definition matches (k : key) (r : row) : bool := bool_decide (row_key r = k).

(** What outlives a session. *)
Record database : Type := {
  table : list row;
  identity : Z;
  clock : Z;
}.

Record session : Type := {
  committed : list row;
  working : list row;
  next_id : Z;
  now : Z;
  commit_fault : option exn;
  closed : bool;
}.

Definition create_session (db : database) (fault : option exn) : session :=
  {| committed := table db; working := table db; next_id := identity db;
     now := clock db; commit_fault := fault; closed := false |}.

Definition database_of (s : session) : database :=
  {| table := committed s; identity := next_id s; clock := now s |}.

(** UPDATE SET ... of the MERGE; the INSERT gives the same columns the same
    values. *)
Definition set_clause (p : HealthMetric datetime) : list (string * pyval) :=
  [ ("HeartRate", heart_rate p);
    ("BPSystolic", bp_systolic p);
    ("BPDiastolic", bp_diastolic p);
    ("SpO2", spo2 p);
    ("Steps", steps p);
    ("Calories", calories p);
    ("Distance", distance p);
    ("Temperature", temperature p);
    ("BloodGlucose", blood_glucose p);
    ("TotalSleep", total_sleep p);
    ("DeepSleep", deep_sleep p);
    ("LightSleep", light_sleep p);
    ("Stress", stress p);
    ("MET", met p);
    ("MAI", mai p);
    ("IsWearing", is_wearing p) ].

Definition assigned (p : HealthMetric datetime) : gmap string pyval :=
  list_to_map (set_clause p).

(** Binding a parameter to a string column: NULL, or the text. *)
Definition text_param (column : string) (v : pyval) : result (option string) :=
  match v with
  | VNone => Ok None
  | VStr s => Ok (Some s)
  | _ => Raise (Exn "DataError"
                  ("Conversion failed for column '" +:+ column +:+ "'"))
  end.

(** Binding a parameter to an Integer or Float column. *)
Definition number_param (column : string) (v : pyval) : result unit :=
  if is_none v || is_numeric v then Ok tt
  else Raise (Exn "DataError" ("Conversion failed for column '" +:+ column +:+ "'")).

(** Binding [is_wearing]: Boolean, NOT NULL. *)
Definition wearing_param (v : pyval) : result unit :=
  match v with
  | VBool _ => Ok tt
  | VNone => Raise (Exn "IntegrityError"
                      "Cannot insert the value NULL into column 'IsWearing'")
  | _ => Raise (Exn "DataError" "Conversion failed for column 'IsWearing'")
  end.

Fixpoint bind_cells (l : list (string * pyval)) : result unit :=
  match l with
  | [] => Ok tt
  | (column, v) :: rest =>
      _ <- (if String.eqb column "IsWearing" then wearing_param v
            else number_param column v) ;;
      bind_cells rest
  end.

(** A string for a NOT NULL column of bounded length, on INSERT. *)
Definition required_text (column : string) (max : nat) (v : option string) : result string :=
  match v with
  | None => Raise (Exn "IntegrityError"
                     ("Cannot insert the value NULL into column '" +:+ column +:+ "'"))
  | Some s =>
      if Nat.leb (String.length s) max then Ok s
      else Raise (Exn "DataError"
                    ("String or binary data would be truncated in column '"
                       +:+ column +:+ "'"))
  end.

(** WHEN MATCHED: the mutable columns are overwritten, [id], the key and
    [CreatedAt] stay. *)
Definition update_row (p : HealthMetric datetime) (r : row) : row :=
  {| id := id r; UserId := UserId r; DeviceId := DeviceId r;
     Timestamp := Timestamp r; RecordHash := RecordHash r;
     cells := assigned p ∪ cells r;
     CreatedAt := CreatedAt r |}.

(** WHEN NOT MATCHED: the inserted row, with the identity value and the
    clock's reading the server supplies. *)
Definition new_row (ident : Z) (u d h : string) (time : Z) (p : HealthMetric datetime)
    : row :=
  {| id := ident; UserId := u; DeviceId := d; Timestamp := timestamp p;
     RecordHash := h; cells := assigned p; CreatedAt := time |}.

Definition update_matching (k : key) (p : HealthMetric datetime) (rows : list row)
    : list row :=
  map (fun r => if matches k r then update_row p r else r) rows.

(** The MERGE on the rows the transaction sees: the rows after it and the
    next identity value. A NULL in the source never equals a key column, so
    such a source row is NOT MATCHED. *)
Definition merge (rows : list row) (ident time : Z) (p : HealthMetric datetime)
    : result (list row * Z) :=
  u <- text_param "UserId" (user_id p) ;;
  d <- text_param "DeviceId" (device_id p) ;;
  h <- text_param "RecordHash" (record_hash p) ;;
  _ <- bind_cells (set_clause p) ;;
  let matched :=
    match u, d, h with
    | Some u, Some d, Some h =>
        if existsb (matches (u, d, timestamp p, h)) rows
        then Some (u, d, timestamp p, h) else None
    | _, _, _ => None
    end in
  match matched with
  | Some k => Ok (update_matching k p rows, ident)
  | None =>
      u <- required_text "UserId" UserId_max u ;;
      d <- required_text "DeviceId" DeviceId_max d ;;
      h <- required_text "RecordHash" RecordHash_max h ;;
      Ok (rows ++ [new_row ident u d h time p], (ident + 1)%Z)
  end.

(** [session.execute(merge_sql, params)]: a statement either takes effect
    as a whole or raises and leaves the rows as they were; the server's
    clock moves on either way. *)
Definition execute_merge (s : session) (p : HealthMetric datetime) : session * option exn :=
  match merge (working s) (next_id s) (now s) p with
  | Ok (rows, ident) =>
      ({| committed := committed s; working := rows; next_id := ident;
          now := (now s + 1)%Z; commit_fault := commit_fault s; closed := closed s |}, None)
  | Raise e =>
      ({| committed := committed s; working := working s; next_id := next_id s;
          now := (now s + 1)%Z; commit_fault := commit_fault s; closed := closed s |}, Some e)
  end.

(** [session.commit()]: raises [commit_fault] if the connection is lost at
    that point, else makes the working rows durable. *)
Definition commit_session (s : session) : session * option exn :=
  match commit_fault s with
  | Some e => (s, Some e)
  | None =>
      ({| committed := working s; working := working s; next_id := next_id s;
          now := now s; commit_fault := None; closed := closed s |}, None)
  end.

Definition rollback_session (s : session) : session * option exn :=
  ({| committed := committed s; working := committed s; next_id := next_id s;
      now := now s; commit_fault := commit_fault s; closed := closed s |}, None).

(** [session.close()] releases the connection; what was not committed is
    gone. *)
Definition close_session (s : session) : session :=
  {| committed := committed s; working := committed s; next_id := next_id s;
     now := now s; commit_fault := commit_fault s; closed := true |}.

#[export] Instance table_session : SessionOps datetime session := {
  execute := execute_merge;
  commit := commit_session;
  rollback := rollback_session;
  close := close_session;
}.

(** The natural key a statement's parameters carry, when all of its parts
    are there. *)
Definition natural_key (p : HealthMetric datetime) : option key :=
  match user_id p, device_id p, record_hash p with
  | VStr u, VStr d, VStr h => Some (u, d, timestamp p, h)
  | _, _, _ => None
  end.

(** The rows stored under a key. *)
Definition rows_with (k : key) (rows : list row) : list row :=
  filter (fun r => row_key r = k) rows.

(** The table holds at most one row per natural key. *)
Definition keys_unique (rows : list row) : Prop :=
  NoDup (map row_key rows).

End Table.
Arguments row : clear implicits.
Arguments key : clear implicits.
Arguments database : clear implicits.
Arguments session : clear implicits.

End Store.

(** ** main.py: the HTTP entry point *)

Module Main.
Import Py Models Runtime Validators Engine.
Local Open Scope py_scope.

Inductive body : Type :=
| Text (s : string)
| Json (fields : list (string * pyval)).

Record response : Type := {
  resp_body : body;
  status : Z;
  headers : list (string * string);
}.

(** The parts of the Flask request the function reads. [get_json] is what
    [request.get_json()] returns or raises. *)
Record request : Type := {
  method : string;
  get_json : result pyval;
  remote_addr : string;
}.

(** [len(v)] *)
Definition len (v : pyval) : result Z :=
  match v with
  | VStr s => Ok (Z.of_nat (String.length s))
  | VList l => Ok (Z.of_nat (length l))
  | VDict d => Ok (Z.of_nat (size d))
  | _ => Raise (Exn "TypeError" ("object of type '" +:+ type_name v +:+ "' has no len()"))
  end.

(** The elements the engine's [for] loop visits. [uploadHealthMetrics]
    passes [metrics] on only after [validate_batch] accepted it, and
    [validate_batch] accepts lists only. *)
Definition items (metrics : pyval) : list pyval :=
  match metrics with
  | VList l => l
  | _ => []
  end.

Definition strings (l : list string) : pyval := VList (map VStr l).

Section WithSession.
Context `{DT : DatetimeLib} {Sess : Type} `{SO : !SessionOps datetime Sess}.

(** What the function takes from its surroundings: the session
    [get_db_engine] and [sessionmaker] give (or the exception they raise),
    and two readings of the wall clock. *)
Record environment : Type := {
  new_session : result Sess;
  clock_millis : Z;
  duration_ms : Z;
}.

Record run : Type := {
  sent : response;
  run_log : list log_entry;
  session_after : option Sess;
}.

Definition reply (b : body) (code : Z) (log : list log_entry) (s : option Sess) : run :=
  {| sent := {| resp_body := b; status := code; headers := [] |};
     run_log := log; session_after := s |}.

Definition create_session (env : environment) : result Sess * list log_entry :=
  match new_session env with
  | Ok s => (Ok s, [])
  | Raise e =>
      (Raise e,
       [LogEntry ERROR None ("Erreur lors de la création de la session: " +:+ exn_str e)])
  end.

(** The handler of the outermost [try]. *)
Definition unexpected (e : exn) (correlation_id : pyval) (log : list log_entry)
    (s : option Sess) : run :=
  let log_id := if truthy correlation_id then correlation_id else VStr "unknown" in
  reply (Json [ ("error", VStr "Internal server error");
                ("message", VStr (exn_str e));
                ("correlationId", correlation_id) ])
        500
        (log ++ [LogEntry ERROR (Some log_id) ("Unexpected error: " +:+ exn_str e)])
        s.

(** The handler of the [try] around the database work. *)
Definition database_failed (e : exn) (correlation_id : pyval) (log : list log_entry)
    (s : option Sess) : run :=
  reply (Json [ ("error", VStr "Database insertion failed");
                ("message", VStr (exn_str e)) ])
        500
        (log ++ [LogEntry ERROR (Some correlation_id) ("Database error: " +:+ exn_str e)])
        s.

(** Steps 4 and 5: the response for a result of the engine. *)
Definition status_of (result : upsert_result) : Z :=
  if success result then 200
  else if (0 <? inserted result)%Z then 207
  else 500.

Definition respond (env : environment) (result : upsert_result) (correlation_id : pyval)
    (log : list log_entry) (s : option Sess) : run :=
  let response :=
    [ ("success", VBool (success result));
      ("syncedCount", VInt (inserted result));
      ("failedCount", VInt (failed result));
      ("durationMs", VInt (duration_ms env));
      ("correlationId", correlation_id) ] in
  let response :=
    if truthy (strings (errors result))
    then response ++ [("errors", strings (errors result))]
    else response in
  let entry :=
    if success result
    then LogEntry INFO (Some correlation_id)
           ("✅ Success: " +:+ str_int (inserted result) +:+ " synced in "
              +:+ str_int (duration_ms env) +:+ "ms")
    else if (0 <? inserted result)%Z
    then LogEntry WARNING (Some correlation_id)
           ("⚠️  Partial success: " +:+ str_int (inserted result) +:+ " synced, "
              +:+ str_int (failed result) +:+ " failed")
    else LogEntry ERROR (Some correlation_id)
           ("❌ Complete failure: " +:+ str_int (failed result) +:+ " failed") in
  reply (Json response) (status_of result) (log ++ [entry]) s.

(** Step 3: connect and upsert. *)
Definition store_metrics (env : environment) (metrics correlation_id : pyval)
    (log : list log_entry) : run :=
  match create_session env with
  | (Raise e, l) => database_failed e correlation_id (log ++ l) None
  | (Ok session, l) =>
      let out := insert_or_update_metrics session (items metrics) correlation_id in
      let log := log ++ l ++ logged out in
      match returned out with
      | Raise e => database_failed e correlation_id log (Some (final_session out))
      | Ok result => respond env result correlation_id log (Some (final_session out))
      end
  end.

(** [data.get('metrics', [])] and
    [data.get('correlationId', f"auto-{int(datetime.now().timestamp() * 1000)}")] *)
Definition metrics_of (d : gmap string pyval) : pyval :=
  dict_get_default d "metrics" (VList []).

Definition correlation_of (env : environment) (d : gmap string pyval) : pyval :=
  dict_get_default d "correlationId" (VStr ("auto-" +:+ str_int (clock_millis env))).

Definition uploadHealthMetrics (env : environment) (request : request) : run :=
  if String.eqb (method request) "OPTIONS"
  then {| sent := {| resp_body := Text ""; status := 204;
                     headers :=
                       [ ("Access-Control-Allow-Origin", "*");
                         ("Access-Control-Allow-Methods", "POST, OPTIONS");
                         ("Access-Control-Allow-Headers",
                          "Content-Type, X-Correlation-ID, X-App-Version");
                         ("Access-Control-Max-Age", "3600") ] |};
          run_log := []; session_after := None |}
  else
    match get_json request with
    | Raise e =>
        reply (Json [("error", VStr "Invalid JSON format")]) 400
              [LogEntry ERROR None ("JSON parsing error: " +:+ exn_str e)] None
    | Ok data =>
        if negb (truthy data)
        then reply (Json [("error", VStr "Invalid request: empty body")]) 400
                   [LogEntry ERROR None "Empty request body"] None
        else
          match data with
          | VDict d =>
              let metrics := metrics_of d in
              let correlation_id := correlation_of env d in
              match len metrics with
              | Raise e => unexpected e correlation_id [] None
              | Ok n =>
                  let log :=
                    [LogEntry INFO (Some correlation_id)
                       ("Received " +:+ str_int n +:+ " metrics from "
                          +:+ remote_addr request)] in
                  match validate_batch metrics with
                  | Raise e => unexpected e correlation_id log None
                  | Ok (is_valid, validation_errors) =>
                      if negb is_valid
                      then reply (Json [ ("error", VStr "Validation failed");
                                         ("details", strings (firstn 10 validation_errors)) ])
                                 400
                                 (log ++ [LogEntry WARNING (Some correlation_id)
                                            ("Validation failed: "
                                               +:+ str_int (Z.of_nat (length validation_errors))
                                               +:+ " errors")])
                                 None
                      else store_metrics env metrics correlation_id log
                  end
              end
          | _ =>
              unexpected
                (Exn "AttributeError"
                   ("'" +:+ type_name data +:+ "' object has no attribute 'get'"))
                VNone [] None
          end
    end.

End WithSession.
Arguments environment : clear implicits.
Arguments run : clear implicits.

End Main.

(** ** A datetime library and a server to run the model on

    [datetime] as whole microseconds since the epoch, following CPython's
    [utcfromtimestamp] on a float: the value is split into its integral and
    fractional parts, the fractional part is multiplied by 1e6 as a float
    and that product rounded half to even; the seconds must fit the
    platform's 64-bit [time_t], the year the C [int] of [gmtime], and the
    result the years 1 to 9999. The properties below hold for any
    [DatetimeLib]; this one serves to evaluate the model on the
    specification's scenarios. *)

Module Micros.
Import Py Runtime.

Definition round_half_even (n d : Z) : Z :=
  let q := (n / d)%Z in
  let r := (n mod d)%Z in
  if (2 * r <? d)%Z then q
  else if (d <? 2 * r)%Z then (q + 1)%Z
  else if Z.even q then q else (q + 1)%Z.

(** [modf]: the integral part, towards zero, and the fractional part, which
    a float holds exactly. *)
Definition modf (f : float) : Z * float :=
  match Prim2SF f with
  | S754_finite sign m e =>
      if (0 <=? e)%Z
      then ((if sign then - (Z.pos m * 2 ^ e) else Z.pos m * 2 ^ e)%Z, 0%float)
      else
        let whole := (Z.pos m / 2 ^ (- e))%Z in
        let rest := (Z.pos m mod 2 ^ (- e))%Z in
        ((if sign then - whole else whole)%Z,
         SF2Prim (binary_normalize prec emax (if sign then - rest else rest)%Z e false))
  | _ => (0%Z, 0%float)
  end.

(** A finite float rounded to the nearest integer, half to even. *)
Definition rounded (f : float) : Z :=
  match Prim2SF f with
  | S754_finite sign m e =>
      let mag :=
        if (0 <=? e)%Z then (Z.pos m * 2 ^ e)%Z
        else round_half_even (Z.pos m) (2 ^ (- e)) in
      if sign then (- mag)%Z else mag
  | _ => 0%Z
  end.

(** The year of the day [days] after 1970-01-01, in the proleptic
    Gregorian calendar. *)
Definition year_of_days (days : Z) : Z :=
  let z := (days + 719468)%Z in
  let era := (z / 146097)%Z in
  let doe := (z - era * 146097)%Z in
  let yoe := ((doe - doe / 1460 + doe / 36524 - doe / 146096) / 365)%Z in
  let doy := (doe - (365 * yoe + yoe / 4 - yoe / 100))%Z in
  let mp := ((5 * doy + 2) / 153)%Z in
  let month := (if (mp <? 10)%Z then mp + 3 else mp - 9)%Z in
  (yoe + era * 400 + (if (month <=? 2)%Z then 1 else 0))%Z.

Definition time_t_overflow : exn :=
  Exn "OverflowError" "timestamp out of range for platform time_t".

(** The seconds and microseconds of a finite float; a fractional part that
    rounds to a whole second is carried over, a negative one borrowed. *)
Definition seconds_and_micros (f : float) : Z * Z :=
  let (whole, frac) := modf f in
  let us := rounded (PrimFloat.mul frac 1000000%float) in
  if (1000000 <=? us)%Z then ((whole + 1)%Z, (us - 1000000)%Z)
  else if (us <? 0)%Z then ((whole - 1)%Z, (us + 1000000)%Z)
  else (whole, us).

Definition micros_of_float (f : float) : result Z :=
  match Prim2SF f with
  | S754_nan => Raise (Exn "ValueError" "Invalid value NaN (not a number)")
  | S754_infinity _ => Raise time_t_overflow
  | _ =>
      let (secs, us) := seconds_and_micros f in
      if negb ((- 2 ^ 63 <=? secs) && (secs <? 2 ^ 63))%Z
      then Raise time_t_overflow
      else
        let year := year_of_days (secs / 86400) in
        if negb ((- 2 ^ 31 <=? year - 1900) && (year - 1900 <? 2 ^ 31))%Z
        then Raise (Exn "OSError" "[Errno 75] Value too large for defined data type")
        else if negb ((1 <=? year) && (year <=? 9999))%Z
        then Raise (Exn "ValueError" ("year " +:+ str_int year +:+ " is out of range"))
        else Ok (secs * 1000000 + us)%Z
  end.

#[export] Instance micros : DatetimeLib := {
  datetime := Z;
  utcfromtimestamp := micros_of_float;
}.

End Micros.

(** ** The specification's words, as definitions *)

Module Spec.
Import Py Validators.
Local Open Scope py_scope.

(** The optional fields of the typed-range table other than [isWearing]. *)
Definition ranged_fields : list string :=
  [ "heartRate"; "bpSystolic"; "bpDiastolic"; "spO2"; "temperature";
    "bloodGlucose"; "steps"; "calories"; "distance"; "totalSleep";
    "deepSleep"; "lightSleep"; "stress"; "met"; "mai" ].

(** "Runs Field Validator over every element, concatenating violations with
    element index". *)
Fixpoint concatenated_violations (i : nat) (records : list (gmap string pyval))
    : result (list string) :=
  match records with
  | [] => Ok []
  | r :: rest =>
      errs <- validate_metric r (Z.of_nat i) ;;
      more <- concatenated_violations (S i) rest ;;
      Ok (errs ++ more)
  end.

(** The same over any elements, with what the loop of [validate_batch]
    adds for each. *)
Fixpoint collected (i : nat) (elements : list pyval) : result (list string) :=
  match elements with
  | [] => Ok []
  | v :: rest =>
      errs <- element_errors i v ;;
      more <- collected (S i) rest ;;
      Ok (errs ++ more)
  end.

(** "Checked only if present and non-null": with the field present and
    null the validator answers as it does with the field absent. *)
Definition null_is_unchecked (f : string) : Prop :=
  forall (metric : gmap string pyval) (index : Z),
    validate_metric (<[f := VNone]> metric) index =
    validate_metric (delete f metric) index.

Definition accepted (r : result (bool * list string)) : Prop :=
  exists violations, r = Ok (true, violations).

Definition rejected (r : result (bool * list string)) : Prop :=
  exists violations, r = Ok (false, violations).

(** "Rejected with a single-item violation list". *)
Definition single_violation (r : result (bool * list string)) : Prop :=
  exists violation, r = Ok (false, [violation]).

(** "Contains only a generic message plus the correlation id, and never
    the underlying storage error detail". *)
Definition body_field (b : Main.body) (k : string) : option pyval :=
  match b with
  | Main.Text _ => None
  | Main.Json fields => snd <$> List.find (fun kv => String.eqb (fst kv) k) fields
  end.

Definition mentions (detail text : string) : bool :=
  match String.index 0 detail text with
  | Some _ => true
  | None => false
  end.

Definition generic_error_body (correlation_id : pyval) (detail : string) (b : Main.body)
    : Prop :=
  body_field b "correlationId" = Some correlation_id /\
  forall k text, body_field b k = Some (VStr text) -> mentions detail text = false.

Definition is_record (v : pyval) : bool :=
  match v with
  | VDict _ => true
  | _ => false
  end.

End Spec.

(** ** Data to run the model on *)

Module Samples.
Import Py Models Runtime Validators Engine Store Main Micros.

(** The record of the specification's end-to-end scenario. *)
Definition reading : gmap string pyval :=
  <["userId" := VStr "u1"]>
    (<["deviceId" := VStr "d1"]>
       (<["timestamp" := VInt 1704067200000]>
          (<["heartRate" := VInt 72]>
             (<["recordHash" := VStr "h1"]> ∅)))).

Definition later_reading : gmap string pyval :=
  <["timestamp" := VInt 1704067260000]> reading.

(** A valid record the table refuses: its [userId] exceeds the column. *)
Definition oversized_reading : gmap string pyval :=
  <["userId" := VStr (String.concat "" (replicate 101 "x"))]> reading.

Definition empty_db : database Z := {| table := []; identity := 1; clock := 1000 |}.

Definition connection_lost : exn := Exn "OperationalError" "connection lost".

Definition env_with (fault : option exn) : environment (Store.session Z) :=
  {| new_session := Ok (Store.create_session empty_db fault);
     clock_millis := 1704067300000; duration_ms := 7 |}.

Definition post (data : pyval) : request :=
  {| method := "POST"; get_json := Ok data; remote_addr := "192.0.2.1" |}.

Definition payload (l : list pyval) : gmap string pyval :=
  <["metrics" := VList l]> (<["correlationId" := VStr "c1"]> ∅).

(** The body of the end-to-end scenario. *)
Definition scenario : gmap string pyval := payload [VDict reading].

(** Three valid records of which the table refuses the second. *)
Definition three : list pyval :=
  [VDict reading; VDict oversized_reading; VDict later_reading].

Definition truncated : exn :=
  Exn "DataError" "String or binary data would be truncated in column 'UserId'".

End Samples.

(** ** The validator's rules, as conditions on the record *)

Module Rules.
Import Py Validators.

(** [lo <= v <= hi] on a value that passed the type test; false for a
    NaN. *)
Definition within (lo hi : Z) (v : pyval) : bool :=
  match v with
  | VBool b => (lo <=? Z.b2z b)%Z && (Z.b2z b <=? hi)%Z
  | VInt z => (lo <=? z)%Z && (z <=? hi)%Z
  | VFloat f => PrimFloat.leb (float_of_const lo) f && PrimFloat.leb f (float_of_const hi)
  | _ => false
  end.

(** [v < 0] on a value that passed the type test; false for a NaN. *)
Definition negative (v : pyval) : bool :=
  match v with
  | VBool b => (Z.b2z b <? 0)%Z
  | VInt z => (z <? 0)%Z
  | VFloat f => PrimFloat.ltb f (float_of_const 0)
  | _ => false
  end.

Definition type_ok (integer : bool) (v : pyval) : bool :=
  if integer then is_int v else is_numeric v.

Definition type_word (integer : bool) : string :=
  if integer then "integer" else "numeric".

(** What a ranged field adds to the violations, and when it adds nothing. *)
Definition range_msgs (integer : bool) (metric : gmap string pyval) (index : Z)
    (k : string) (lo hi : Z) (range : string) : list string :=
  match present metric k with
  | None => []
  | Some v =>
      if negb (type_ok integer v)
      then [record_msg index (k +:+ " must be " +:+ type_word integer)]
      else if within lo hi v then []
      else [record_msg index (k +:+ " out of range (" +:+ range +:+ ")")]
  end.

Definition range_ok (integer : bool) (metric : gmap string pyval) (k : string)
    (lo hi : Z) : bool :=
  match present metric k with
  | None => true
  | Some v => type_ok integer v && within lo hi v
  end.

Definition nonneg_msgs (integer : bool) (metric : gmap string pyval) (index : Z)
    (k : string) : list string :=
  match present metric k with
  | None => []
  | Some v =>
      if negb (type_ok integer v)
      then [record_msg index (k +:+ " must be " +:+ type_word integer)]
      else if negative v then [record_msg index (k +:+ " cannot be negative")]
      else []
  end.

Definition nonneg_ok (integer : bool) (metric : gmap string pyval) (k : string) : bool :=
  match present metric k with
  | None => true
  | Some v => type_ok integer v && negb (negative v)
  end.

Definition wearing_ok (metric : gmap string pyval) : bool :=
  match metric !! "isWearing" with
  | None => true
  | Some v => is_bool v
  end.

(** The timestamp is there, is a number, and [timestamp <= 0] is false:
    so it is for every positive number, and for a NaN. *)
Definition timestamp_ok (metric : gmap string pyval) : bool :=
  match dict_get metric "timestamp" with
  | VBool b => negb (Z.b2z b <=? 0)%Z
  | VInt z => negb (z <=? 0)%Z
  | VFloat f => negb (PrimFloat.leb f (float_of_const 0))
  | _ => false
  end.

(** The timestamp is one [timestamp <= 0] can be asked of. *)
Definition timestamp_comparable (metric : gmap string pyval) : bool :=
  is_none (dict_get metric "timestamp") || is_numeric (dict_get metric "timestamp").

(** The violations of a record whose timestamp test answered [bad], in the
    order [validate_metric] appends them. *)
Definition violations (metric : gmap string pyval) (index : Z) (bad : bool) : list string :=
  append_if (negb (truthy (dict_get metric "userId")))
    (record_msg index "userId is required") []
  ++ append_if (negb (truthy (dict_get metric "deviceId")))
       (record_msg index "deviceId is required") []
  ++ append_if bad (record_msg index "invalid timestamp (must be positive)") []
  ++ append_if (negb (truthy (dict_get metric "recordHash")))
       (record_msg index "recordHash is required for deduplication") []
  ++ range_msgs false metric index "heartRate" 30 220 "30-220 bpm"
  ++ range_msgs false metric index "bpSystolic" 60 280 "60-280 mmHg"
  ++ range_msgs false metric index "bpDiastolic" 30 150 "30-150 mmHg"
  ++ range_msgs false metric index "spO2" 70 100 "70-100%"
  ++ range_msgs false metric index "temperature" 35 41 "35.0-41.0°C"
  ++ range_msgs false metric index "bloodGlucose" 50 500 "50-500"
  ++ nonneg_msgs true metric index "steps"
  ++ nonneg_msgs false metric index "calories"
  ++ nonneg_msgs false metric index "distance"
  ++ range_msgs true metric index "totalSleep" 0 1440 "0-1440 minutes"
  ++ range_msgs true metric index "deepSleep" 0 1440 "0-1440 minutes"
  ++ range_msgs true metric index "lightSleep" 0 1440 "0-1440 minutes"
  ++ range_msgs true metric index "stress" 0 100 "0-100"
  ++ range_msgs false metric index "met" 0 20 "0.0-20.0"
  ++ range_msgs true metric index "mai" 0 100 "0-100"
  ++ wearing_check metric index [].

(** The message is attributed to the element at [index]. *)
Definition names_record (index : Z) (msg : string) : Prop :=
  exists text, msg = record_msg index text.

(** The record meets every rule of the validator, as its comparisons
    decide them. *)
Definition valid_record (metric : gmap string pyval) : bool :=
  truthy (dict_get metric "userId")
  && truthy (dict_get metric "deviceId")
  && timestamp_ok metric
  && truthy (dict_get metric "recordHash")
  && range_ok false metric "heartRate" 30 220
  && range_ok false metric "bpSystolic" 60 280
  && range_ok false metric "bpDiastolic" 30 150
  && range_ok false metric "spO2" 70 100
  && range_ok false metric "temperature" 35 41
  && range_ok false metric "bloodGlucose" 50 500
  && nonneg_ok true metric "steps"
  && nonneg_ok false metric "calories"
  && nonneg_ok false metric "distance"
  && range_ok true metric "totalSleep" 0 1440
  && range_ok true metric "deepSleep" 0 1440
  && range_ok true metric "lightSleep" 0 1440
  && range_ok true metric "stress" 0 100
  && range_ok false metric "met" 0 20
  && range_ok true metric "mai" 0 100
  && wearing_ok metric.

(** An element the batch validator has nothing to say against, and one
    on which it raises. *)
Definition valid_element (v : pyval) : Prop :=
  exists d, v = VDict d /\ valid_record d = true.

Definition raising_element (v : pyval) : Prop :=
  exists d, v = VDict d /\ timestamp_comparable d = false.

(** The inclusive bounds of the ranged fields, as the comparisons of
    [validate_metric] have them. *)
Definition bounds : list (string * (Z * Z)) :=
  [ ("heartRate", (30, 220)); ("bpSystolic", (60, 280)); ("bpDiastolic", (30, 150));
    ("spO2", (70, 100)); ("temperature", (35, 41)); ("bloodGlucose", (50, 500));
    ("totalSleep", (0, 1440)); ("deepSleep", (0, 1440)); ("lightSleep", (0, 1440));
    ("stress", (0, 100)); ("met", (0, 20)); ("mai", (0, 100)) ]%Z.

End Rules.

(** ** Batches against the table *)

Module Batches.
Import Py Models Runtime Engine Store.

Section Table.
Context `{DT : DatetimeLib} `{EQ : !EqDecision datetime}.

(** One call of the engine in a session of its own: the database it
    leaves and what it returns or raises. [fault] is the exception the
    commit will raise, if any. *)
Definition submit (db : Store.database datetime) (fault : option exn)
    (metrics : list pyval) (correlation_id : pyval)
    : Store.database datetime * result upsert_result :=
  let out := insert_or_update_metrics (Store.create_session db fault) metrics correlation_id in
  (database_of (final_session out), returned out).

(** What no statement of the engine writes: the surrogate id, the natural
    key and [CreatedAt]. *)
Definition skeleton (r : Store.row datetime) : Z * Store.key datetime * Z :=
  (id r, row_key r, CreatedAt r).

(** The natural key a record of the batch carries, if it gets as far as
    having one. *)
Definition metric_key (metric : pyval) : option (Store.key datetime) :=
  match build_params metric with
  | Ok p => natural_key p
  | Raise _ => None
  end.

Definition batch_keys (metrics : list pyval) : list (Store.key datetime) :=
  omap metric_key metrics.

(** The key fits the columns' declared lengths. *)
Definition fits (k : Store.key datetime) : bool :=
  let '(u, d, _, h) := k in
  Nat.leb (String.length u) UserId_max
  && Nat.leb (String.length d) DeviceId_max
  && Nat.leb (String.length h) RecordHash_max.

(** What a record's statement does to a stored row when it can only
    update: rows under its key take its values, the others stay. *)
Definition rewrite_row (metric : pyval) (r : Store.row datetime) : Store.row datetime :=
  match build_params metric with
  | Ok p =>
      match natural_key p, bind_cells (set_clause p) with
      | Some k, Ok _ => if matches k r then update_row p r else r
      | _, _ => r
      end
  | Raise _ => r
  end.

Definition settle (metrics : list pyval) (r : Store.row datetime) : Store.row datetime :=
  fold_left (fun r metric => rewrite_row metric r) metrics r.

(** Every record of the batch whose statement could insert already has a
    row under its key. *)
Definition settled_for (rows : list (Store.row datetime)) (metrics : list pyval) : Prop :=
  forall metric p k,
    In metric metrics -> build_params metric = Ok p -> natural_key p = Some k ->
    bind_cells (set_clause p) = Ok tt -> fits k = true ->
    existsb (matches k) rows = true.

(** Every key of [rows'] is a key of [rows] or fits the columns, and no key
    of [rows] is missing from [rows']. *)
Definition grown_from (rows rows' : list (Store.row datetime)) : Prop :=
  (forall k, existsb (matches k) rows = true -> existsb (matches k) rows' = true) /\
  (forall k, existsb (matches k) rows' = true ->
             existsb (matches k) rows = true \/ fits k = true).

End Table.

End Batches.

(** ** config.py: secrets, the connection URL and the cached engine *)

Module Config.
Import Py Runtime.
Local Open Scope py_scope.

Section WithEngine.
Context {Engine : Type}.

(** What the module calls outside the repository: the Secret Manager
    client (creating it, [access_secret_version] on a resource name and
    decoding the payload, as one step that returns the text or raises),
    SQLAlchemy's [create_engine] on a URL, and [event.listens_for(engine,
    identifier)] applied to a listener, with the exception it raises if
    any. *)
Record cloud : Type := {
  access_secret_version : string -> result string;
  create_engine : string -> result Engine;
  listens_for : Engine -> string -> option exn;
}.

(** The module's state: the global [_db_engine], and what it has done so
    far: the secrets it looked up, the URLs it created engines for, and its
    log. *)
Record process : Type := {
  _db_engine : option Engine;
  lookups : list string;
  created : list string;
  log : list log_entry;
}.

Definition logged (entry : log_entry) (w : process) : process :=
  {| _db_engine := _db_engine w; lookups := lookups w; created := created w;
     log := log w ++ [entry] |}.

Definition secret_name (project_id secret_id : string) : string :=
  "projects/" +:+ project_id +:+ "/secrets/" +:+ secret_id +:+ "/versions/latest".

Definition get_secret (c : cloud) (secret_id project_id : string) (w : process)
    : result string * process :=
  let name := secret_name project_id secret_id in
  let w := {| _db_engine := _db_engine w; lookups := lookups w ++ [name];
              created := created w; log := log w |} in
  match access_secret_version c name with
  | Ok payload => (Ok payload, w)
  | Raise e =>
      (Raise e,
       logged (LogEntry ERROR None
                 ("Erreur lors de la récupération du secret " +:+ secret_id +:+ ": "
                    +:+ exn_str e)) w)
  end.

(** The default of [project_id]. *)
Definition default_project : string := "smart-watch-hub".

Definition connection_string (server database user password : string) : string :=
  "mssql+pyodbc://" +:+ user +:+ ":" +:+ password +:+ "@" +:+ server +:+ ":1433/"
    +:+ database +:+ "?"
    +:+ "driver=ODBC+Driver+17+for+SQL+Server&"
    +:+ "Encrypt=yes&"
    +:+ "TrustServerCertificate=no&"
    +:+ "Connection+Timeout=30".

(** The handler of [get_database_url]: log and raise again. *)
Definition secrets_failed (e : exn) (w : process) : result string * process :=
  (Raise e,
   logged (LogEntry ERROR None ("Impossible de charger les secrets: " +:+ exn_str e)) w).

Definition get_database_url (c : cloud) (w : process) : result string * process :=
  match get_secret c "azure-sql-server" default_project w with
  | (Raise e, w) => secrets_failed e w
  | (Ok server, w) =>
  match get_secret c "azure-sql-database" default_project w with
  | (Raise e, w) => secrets_failed e w
  | (Ok database, w) =>
  match get_secret c "azure-sql-user" default_project w with
  | (Raise e, w) => secrets_failed e w
  | (Ok user, w) =>
  match get_secret c "azure-sql-password" default_project w with
  | (Raise e, w) => secrets_failed e w
  | (Ok password, w) => (Ok (connection_string server database user password), w)
  end end end end.

(** The identifiers of the two listeners, in the order the decorators
    register them. *)
Definition listener_events : list string := ["connect"; "pool_connect"].

(** [create_engine(database_url, ...)], then the two decorated listeners:
    each decorator registers its function with the engine as the [def] is
    executed, and an exception of either ends the call with no engine
    returned. The listeners themselves run on later connections only. *)
Definition create_db_engine (c : cloud) (w : process) : result Engine * process :=
  match get_database_url c w with
  | (Raise e, w) => (Raise e, w)
  | (Ok database_url, w) =>
      let w := {| _db_engine := _db_engine w; lookups := lookups w;
                  created := created w ++ [database_url]; log := log w |} in
      match create_engine c database_url with
      | Raise e => (Raise e, w)
      | Ok engine =>
          match listens_for c engine "connect" with
          | Some e => (Raise e, w)
          | None =>
              match listens_for c engine "pool_connect" with
              | Some e => (Raise e, w)
              | None => (Ok engine, w)
              end
          end
      end
  end.

Definition get_db_engine (c : cloud) (w : process) : result Engine * process :=
  match _db_engine w with
  | Some engine => (Ok engine, w)
  | None =>
      match create_db_engine c w with
      | (Ok engine, w) =>
          (Ok engine,
           logged (LogEntry INFO None "Database engine created successfully")
             {| _db_engine := Some engine; lookups := lookups w; created := created w;
                log := log w |})
      | (Raise e, w) =>
          (Raise e,
           logged (LogEntry ERROR None
                     ("Erreur lors de la création du moteur de base de données: "
                        +:+ exn_str e)) w)
      end
  end.

(** The four secrets of [get_database_url], in the order it reads them. *)
Definition url_secrets : list string :=
  map (secret_name default_project)
      ["azure-sql-server"; "azure-sql-database"; "azure-sql-user"; "azure-sql-password"].

End WithEngine.
Arguments cloud : clear implicits.
Arguments process : clear implicits.

End Config.

(** ** models.py: [to_dict] *)

Module ModelsDict.
Import Py Models Runtime.
Local Open Scope py_scope.

(** [int(x)] of a float: towards zero; it raises on a NaN and on an
    infinity. *)
Definition int_of_float (f : float) : result Z :=
  match Prim2SF f with
  | S754_zero _ => Ok 0%Z
  | S754_finite sign m e =>
      let mag := if (0 <=? e)%Z then (Z.pos m * 2 ^ e)%Z else (Z.pos m / 2 ^ (- e))%Z in
      Ok (if sign then - mag else mag)%Z
  | S754_infinity _ =>
      Raise (Exn "OverflowError" "cannot convert float infinity to integer")
  | S754_nan => Raise (Exn "ValueError" "cannot convert float NaN to integer")
  end.

(** The two methods of [datetime] that [to_dict] calls. *)
Class DatetimeRead `{DT : DatetimeLib} : Type := {
  dt_timestamp : datetime -> result float;
  isoformat : datetime -> string;
}.

Section WithDatetime.
Context `{DR : DatetimeRead}.

(** A [HealthMetric] object: the attributes the constructor was given and
    the two the server fills in, [None] until then. *)
Record instance : Type := {
  columns : HealthMetric datetime;
  inst_id : pyval;
  created_at : option datetime;
}.

(** [HealthMetric(...)] as [insert_or_update_metrics] calls it. *)
Definition constructed (p : HealthMetric datetime) : instance :=
  {| columns := p; inst_id := VNone; created_at := None |}.

Definition to_dict (self : instance) : result (gmap string pyval) :=
  seconds <- dt_timestamp (timestamp (columns self)) ;;
  millis <- int_of_float (PrimFloat.mul seconds 1000%float) ;;
  Ok (list_to_map
        [ ("id", inst_id self);
          ("userId", user_id (columns self));
          ("deviceId", device_id (columns self));
          ("timestamp", VInt millis);
          ("heartRate", heart_rate (columns self));
          ("bpSystolic", bp_systolic (columns self));
          ("bpDiastolic", bp_diastolic (columns self));
          ("spO2", spo2 (columns self));
          ("steps", steps (columns self));
          ("calories", calories (columns self));
          ("distance", distance (columns self));
          ("temperature", temperature (columns self));
          ("bloodGlucose", blood_glucose (columns self));
          ("totalSleep", total_sleep (columns self));
          ("deepSleep", deep_sleep (columns self));
          ("lightSleep", light_sleep (columns self));
          ("stress", stress (columns self));
          ("met", met (columns self));
          ("mai", mai (columns self));
          ("isWearing", is_wearing (columns self));
          ("recordHash", record_hash (columns self));
          ("createdAt", match created_at self with
                        | Some t => VStr (isoformat t)
                        | None => VNone
                        end) ]).

(** The fields of a record that [to_dict] gives back as they came. *)
Definition echoed_fields : list string :=
  [ "userId"; "deviceId"; "heartRate"; "bpSystolic"; "bpDiastolic"; "spO2"; "steps";
    "calories"; "distance"; "temperature"; "bloodGlucose"; "totalSleep"; "deepSleep";
    "lightSleep"; "stress"; "met"; "mai"; "recordHash" ].

End WithDatetime.

End ModelsDict.

(** ** More data to run the model on *)

Module MoreSamples.
Import Py Models Runtime Engine Store Main Micros Config ModelsDict Samples.

(** [datetime.timestamp] and [datetime.isoformat] on microseconds since the
    epoch, for a process whose local time zone is UTC. *)
Definition micros_timestamp (t : Z) : result float :=
  Py.bind (float_of_int (t / 1000000)) (fun seconds =>
  Py.bind (float_of_int (t mod 1000000)) (fun micro =>
  Ok (PrimFloat.add seconds (PrimFloat.div micro 1000000%float)))).

Definition padded (width : nat) (n : Z) : string :=
  let digits := str_int n in
  String.concat "" (replicate (width - String.length digits) "0") +:+ digits.

Definition micros_isoformat (t : Z) : string :=
  let days := (t / 86400000000)%Z in
  let rest := (t mod 86400000000)%Z in
  let z := (days + 719468)%Z in
  let era := (z / 146097)%Z in
  let doe := (z - era * 146097)%Z in
  let yoe := ((doe - doe / 1460 + doe / 36524 - doe / 146096) / 365)%Z in
  let doy := (doe - (365 * yoe + yoe / 4 - yoe / 100))%Z in
  let mp := ((5 * doy + 2) / 153)%Z in
  let day := (doy - (153 * mp + 2) / 5 + 1)%Z in
  let month := (if (mp <? 10)%Z then mp + 3 else mp - 9)%Z in
  let year := (yoe + era * 400 + (if (month <=? 2)%Z then 1 else 0))%Z in
  let micro := (rest mod 1000000)%Z in
  let seconds := (rest / 1000000)%Z in
  padded 4 year +:+ "-" +:+ padded 2 month +:+ "-" +:+ padded 2 day +:+ "T"
    +:+ padded 2 (seconds / 3600) +:+ ":" +:+ padded 2 (seconds / 60 mod 60) +:+ ":"
    +:+ padded 2 (seconds mod 60)
    +:+ (if (micro =? 0)%Z then "" else "." +:+ padded 6 micro).

#[export] Instance micros_read : DatetimeRead := {
  dt_timestamp := micros_timestamp;
  isoformat := micros_isoformat;
}.

(** The scenario's reading measured again, and a second version of it. *)
Definition corrected_reading : gmap string pyval :=
  <["heartRate" := VInt 80]> reading.

Definition second_version : gmap string pyval :=
  <["recordHash" := VStr "h2"]> reading.

(** A valid record whose timestamp no float can hold. *)
Definition far_future : gmap string pyval :=
  <["timestamp" := VInt (10 ^ 400)]> reading.

(** SQLAlchemy's answer for the two identifiers the module registers a
    listener for: [connect] is an event of the pool, which an engine
    accepts; [pool_connect] is no event, and registering for it raises.
    Engines are named by their URL, which stands for the text SQLAlchemy
    prints for them. *)
Definition sqlalchemy_listens_for (engine identifier : string) : option exn :=
  if String.eqb identifier "pool_connect"
  then Some (Exn "InvalidRequestError"
               ("No such event '" +:+ identifier +:+ "' for target '" +:+ engine +:+ "'"))
  else None.

(** A Secret Manager that holds the four secrets, and one that lacks the
    user's. *)
Definition vault : cloud string :=
  {| access_secret_version := fun name =>
       if String.eqb name (secret_name default_project "azure-sql-server")
       then Ok "db.example.net"
       else if String.eqb name (secret_name default_project "azure-sql-database")
       then Ok "health"
       else if String.eqb name (secret_name default_project "azure-sql-user")
       then Ok "svc"
       else if String.eqb name (secret_name default_project "azure-sql-password")
       then Ok "s3cret"
       else Raise (Exn "NotFound" ("Secret [" +:+ name +:+ "] not found"));
     create_engine := fun url => Ok url;
     listens_for := sqlalchemy_listens_for |}.

Definition vault_without_user : cloud string :=
  {| access_secret_version := fun name =>
       if String.eqb name (secret_name default_project "azure-sql-user")
       then Raise (Exn "NotFound" ("Secret [" +:+ name +:+ "] not found"))
       else access_secret_version vault name;
     create_engine := fun url => Ok url;
     listens_for := sqlalchemy_listens_for |}.

Definition cold : process string :=
  {| _db_engine := None; lookups := []; created := []; log := [] |}.

End MoreSamples.

(** * Properties *)

(** ** The error monad *)

Module PyProps.
Import Py.

Lemma bind_ok {A B} (r : result A) (k : A -> result B) (b : B) :
  bind r k = Ok b <-> exists a, r = Ok a /\ k a = Ok b.
Proof.
  destruct r as [a|e]; simpl; split.
  - intros Hk. exists a. split; [reflexivity | exact Hk].
  - intros (a' & Ha & Hk). injection Ha as ->. exact Hk.
  - discriminate.
  - intros (a' & Ha & _). discriminate.
Qed.

Lemma rmap_ok {A B} (f : A -> B) (r : result A) (b : B) :
  rmap f r = Ok b <-> exists a, r = Ok a /\ b = f a.
Proof.
  unfold rmap. rewrite bind_ok. split; intros (a & Ha & Hb); exists a; split; congruence.
Qed.

(** On booleans, ints and floats the comparisons return. *)
Lemma between_numeric lo v hi ctype :
  is_numeric v = true -> exists b, between lo v hi ctype = Ok b.
Proof.
  destruct v; try discriminate; intros _; unfold between; simpl;
    match goal with |- context [if ?c then _ else _] => destruct c end; eauto.
Qed.

Lemma lt_const_numeric v c ctype :
  is_numeric v = true -> exists b, lt_const v c ctype = Ok b.
Proof. destruct v; try discriminate; intros _; simpl; eauto. Qed.

Lemma is_int_numeric v : is_int v = true -> is_numeric v = true.
Proof. destruct v; simpl; congruence. Qed.

End PyProps.

(** ** The field validator *)

Module ValidatorProps.
Import Py Validators Spec PyProps.
Local Open Scope py_scope.

(** *** Which records make [validate_metric] raise *)

Lemma numeric_range_returns metric index k lo hi ctype range errors :
  exists errors', numeric_range metric index k lo hi ctype range errors = Ok errors'.
Proof.
  unfold numeric_range. destruct (present metric k) as [v|]; [|eauto].
  destruct (is_numeric v) eqn:Hv; cbn [negb]; [|eauto].
  destruct (between_numeric lo v hi ctype Hv) as [b ->]. cbn [bind]. eauto.
Qed.

Lemma integer_range_returns metric index k lo hi range errors :
  exists errors', integer_range metric index k lo hi range errors = Ok errors'.
Proof.
  unfold integer_range. destruct (present metric k) as [v|]; [|eauto].
  destruct (is_int v) eqn:Hv; cbn [negb]; [|eauto].
  destruct (between_numeric lo v hi "int" (is_int_numeric v Hv)) as [b ->].
  cbn [bind]. eauto.
Qed.

Lemma numeric_nonneg_returns metric index k errors :
  exists errors', numeric_nonneg metric index k errors = Ok errors'.
Proof.
  unfold numeric_nonneg. destruct (present metric k) as [v|]; [|eauto].
  destruct (is_numeric v) eqn:Hv; cbn [negb]; [|eauto].
  destruct (lt_const_numeric v 0 "int" Hv) as [b ->]. cbn [bind]. eauto.
Qed.

Lemma integer_nonneg_returns metric index k errors :
  exists errors', integer_nonneg metric index k errors = Ok errors'.
Proof.
  unfold integer_nonneg. destruct (present metric k) as [v|]; [|eauto].
  destruct (is_int v) eqn:Hv; cbn [negb]; [|eauto].
  destruct (lt_const_numeric v 0 "int" (is_int_numeric v Hv)) as [b ->].
  cbn [bind]. eauto.
Qed.

Ltac step_checks :=
  repeat match goal with
  | |- context [bind (numeric_range ?m ?i ?k ?lo ?hi ?c ?r ?e) _] =>
      destruct (numeric_range_returns m i k lo hi c r e) as [? ->]; cbn [bind]
  | |- context [bind (integer_range ?m ?i ?k ?lo ?hi ?r ?e) _] =>
      destruct (integer_range_returns m i k lo hi r e) as [? ->]; cbn [bind]
  | |- context [bind (numeric_nonneg ?m ?i ?k ?e) _] =>
      destruct (numeric_nonneg_returns m i k e) as [? ->]; cbn [bind]
  | |- context [bind (integer_nonneg ?m ?i ?k ?e) _] =>
      destruct (integer_nonneg_returns m i k e) as [? ->]; cbn [bind]
  end.

(** The timestamp comparison is the only statement of [validate_metric]
    that can raise: the call raises exactly the exception of
    [timestamp <= 0], and returns when that comparison does. *)
Lemma validate_metric_raises metric index e :
  validate_metric metric index = Raise e <->
  timestamp_invalid (dict_get metric "timestamp") = Raise e.
Proof.
  unfold validate_metric.
  destruct (timestamp_invalid (dict_get metric "timestamp")) as [bad|e']; cbn [bind].
  - step_checks. split; discriminate.
  - split; intros [= ->]; reflexivity.
Qed.

Lemma validate_metric_returns metric index :
  is_none (dict_get metric "timestamp") || is_numeric (dict_get metric "timestamp") = true ->
  returns (validate_metric metric index).
Proof.
  intros Hts. unfold returns.
  destruct (validate_metric metric index) as [errs|e] eqn:Hv; [eauto|].
  apply validate_metric_raises in Hv. unfold timestamp_invalid in Hv.
  destruct (dict_get metric "timestamp"); simpl in *; discriminate.
Qed.

(** *** Null and absent fields *)

Lemma dict_get_null (metric : gmap string pyval) (f k : string) :
  dict_get (<[f := VNone]> metric) k = dict_get (delete f metric) k.
Proof.
  unfold dict_get. destruct (decide (f = k)) as [->|Hne].
  - by rewrite lookup_insert_eq, lookup_delete_eq.
  - by rewrite lookup_insert_ne, lookup_delete_ne.
Qed.

Lemma present_null (metric : gmap string pyval) (f k : string) :
  present (<[f := VNone]> metric) k = present (delete f metric) k.
Proof.
  unfold present. destruct (decide (f = k)) as [->|Hne].
  - by rewrite lookup_insert_eq, lookup_delete_eq.
  - by rewrite lookup_insert_ne, lookup_delete_ne.
Qed.

(** Every check but the one of [isWearing] treats a null like an absent
    key, whatever the field. *)
Lemma validate_metric_null (metric : gmap string pyval) (f : string) (index : Z) :
  f <> "isWearing" ->
  validate_metric (<[f := VNone]> metric) index = validate_metric (delete f metric) index.
Proof.
  intros Hf.
  unfold validate_metric, numeric_range, integer_range, numeric_nonneg,
    integer_nonneg, wearing_check.
  rewrite !dict_get_null, !present_null.
  rewrite lookup_insert_ne, lookup_delete_ne by done.
  reflexivity.
Qed.

Lemma validate_metric_null_wearing (metric : gmap string pyval) (index : Z) :
  validate_metric (<["isWearing" := VNone]> metric) index =
  rmap (fun errors => errors ++ [record_msg index "isWearing must be boolean"])
       (validate_metric (delete "isWearing" metric) index).
Proof.
  unfold validate_metric, wearing_check.
  rewrite lookup_insert_eq, lookup_delete_eq.
  unfold numeric_range, integer_range, numeric_nonneg, integer_nonneg.
  rewrite !dict_get_null, !present_null.
  unfold rmap.
  repeat match goal with
  | |- context [bind ?r _] => destruct r; cbn [bind]
  end; reflexivity.
Qed.

(** C2. The field validator is to return a list and never raise, whatever
    the record holds. The code compares [timestamp <= 0] without the type
    test its sibling checks make first: on the scenario record with a text
    timestamp the call raises [TypeError]. *)
Theorem validate_metric_raises_on_text_timestamp :
  validate_metric (<["timestamp" := VStr "2024-01-01T00:00:00Z"]> Samples.reading) 0 =
  Raise (Exn "TypeError" "'<=' not supported between instances of 'str' and 'int'").
Proof. vm_compute. reflexivity. Qed.

(** C9 as stated fails for [isWearing]: present and null, it is reported. *)
Lemma null_isWearing_is_reported : ~ null_is_unchecked "isWearing".
Proof.
  intros Hclaim. specialize (Hclaim Samples.reading 0%Z).
  vm_compute in Hclaim. discriminate Hclaim.
Qed.

(** C9, amended. Each of the fifteen ranged optional fields is checked only
    if present and non-null: with the field null the validator answers as
    with the field absent. [isWearing] is checked whenever its key is
    present, and a null there adds the violation "isWearing must be
    boolean". *)
Theorem null_optional_field_is_unchecked :
  (forall f, In f ranged_fields -> null_is_unchecked f) /\
  (forall (metric : gmap string pyval) (index : Z),
     validate_metric (<["isWearing" := VNone]> metric) index =
     rmap (fun errors => errors ++ [record_msg index "isWearing must be boolean"])
          (validate_metric (delete "isWearing" metric) index)).
Proof.
  split.
  - intros f Hf metric index. apply validate_metric_null.
    intros ->. vm_compute in Hf. intuition discriminate.
  - apply validate_metric_null_wearing.
Qed.

Lemma null_optional_field_is_unchecked_witness :
  In "heartRate" ranged_fields /\
  validate_metric (<["heartRate" := VNone]> Samples.reading) 0 =
  validate_metric (delete "heartRate" Samples.reading) 0.
Proof.
  split.
  - simpl. tauto.
  - apply (proj1 null_optional_field_is_unchecked "heartRate"). simpl. tauto.
Defined.

End ValidatorProps.

(** ** The batch validator *)

Module BatchProps.
Import Py Validators Spec PyProps ValidatorProps.
Local Open Scope py_scope.

(** The loop appends to [all_errors] what each element adds, in order. *)
Lemma validate_loop_collected i l acc :
  validate_loop i l acc = rmap (app acc) (collected i l).
Proof.
  revert i acc. induction l as [|v l IH]; intros i acc; cbn [validate_loop collected].
  - unfold rmap. cbn [bind]. by rewrite app_nil_r.
  - destruct (element_errors i v) as [e0|x]; cbn [bind]; [|reflexivity].
    rewrite IH. unfold rmap. destruct (collected (S i) l) as [more|x]; cbn [bind].
    + by rewrite app_assoc.
    + reflexivity.
Qed.

Lemma collected_records i (records : list (gmap string pyval)) :
  collected i (map VDict records) = concatenated_violations i records.
Proof.
  revert i. induction records as [|r rest IH]; intros i; [reflexivity|].
  cbn [map collected concatenated_violations element_errors]. by rewrite IH.
Qed.

Lemma collected_lookup i l errs j v :
  collected i l = Ok errs -> l !! j = Some v ->
  exists e, element_errors (i + j) v = Ok e /\ forall x, In x e -> In x errs.
Proof.
  revert i errs j. induction l as [|w l IH]; intros i errs j; [by destruct j|].
  cbn [collected]. intros Hc Hj.
  apply bind_ok in Hc as (e0 & He0 & Hc). apply bind_ok in Hc as (more & Hmore & [= <-]).
  destruct j as [|j]; cbn in Hj.
  - injection Hj as ->. exists e0. rewrite Nat.add_0_r. split; [done|].
    intros x Hx. apply in_or_app. by left.
  - destruct (IH _ _ _ Hmore Hj) as (e & He & Hin). exists e.
    replace (i + S j) with (S i + j) by lia. split; [done|].
    intros x Hx. apply in_or_app. right. by apply Hin.
Qed.

(** The three size and shape tests return at once. *)
Lemma validate_batch_not_list v :
  (forall l, v <> VList l) -> validate_batch v = Ok (false, ["metrics must be an array"]).
Proof. intros Hv. destruct v; try reflexivity. by destruct (Hv l). Qed.

Lemma validate_batch_too_long l :
  500 < length l ->
  validate_batch (VList l) =
  Ok (false, ["batch size " +:+ str_int (Z.of_nat (length l)) +:+ " exceeds maximum of 500"]).
Proof.
  intros Hlen. unfold validate_batch.
  destruct (Nat.eqb_spec (length l) 0) as [H0|_]; [lia|].
  destruct (Nat.ltb_spec 500 (length l)) as [_|Hle]; [reflexivity|lia].
Qed.

(** Between 1 and 500 elements, the answer is the collected list and
    whether it is empty. *)
Lemma validate_batch_in_range l :
  1 <= length l <= 500 ->
  validate_batch (VList l) =
  rmap (fun all_errors => (Nat.eqb (length all_errors) 0, all_errors)) (collected 0 l).
Proof.
  intros Hlen. unfold validate_batch.
  destruct (Nat.eqb_spec (length l) 0) as [H0|_]; [lia|].
  destruct (Nat.ltb_spec 500 (length l)) as [Hlt|_]; [lia|].
  rewrite validate_loop_collected. unfold rmap.
  destruct (collected 0 l); reflexivity.
Qed.

(** Only a list is ever accepted. *)
Lemma accepted_is_list v : accepted (validate_batch v) -> exists l, v = VList l.
Proof. intros (errs & Hv). destruct v; try discriminate Hv. eauto. Qed.

Lemma all_valid_no_violations i (records : list (gmap string pyval)) :
  (forall j r, records !! j = Some r -> validate_metric r (Z.of_nat (i + j)) = Ok []) ->
  concatenated_violations i records = Ok [].
Proof.
  revert i. induction records as [|r rest IH]; intros i Hall; [reflexivity|].
  cbn [concatenated_violations].
  specialize (Hall 0 r eq_refl) as H0. rewrite Nat.add_0_r in H0. rewrite H0. cbn [bind].
  rewrite IH; [reflexivity|].
  intros j r' Hj. replace (S i + j) with (i + S j) by lia. by apply Hall.
Qed.

Lemma reading_valid index : validate_metric Samples.reading index = Ok [].
Proof. vm_compute. reflexivity. Qed.

Lemma accepted_length l :
  accepted (validate_batch (VList l)) -> 1 <= length l <= 500.
Proof.
  intros (violations & Hv). unfold validate_batch in Hv.
  destruct (Nat.eqb_spec (length l) 0) as [H0|H0]; [discriminate Hv|].
  destruct (Nat.ltb_spec 500 (length l)) as [Hlt|Hle]; [discriminate Hv|]. lia.
Qed.

(** C5 as stated fails for elements that are not records: each of them is
    reported and the loop goes on. *)
Lemma non_record_does_not_short_circuit :
  is_record (VInt 5) = false /\
  validate_batch (VList [VInt 5; VInt 6]) =
    Ok (false, ["Record 0: must be a JSON object"; "Record 1: must be a JSON object"]) /\
  ~ single_violation (validate_batch (VList [VInt 5; VInt 6])).
Proof.
  split; [reflexivity|]. split; [vm_compute; reflexivity|].
  intros (violation & Hv). vm_compute in Hv. discriminate Hv.
Qed.

(** When the check of every element returns, so does the collection. *)
Lemma collected_returns i l :
  (forall j w, l !! j = Some w -> exists errs, element_errors (i + j) w = Ok errs) ->
  exists all_errors, collected i l = Ok all_errors.
Proof.
  revert i. induction l as [|v l IH]; intros i Hall; cbn [collected]; [by eexists|].
  destruct (Hall 0 v eq_refl) as (errs & Herrs). rewrite Nat.add_0_r in Herrs.
  rewrite Herrs. cbn [bind].
  destruct (IH (S i)) as (more & Hmore).
  { intros j w Hj. replace (S i + j) with (i + S j) by lia. by apply Hall. }
  rewrite Hmore. cbn [bind]. by eexists.
Qed.

(** C5, amended. An input that is not a list, an empty list and a list of
    more than 500 elements are each rejected at once with one violation.
    An element that is not a record does not end the validation: it adds
    "Record {j}: must be a JSON object" and the loop visits every other
    element. Whenever [validate_batch] then returns, which it does if the
    check of every element returns, the batch is rejected with the list of
    everything collected, that violation among it. *)
Theorem structural_rejection :
  (forall v, (forall l, v <> VList l) ->
     validate_batch v = Ok (false, ["metrics must be an array"])) /\
  validate_batch (VList []) = Ok (false, ["metrics array cannot be empty"]) /\
  (forall l, 500 < length l ->
     validate_batch (VList l) =
     Ok (false, ["batch size " +:+ str_int (Z.of_nat (length l))
                   +:+ " exceeds maximum of 500"])) /\
  (forall l j v, 1 <= length l <= 500 -> l !! j = Some v -> is_record v = false ->
     validate_batch (VList l) = rmap (fun all_errors => (false, all_errors)) (collected 0 l) /\
     (forall all_errors, collected 0 l = Ok all_errors ->
        In (record_msg (Z.of_nat j) "must be a JSON object") all_errors) /\
     (forall is_valid all_errors,
        validate_batch (VList l) = Ok (is_valid, all_errors) ->
        is_valid = false /\ collected 0 l = Ok all_errors /\
        In (record_msg (Z.of_nat j) "must be a JSON object") all_errors) /\
     ((forall i w, l !! i = Some w -> exists errs, element_errors i w = Ok errs) ->
      rejected (validate_batch (VList l)))).
Proof.
  split; [exact validate_batch_not_list|]. split; [reflexivity|].
  split; [exact validate_batch_too_long|].
  intros l j v Hlen Hj Hv.
  assert (Hin : forall all_errors, collected 0 l = Ok all_errors ->
            In (record_msg (Z.of_nat j) "must be a JSON object") all_errors).
  { intros all_errors Hc. destruct (collected_lookup _ _ _ _ _ Hc Hj) as (e & He & Hsub).
    apply Hsub. cbn [Nat.add] in He. destruct v; try discriminate Hv;
      cbn [element_errors] in He; injection He as <-; by left. }
  assert (Hbatch : validate_batch (VList l)
                   = rmap (fun all_errors => (false, all_errors)) (collected 0 l)).
  { rewrite validate_batch_in_range by done. unfold rmap.
    destruct (collected 0 l) as [all_errors|x]; cbn [bind]; [|reflexivity].
    specialize (Hin all_errors eq_refl). by destruct all_errors. }
  split; [exact Hbatch|]. split; [exact Hin|]. split.
  - intros is_valid all_errors Hrun. rewrite Hbatch in Hrun.
    apply rmap_ok in Hrun as (errs & Hc & Hpair).
    injection Hpair as -> ->. split; [reflexivity|]. split; [exact Hc|]. by apply Hin.
  - intros Hall. destruct (collected_returns 0 l) as (all_errors & Hc); [exact Hall|].
    exists all_errors. rewrite Hbatch, Hc. reflexivity.
Qed.

Lemma structural_rejection_witness :
  validate_batch (VList [VInt 5; VDict Samples.reading; VStr "x"]) =
    Ok (false, ["Record 0: must be a JSON object"; "Record 2: must be a JSON object"]) /\
  In (record_msg 2 "must be a JSON object")
     ["Record 0: must be a JSON object"; "Record 2: must be a JSON object"] /\
  rejected (validate_batch (VList [VInt 5; VDict Samples.reading; VStr "x"])).
Proof.
  pose proof (proj2 (proj2 (proj2 structural_rejection))
                [VInt 5; VDict Samples.reading; VStr "x"] 2 (VStr "x")) as H.
  destruct H as (Hbatch & Hin & _ & Hreturns).
  - simpl. lia.
  - reflexivity.
  - reflexivity.
  - split; [|split].
    + rewrite Hbatch. vm_compute. reflexivity.
    + apply Hin. vm_compute. reflexivity.
    + apply Hreturns. intros i w Hi.
      destruct i as [|[|[|i]]]; cbn in Hi; try discriminate Hi;
        injection Hi as <-; eexists; vm_compute; reflexivity.
Defined.

(** C8. The empty list and every list of 501 elements are rejected, a list
    of 500 valid records is accepted, and a list of 1 to 500 records is
    accepted exactly when the concatenated per-record violations are
    empty. *)
Theorem batch_admission :
  validate_batch (VList []) = Ok (false, ["metrics array cannot be empty"]) /\
  (forall l, length l = 501 -> rejected (validate_batch (VList l))) /\
  (forall records : list (gmap string pyval),
     length records = 500 ->
     (forall i r, records !! i = Some r -> validate_metric r (Z.of_nat i) = Ok []) ->
     accepted (validate_batch (VList (map VDict records)))) /\
  (forall records : list (gmap string pyval),
     1 <= length records <= 500 ->
     (accepted (validate_batch (VList (map VDict records))) <->
      concatenated_violations 0 records = Ok [])).
Proof.
  assert (Hiff : forall records : list (gmap string pyval),
            1 <= length records <= 500 ->
            (accepted (validate_batch (VList (map VDict records))) <->
             concatenated_violations 0 records = Ok [])).
  { intros records Hlen.
    rewrite validate_batch_in_range by (by rewrite length_map).
    rewrite collected_records. unfold accepted. split.
    - intros (violations & Hv). apply rmap_ok in Hv as (all_errors & Hc & [= Hflag ->]).
      symmetry in Hflag. apply Nat.eqb_eq in Hflag. by destruct all_errors.
    - intros ->. by exists []. }
  split; [reflexivity|]. split; [|split; [|exact Hiff]].
  - intros l Hlen. eexists. apply validate_batch_too_long. lia.
  - intros records Hlen Hvalid. apply Hiff; [lia|].
    by apply all_valid_no_violations.
Qed.

Lemma batch_admission_witness :
  rejected (validate_batch (VList (replicate 501 (VDict Samples.reading)))) /\
  accepted (validate_batch (VList (map VDict (replicate 500 Samples.reading)))) /\
  (accepted (validate_batch (VList (map VDict [Samples.reading; Samples.later_reading]))) <->
   concatenated_violations 0 [Samples.reading; Samples.later_reading] = Ok []).
Proof.
  destruct batch_admission as (_ & Hover & Hfull & Hiff).
  split; [|split].
  - apply Hover. by rewrite length_replicate.
  - apply Hfull.
    + by rewrite length_replicate.
    + intros i r Hi. apply lookup_replicate in Hi as [-> _]. apply reading_valid.
  - apply Hiff. simpl. lia.
Defined.

End BatchProps.

(** ** The upsert engine, over any session *)

Module EngineProps.
Import Py Models Runtime Engine PyProps.

Section WithSession.
Context `{DT : DatetimeLib} {Sess : Type} `{SO : !SessionOps datetime Sess}.

Implicit Types (st : @loop_state Sess) (cid : pyval) (metrics : list pyval).

(** Each iteration counts its record once, as inserted or as failed. *)
Lemma process_counts cid i st metric :
  let st' := process cid i st metric in
  (inserted_count st' + failed_count st' = inserted_count st + failed_count st + 1)%Z /\
  (inserted_count st <= inserted_count st')%Z /\
  (failed_count st <= failed_count st')%Z /\
  (Z.of_nat (length (ls_errors st')) - failed_count st'
   = Z.of_nat (length (ls_errors st)) - failed_count st)%Z /\
  length (ls_log st') = S (length (ls_log st)).
Proof.
  unfold process. destruct (attempt (ls_session st) metric) as [s [e|]]; cbn;
    rewrite ?length_app; cbn; repeat split; lia.
Qed.

Lemma loop_counts cid i metrics st :
  let fin := loop cid i metrics st in
  (inserted_count fin + failed_count fin
   = inserted_count st + failed_count st + Z.of_nat (length metrics))%Z /\
  (inserted_count st <= inserted_count fin)%Z /\
  (failed_count st <= failed_count fin)%Z /\
  (Z.of_nat (length (ls_errors fin)) - failed_count fin
   = Z.of_nat (length (ls_errors st)) - failed_count st)%Z /\
  length (ls_log fin) = length (ls_log st) + length metrics.
Proof.
  revert i st. induction metrics as [|metric rest IH]; intros i st; cbn [loop length].
  - repeat split; lia.
  - specialize (IH (S i) (process cid i st metric)).
    pose proof (process_counts cid i st metric) as Hp.
    cbn zeta in IH, Hp. repeat split; lia.
Qed.

(** A message once recorded stays recorded. *)
Lemma loop_keeps_errors cid i metrics st msg :
  In msg (ls_errors st) -> In msg (ls_errors (loop cid i metrics st)).
Proof.
  revert i st. induction metrics as [|metric rest IH]; intros i st Hst; [done|].
  cbn [loop]. apply IH. unfold process.
  destruct (attempt (ls_session st) metric) as [s [x|]]; cbn; [|done].
  apply in_or_app. by left.
Qed.

(** The loop over a batch is the loop over its first part, then over the
    rest from the state and the index reached. *)
Lemma loop_app cid i pre post st :
  loop cid i (pre ++ post) st = loop cid (i + length pre) post (loop cid i pre st).
Proof.
  revert i st. induction pre as [|metric pre IH]; intros i st; cbn [loop app length].
  - by rewrite Nat.add_0_r.
  - rewrite IH. f_equal. lia.
Qed.

(** The call returns a result exactly when the commit succeeds. *)
Lemma returns_iff_commit session metrics cid :
  returns (returned (insert_or_update_metrics session metrics cid)) <->
  snd (commit (ls_session (loop cid 0 metrics (start session)))) = None.
Proof.
  unfold insert_or_update_metrics, returns.
  destruct (commit _) as [s1 [e|]]; cbn.
  - destruct (rollback s1) as [s2 [e'|]]; cbn; split; try discriminate;
      intros (r & Hr); discriminate.
  - split; eauto.
Qed.

Lemma returned_result session metrics cid r :
  returned (insert_or_update_metrics session metrics cid) = Ok r ->
  let fin := loop cid 0 metrics (start session) in
  r = {| success := (failed_count fin =? 0)%Z; inserted := inserted_count fin;
         failed := failed_count fin; errors := firstn 5 (ls_errors fin) |}.
Proof.
  unfold insert_or_update_metrics.
  destruct (commit _) as [s1 [e|]]; cbn.
  - destruct (rollback s1) as [s2 [e'|]]; cbn; discriminate.
  - by intros [= <-].
Qed.

(** The outcome when the commit raises: rollback, close, and an exception
    instead of a result. *)
Lemma commit_failure_outcome session metrics cid s1 e :
  commit (ls_session (loop cid 0 metrics (start session))) = (s1, Some e) ->
  let out := insert_or_update_metrics session metrics cid in
  final_session out = close (fst (rollback s1)) /\
  (exists e', returned out = Raise e') /\
  (snd (rollback s1) = None ->
   returned out = Raise (Exn "Exception" ("Batch insert failed: " +:+ exn_str e))).
Proof.
  intros Hc. unfold insert_or_update_metrics. rewrite Hc.
  destruct (rollback s1) as [s2 [e'|]]; cbn; repeat split; eauto; discriminate.
Qed.

(** C10. Whenever the engine returns a result, the two counts add up to the
    number of records, and [success] holds exactly when nothing failed. *)
Theorem returned_counts session metrics cid r :
  returned (insert_or_update_metrics session metrics cid) = Ok r ->
  (inserted r + failed r = Z.of_nat (length metrics))%Z /\
  (success r = true <-> failed r = 0%Z).
Proof.
  intros Hr. apply returned_result in Hr. cbn zeta in Hr. subst r. cbn.
  pose proof (loop_counts cid 0 metrics (start session)) as Hl. cbn in Hl.
  split; [lia|]. apply Z.eqb_eq.
Qed.

(** C4. A record that fails inside the loop is counted and reported as
    "Record {i}: {message}", the loop goes on over every remaining record,
    the session reached after the last record is the one committed, and the
    result carries at most the first five messages. *)
Theorem record_failure_does_not_abort session pre metric post cid s' e :
  let st := loop cid 0 pre (start session) in
  attempt (ls_session st) metric = (s', Some e) ->
  let st' := process cid (length pre) st metric in
  let fin := loop cid 0 (pre ++ metric :: post) (start session) in
  (ls_session st' = s' /\
   failed_count st' = (failed_count st + 1)%Z /\
   inserted_count st' = inserted_count st /\
   ls_errors st' = ls_errors st ++
     ["Record " +:+ str_int (Z.of_nat (length pre)) +:+ ": " +:+ exn_str e]) /\
  (fin = loop cid (S (length pre)) post st' /\
   (inserted_count fin + failed_count fin
    = Z.of_nat (length (pre ++ metric :: post)))%Z /\
   length (ls_log fin) = length (pre ++ metric :: post) /\
   In ("Record " +:+ str_int (Z.of_nat (length pre)) +:+ ": " +:+ exn_str e)
      (ls_errors fin)) /\
  (forall s1, commit (ls_session fin) = (s1, None) ->
     let out := insert_or_update_metrics session (pre ++ metric :: post) cid in
     final_session out = close s1 /\
     exists r, returned out = Ok r /\
       success r = false /\ (0 < failed r)%Z /\
       (inserted r + failed r = Z.of_nat (length (pre ++ metric :: post)))%Z /\
       errors r = firstn 5 (ls_errors fin) /\ length (errors r) <= 5).
Proof.
  intros st Hfail st' fin.
  assert (Hst' : ls_session st' = s' /\
            failed_count st' = (failed_count st + 1)%Z /\
            inserted_count st' = inserted_count st /\
            ls_errors st' = ls_errors st ++
              ["Record " +:+ str_int (Z.of_nat (length pre)) +:+ ": " +:+ exn_str e]).
  { subst st'. unfold process. rewrite Hfail. cbn. by unfold error_msg. }
  assert (Hfin : fin = loop cid (S (length pre)) post st').
  { subst fin st' st. rewrite loop_app. cbn [loop Nat.add]. reflexivity. }
  pose proof (loop_counts cid 0 (pre ++ metric :: post) (start session)) as Hall.
  pose proof (loop_counts cid 0 pre (start session)) as Hpre.
  pose proof (loop_counts cid (S (length pre)) post st') as Hpost.
  fold fin in Hall. fold st in Hpre. rewrite <- Hfin in Hpost.
  cbn zeta in Hall, Hpre, Hpost. cbn [start inserted_count failed_count ls_errors ls_log length] in Hall, Hpre.
  destruct Hst' as (Hs & Hf & Hi & He).
  assert (Hin : In ("Record " +:+ str_int (Z.of_nat (length pre)) +:+ ": " +:+ exn_str e)
                   (ls_errors fin)).
  { rewrite Hfin. apply loop_keeps_errors. rewrite He. apply in_or_app. right. by left. }
  split; [by repeat split|]. split; [repeat split; try done; lia|].
  intros s1 Hcommit out. subst out. unfold insert_or_update_metrics.
  fold fin. rewrite Hcommit. cbn. split; [reflexivity|].
  eexists. split; [reflexivity|]. cbn.
  repeat split.
  - apply Z.eqb_neq. lia.
  - lia.
  - lia.
  - rewrite length_firstn. lia.
Qed.

End WithSession.

End EngineProps.

(** ** The engine on the table *)

Module StoreProps.
Import Py Models Runtime Engine Store PyProps EngineProps.

Section Table.
Context `{DT : DatetimeLib} `{EQ : !EqDecision datetime}.

Local Abbreviation session := (Store.session datetime).
Local Abbreviation database := (Store.database datetime).
Local Abbreviation row := (Store.row datetime).

Implicit Types (s : session) (db : database) (rows : list row)
  (p : HealthMetric datetime) (cid : pyval) (metrics : list pyval).

(** *** What the loop cannot touch *)

Lemma attempt_durable s metric :
  committed (fst (attempt s metric)) = committed s /\
  commit_fault (fst (attempt s metric)) = commit_fault s.
Proof.
  unfold attempt. destruct (build_params metric) as [p|e]; [|done].
  cbn [execute table_session]. unfold execute_merge.
  by destruct (merge (working s) (next_id s) (now s) p) as [[rows ident]|e].
Qed.

Lemma process_durable cid i (st : @loop_state session) metric :
  committed (ls_session (process cid i st metric)) = committed (ls_session st) /\
  commit_fault (ls_session (process cid i st metric)) = commit_fault (ls_session st).
Proof.
  pose proof (attempt_durable (ls_session st) metric) as Ha.
  unfold process. by destruct (attempt (ls_session st) metric) as [s' [e|]].
Qed.

Lemma loop_durable cid i metrics (st : @loop_state session) :
  committed (ls_session (loop cid i metrics st)) = committed (ls_session st) /\
  commit_fault (ls_session (loop cid i metrics st)) = commit_fault (ls_session st).
Proof.
  revert i st. induction metrics as [|metric rest IH]; intros i st; [done|].
  cbn [loop]. destruct (IH (S i) (process cid i st metric)) as [-> ->].
  apply process_durable.
Qed.

(** On the table, a commit that raises leaves the database as it was when
    the session was opened, whatever the batch. *)
Lemma commit_fault_outcome db fault metrics cid :
  let out := insert_or_update_metrics (create_session db (Some fault)) metrics cid in
  returned out = Raise (Exn "Exception" ("Batch insert failed: " +:+ exn_str fault)) /\
  table (database_of (final_session out)) = table db /\
  working (final_session out) = table db /\
  closed (final_session out) = true.
Proof.
  intros out.
  destruct (loop_durable cid 0 metrics (start (create_session db (Some fault))))
    as [Hc Hf]. cbn [start ls_session create_session committed commit_fault] in Hc, Hf.
  assert (Hcommit : commit (ls_session (loop cid 0 metrics
                      (start (create_session db (Some fault)))))
                    = (ls_session (loop cid 0 metrics
                         (start (create_session db (Some fault)))), Some fault)).
  { cbn [commit table_session]. unfold commit_session. by rewrite Hf. }
  subst out. unfold insert_or_update_metrics. rewrite Hcommit.
  cbn [rollback table_session rollback_session close close_session final_session
       returned database_of table committed working closed].
  by rewrite Hc.
Qed.

(** *** The MERGE statement *)

Lemma text_param_some column v t :
  text_param column v = Ok (Some t) -> v = VStr t.
Proof. destruct v; cbn; congruence. Qed.

Lemma assigned_twice p (c : gmap string pyval) :
  assigned p ∪ (assigned p ∪ c) = assigned p ∪ c.
Proof. by rewrite (assoc_L (∪)), (idemp_L (∪)). Qed.

Lemma update_row_twice p (r : row) : update_row p (update_row p r) = update_row p r.
Proof.
  unfold update_row. cbn [cells id UserId DeviceId Timestamp RecordHash CreatedAt].
  by rewrite assigned_twice.
Qed.

Lemma update_row_key p (r : row) : row_key (update_row p r) = row_key r.
Proof. reflexivity. Qed.

Lemma update_row_new p ident u d h time :
  update_row p (new_row ident u d h time p) = new_row ident u d h time p.
Proof.
  unfold update_row, new_row. cbn [cells id UserId DeviceId Timestamp RecordHash CreatedAt].
  by rewrite (idemp_L (∪)).
Qed.

Lemma matches_true k (r : row) : matches k r = true <-> row_key r = k.
Proof. unfold matches. apply bool_decide_eq_true. Qed.

Lemma update_matching_twice k p rows :
  update_matching k p (update_matching k p rows) = update_matching k p rows.
Proof.
  unfold update_matching. rewrite map_map. apply map_ext. intros r.
  destruct (matches k r) eqn:Hm.
  - unfold matches in *. rewrite update_row_key, Hm. apply update_row_twice.
  - by rewrite Hm.
Qed.

Lemma update_matching_none k p rows :
  existsb (matches k) rows = false -> update_matching k p rows = rows.
Proof.
  induction rows as [|r rows IH]; [done|]. cbn [existsb update_matching map].
  intros [Hr Hrest]%orb_false_iff. rewrite Hr. f_equal. by apply IH.
Qed.

Lemma existsb_update_matching k p rows :
  existsb (matches k) (update_matching k p rows) = existsb (matches k) rows.
Proof.
  induction rows as [|r rows IH]; [done|]. cbn [existsb update_matching map].
  fold (update_matching k p rows). rewrite IH. f_equal.
  destruct (matches k r) eqn:Hm; [|done]. unfold matches in *. by rewrite update_row_key.
Qed.

(** What a MERGE that succeeds has done. *)
Lemma merge_ok rows ident time p rows' ident' :
  merge rows ident time p = Ok (rows', ident') ->
  exists u d h,
    natural_key p = Some (u, d, timestamp p, h) /\
    bind_cells (set_clause p) = Ok tt /\
    let k := (u, d, timestamp p, h) in
    (existsb (matches k) rows = true /\
     rows' = update_matching k p rows /\ ident' = ident) \/
    (existsb (matches k) rows = false /\
     rows' = rows ++ [new_row ident u d h time p] /\ ident' = (ident + 1)%Z /\
     String.length u <= UserId_max /\ String.length d <= DeviceId_max /\
     String.length h <= RecordHash_max).
Proof.
  unfold merge. intros Hm.
  apply bind_ok in Hm as (u & Hu & Hm). apply bind_ok in Hm as (d & Hd & Hm).
  apply bind_ok in Hm as (h & Hh & Hm). apply bind_ok in Hm as ([] & Hcells & Hm).
  destruct u as [u|]; [|discriminate Hm].
  destruct d as [d|]; [|cbn in Hm; destruct (String.length u <=? UserId_max); discriminate Hm].
  destruct h as [h|];
    [|cbn in Hm; destruct (String.length u <=? UserId_max); [|discriminate Hm];
      cbn in Hm; destruct (String.length d <=? DeviceId_max); discriminate Hm].
  apply text_param_some in Hu, Hd, Hh.
  exists u, d, h. split; [unfold natural_key; by rewrite Hu, Hd, Hh|]. split; [done|].
  cbn zeta. destruct (existsb (matches (u, d, timestamp p, h)) rows) eqn:Hex.
  - left. by injection Hm as <- <-.
  - right. cbn in Hm.
    destruct (Nat.leb_spec (String.length u) UserId_max) as [Hlu|_]; [|discriminate Hm].
    cbn in Hm.
    destruct (Nat.leb_spec (String.length d) DeviceId_max) as [Hld|_]; [|discriminate Hm].
    cbn in Hm.
    destruct (Nat.leb_spec (String.length h) RecordHash_max) as [Hlh|_]; [|discriminate Hm].
    cbn in Hm. by injection Hm as <- <-.
Qed.

(** Running the same statement again changes no row and draws no identity
    value. *)
Lemma merge_again rows ident time p rows' ident' time' :
  merge rows ident time p = Ok (rows', ident') ->
  merge rows' ident' time' p = Ok (rows', ident').
Proof.
  intros Hm. apply merge_ok in Hm as (u & d & h & Hk & Hcells & Hcase).
  unfold natural_key in Hk.
  destruct (user_id p) as [| | | |u'| |] eqn:Hu; try discriminate Hk.
  destruct (device_id p) as [| | | |d'| |] eqn:Hd; try discriminate Hk.
  destruct (record_hash p) as [| | | |h'| |] eqn:Hh; try discriminate Hk.
  injection Hk as -> -> ->.
  assert (Hex : existsb (matches (u, d, timestamp p, h)) rows' = true).
  { destruct Hcase as [(Hex & -> & _)|(Hex & -> & _)].
    - by rewrite existsb_update_matching.
    - rewrite existsb_app. cbn. apply orb_true_iff. right.
      apply orb_true_iff. left. by apply matches_true. }
  unfold merge. rewrite Hu, Hd, Hh. cbn [text_param bind]. rewrite Hcells. cbn [bind].
  rewrite Hex. f_equal. f_equal.
  destruct Hcase as [(_ & -> & _)|(Hno & -> & _)].
  - apply update_matching_twice.
  - unfold update_matching. rewrite map_app. cbn [map].
    fold (update_matching (u, d, timestamp p, h) p rows).
    rewrite update_matching_none by done. f_equal.
    replace (matches (u, d, timestamp p, h) (new_row ident u d h time p)) with true
      by (symmetry; by apply matches_true).
    by rewrite update_row_new.
Qed.

(** *** Rows under a key *)

Lemma existsb_matches_key k rows :
  existsb (matches k) rows = true -> In k (map row_key rows).
Proof.
  induction rows as [|r rows IH]; [discriminate|]. cbn [existsb map].
  intros [Hr|Hrest]%orb_true_iff.
  - left. by apply matches_true.
  - right. by apply IH.
Qed.

Lemma rows_with_none k rows :
  existsb (matches k) rows = false -> rows_with k rows = [].
Proof.
  unfold rows_with. induction rows as [|r rows IH]; [done|]. cbn [existsb].
  intros [Hr Hrest]%orb_false_iff. rewrite filter_cons.
  destruct (decide (row_key r = k)) as [Hk|_]; [|by apply IH].
  apply matches_true in Hk. congruence.
Qed.

Lemma rows_with_unique k rows :
  keys_unique rows -> existsb (matches k) rows = true ->
  exists old, rows_with k rows = [old] /\ row_key old = k.
Proof.
  unfold keys_unique, rows_with. induction rows as [|r rows IH]; [discriminate|].
  cbn [map existsb]. intros [Hnew Hrest]%NoDup_cons Hex. rewrite filter_cons.
  destruct (decide (row_key r = k)) as [Hk|Hk].
  - exists r. split; [|done]. f_equal. apply rows_with_none.
    destruct (existsb (matches k) rows) eqn:Hex'; [|done].
    apply existsb_matches_key in Hex'. subst k.
    exfalso. apply Hnew. by apply list_elem_of_In.
  - apply IH; [done|]. apply orb_true_iff in Hex as [Hr|Hr]; [|done].
    by apply matches_true in Hr.
Qed.

Lemma rows_with_update k p rows :
  rows_with k (update_matching k p rows) = map (update_row p) (rows_with k rows).
Proof.
  unfold rows_with, update_matching. induction rows as [|r rows IH]; [done|].
  cbn [map]. rewrite !filter_cons.
  destruct (decide (row_key r = k)) as [Hk|Hk].
  - replace (matches k r) with true by (symmetry; by apply matches_true).
    rewrite update_row_key. destruct (decide (row_key r = k)); [|done].
    cbn [map]. by rewrite IH.
  - replace (matches k r) with false
      by (symmetry; unfold matches; by apply bool_decide_eq_false).
    destruct (decide (row_key r = k)); [done|]. apply IH.
Qed.

Lemma merge_keeps_keys_unique rows ident time p rows' ident' :
  keys_unique rows -> merge rows ident time p = Ok (rows', ident') -> keys_unique rows'.
Proof.
  unfold keys_unique. intros Huniq Hm.
  destruct (merge_ok _ _ _ _ _ _ Hm) as (u & d & h & _ & _ & Hcase). cbn zeta in Hcase.
  destruct Hcase as [(_ & -> & _)|(Hex & -> & _)].
  - unfold update_matching. rewrite map_map.
    erewrite map_ext; [exact Huniq|]. intros r. by destruct (matches _ r).
  - rewrite map_app. cbn [map]. apply NoDup_app. split; [done|]. split.
    + intros k Hk [Heq|[]]%list_elem_of_In. subst k. apply list_elem_of_In in Hk.
      assert (Hex' : existsb (matches (u, d, timestamp p, h)) rows = true); [|congruence].
      apply existsb_exists. apply in_map_iff in Hk as (r & Hr & Hin).
      exists r. split; [done|]. by apply matches_true.
    + apply NoDup_singleton.
Qed.

Lemma assigned_lookup p column v :
  In (column, v) (set_clause p) -> assigned p !! column = Some v.
Proof.
  intros Hin. unfold assigned. apply elem_of_list_to_map_1.
  - unfold set_clause. cbn [fmap list_fmap fst].
    apply (bool_decide_unpack _). vm_compute. reflexivity.
  - by apply list_elem_of_In.
Qed.

(** *** One record through the engine *)

Lemma single_submission db metric cid :
  let out := insert_or_update_metrics (create_session db None) [metric] cid in
  match build_params metric with
  | Ok p =>
      match merge (table db) (identity db) (clock db) p with
      | Ok (rows', ident') =>
          database_of (final_session out)
          = {| table := rows'; identity := ident'; clock := (clock db + 1)%Z |} /\
          returned out = Ok persisted
      | Raise e => exists r, returned out = Ok r /\ inserted r = 0%Z
      end
  | Raise e => exists r, returned out = Ok r /\ inserted r = 0%Z
  end.
Proof.
  cbn zeta. unfold insert_or_update_metrics.
  cbn [loop]. unfold process, attempt.
  destruct (build_params metric) as [p|e].
  - cbn [start ls_session execute table_session]. unfold execute_merge.
    cbn [create_session working next_id now committed commit_fault closed].
    destruct (merge (table db) (identity db) (clock db) p) as [[rows' ident']|e];
      cbn; eauto.
  - cbn. eauto.
Qed.

(** C1. Upserting is idempotent on the natural key. A record submitted
    twice, each time in a batch and a session of its own, is stored in
    exactly one row under its key: the second submission finds the row of
    the first, reports one record written again, and leaves the row (its
    id, its mutable columns, its [CreatedAt]) and the whole table as the
    first left them. The mutable columns hold the payload; [CreatedAt] is
    the server's clock at the insert, or the existing row's when the key was
    stored before. *)
Theorem upsert_twice_is_idempotent db metric cid1 cid2 r1 :
  keys_unique (table db) ->
  let out1 := insert_or_update_metrics (create_session db None) [metric] cid1 in
  let db1 := database_of (final_session out1) in
  let out2 := insert_or_update_metrics (create_session db1 None) [metric] cid2 in
  let db2 := database_of (final_session out2) in
  returned out1 = Ok r1 -> inserted r1 = 1%Z ->
  exists p k stored,
    build_params metric = Ok p /\ natural_key p = Some k /\
    rows_with k (table db1) = [stored] /\
    rows_with k (table db2) = [stored] /\
    table db2 = table db1 /\
    returned out2 = Ok r1 /\
    (forall column v, In (column, v) (set_clause p) -> cells stored !! column = Some v) /\
    (rows_with k (table db) = [] ->
     CreatedAt stored = clock db /\ id stored = identity db /\ clock db1 <> clock db) /\
    (forall old, rows_with k (table db) = [old] ->
     CreatedAt stored = CreatedAt old /\ id stored = id old).
Proof.
  intros Huniq out1 db1 out2 db2 Hr1 Hins.
  pose proof (single_submission db metric cid1) as H1. cbn zeta in H1. fold out1 in H1.
  destruct (build_params metric) as [p|e] eqn:Hp;
    [|destruct H1 as (r & Hr & H0); rewrite Hr in Hr1; injection Hr1 as <-; lia].
  destruct (merge (table db) (identity db) (clock db) p) as [[rows' ident']|e] eqn:Hm;
    [|destruct H1 as (r & Hr & H0); rewrite Hr in Hr1; injection Hr1 as <-; lia].
  destruct H1 as [Hdb1 Hret1]. fold db1 in Hdb1.
  rewrite Hret1 in Hr1. injection Hr1 as <-.
  pose proof (single_submission db1 metric cid2) as H2. cbn zeta in H2. fold out2 in H2.
  rewrite Hp in H2. rewrite Hdb1 in H2. cbn [table identity clock] in H2.
  rewrite (merge_again _ _ _ _ _ _ (clock db + 1)%Z Hm) in H2.
  destruct H2 as [Hdb2 Hret2]. fold db2 in Hdb2.
  destruct (merge_ok _ _ _ _ _ _ Hm) as (u & d & h & Hk & _ & Hcase). cbn zeta in Hcase.
  assert (Hstored : exists stored,
            rows_with (u, d, timestamp p, h) rows' = [stored] /\
            (forall column v, In (column, v) (set_clause p) ->
               cells stored !! column = Some v) /\
            (rows_with (u, d, timestamp p, h) (table db) = [] ->
             CreatedAt stored = clock db /\ id stored = identity db) /\
            (forall old, rows_with (u, d, timestamp p, h) (table db) = [old] ->
             CreatedAt stored = CreatedAt old /\ id stored = id old)).
  { destruct Hcase as [(Hex & -> & _)|(Hex & -> & _)].
    - destruct (rows_with_unique _ _ Huniq Hex) as (old & Hold & _).
      exists (update_row p old). rewrite rows_with_update, Hold. split; [done|].
      split; [|split].
      + intros column v Hin. unfold update_row. cbn [cells].
        apply lookup_union_Some_l. by apply assigned_lookup.
      + discriminate.
      + by intros old' [= <-].
    - exists (new_row (identity db) u d h (clock db) p).
      unfold rows_with. rewrite filter_app. fold (rows_with (u, d, timestamp p, h) (table db)).
      rewrite (rows_with_none _ _ Hex). rewrite filter_cons, filter_nil.
      destruct (decide (row_key (new_row (identity db) u d h (clock db) p)
                        = (u, d, timestamp p, h))) as [_|Hne]; [|by destruct Hne].
      split; [done|]. split; [|split].
      + intros column v Hin. unfold new_row. cbn [cells]. by apply assigned_lookup.
      + done.
      + discriminate. }
  destruct Hstored as (stored & Hrows & Hcells & Hfresh & Hold).
  exists p, (u, d, timestamp p, h), stored.
  rewrite Hdb1, Hdb2. cbn [table clock].
  repeat split; try done.
  - by apply Hfresh.
  - by apply Hfresh.
  - lia.
  - by apply Hold.
  - by apply Hold.
Qed.

End Table.

(** C3. When the commit raises, the engine rolls the session back, closes
    it, and raises one exception, "Batch insert failed: ...", in place of
    the result: no counts and no per-record messages come back. On the
    table this leaves the stored rows exactly as they were before the
    batch. *)
Theorem commit_failure_discards_batch :
  (forall (DT : DatetimeLib) (Sess : Type) (SO : SessionOps datetime Sess)
          (session : Sess) (metrics : list pyval) (cid : pyval) (s1 : Sess) (e : exn),
     commit (ls_session (loop cid 0 metrics (start session))) = (s1, Some e) ->
     let out := insert_or_update_metrics session metrics cid in
     final_session out = close (fst (rollback s1)) /\
     (exists e', returned out = Raise e') /\
     (snd (rollback s1) = None ->
      returned out = Raise (Exn "Exception" ("Batch insert failed: " +:+ exn_str e)))) /\
  (forall (DT : DatetimeLib) (EQ : EqDecision datetime)
          (db : Store.database datetime) (fault : exn) (metrics : list pyval) (cid : pyval),
     let out := insert_or_update_metrics (create_session db (Some fault)) metrics cid in
     returned out = Raise (Exn "Exception" ("Batch insert failed: " +:+ exn_str fault)) /\
     table (database_of (final_session out)) = table db).
Proof.
  split.
  - intros DT Sess SO session metrics cid s1 e Hc. by apply commit_failure_outcome.
  - intros DT EQ db fault metrics cid.
    destruct (commit_fault_outcome db fault metrics cid) as (Hr & Ht & _). by split.
Qed.

End StoreProps.

(** ** The HTTP entry point *)

Module MainProps.
Import Py Models Runtime Validators Engine Main Spec PyProps BatchProps EngineProps.

Section WithSession.
Context `{DT : DatetimeLib} {Sess : Type} `{SO : !SessionOps datetime Sess}.

Implicit Types (env : environment Sess) (request : request) (d : gmap string pyval).

(** A POST with a JSON object for a body gets as far as the validation when
    [len(metrics)] can be taken. *)
Lemma upload_validates env request d n :
  method request <> "OPTIONS" -> get_json request = Ok (VDict d) ->
  truthy (VDict d) = true -> len (metrics_of d) = Ok n ->
  exists log,
    uploadHealthMetrics env request =
    match validate_batch (metrics_of d) with
    | Raise e => unexpected e (correlation_of env d) log None
    | Ok (is_valid, validation_errors) =>
        if negb is_valid
        then reply (Json [ ("error", VStr "Validation failed");
                           ("details", strings (firstn 10 validation_errors)) ])
                   400
                   (log ++ [LogEntry WARNING (Some (correlation_of env d))
                              ("Validation failed: "
                                 +:+ str_int (Z.of_nat (length validation_errors))
                                 +:+ " errors")])
                   None
        else store_metrics env (metrics_of d) (correlation_of env d) log
    end.
Proof.
  intros Hmethod Hjson Htruthy Hlen. unfold uploadHealthMetrics.
  destruct (String.eqb_spec (method request) "OPTIONS") as [Heq|_]; [done|].
  rewrite Hjson, Htruthy. cbn [negb]. cbv zeta.
  rewrite Hlen. eexists. reflexivity.
Qed.

Lemma len_list l : len (VList l) = Ok (Z.of_nat (length l)).
Proof. reflexivity. Qed.

(** With a session at hand, the response is decided by what the engine
    returns or raises. *)
Lemma store_metrics_sent env metrics cid log session :
  new_session env = Ok session ->
  sent (store_metrics env metrics cid log) =
  match returned (insert_or_update_metrics session (items metrics) cid) with
  | Raise e =>
      {| resp_body := Json [ ("error", VStr "Database insertion failed");
                             ("message", VStr (exn_str e)) ];
         status := 500; headers := [] |}
  | Ok result =>
      sent (respond env result cid
              (log ++ [] ++ logged (insert_or_update_metrics session (items metrics) cid))
              (Some (final_session (insert_or_update_metrics session (items metrics) cid))))
  end.
Proof.
  intros Hs. unfold store_metrics, create_session. rewrite Hs.
  by destruct (returned (insert_or_update_metrics session (items metrics) cid)).
Qed.

Lemma respond_status env result cid log s :
  status (sent (respond env result cid log s)) = status_of result.
Proof. reflexivity. Qed.

(** Steps 4 and 5 on a result with the engine's invariants. *)
Lemma status_of_cases (r : upsert_result) :
  (0 <= inserted r)%Z -> (0 <= failed r)%Z -> (1 <= inserted r + failed r)%Z ->
  success r = (failed r =? 0)%Z ->
  (status_of r = 200%Z <-> failed r = 0%Z) /\
  (status_of r = 207%Z <-> (0 < inserted r)%Z /\ (0 < failed r)%Z) /\
  (status_of r = 500%Z <-> inserted r = 0%Z).
Proof.
  intros Hi Hf Hsum Hsuccess. unfold status_of. rewrite Hsuccess.
  destruct (Z.eqb_spec (failed r) 0); [|destruct (Z.ltb_spec 0 (inserted r))];
    repeat split; intros; try lia; try discriminate.
Qed.

(** The status of a POST with a JSON object for a body. For a validated
    batch that reaches the upsert stage it is 200 exactly when the engine
    reports no failed record, 207 exactly when it reports records written
    and records failed, and 500 exactly when no record was persisted (the
    engine raised, or reports none written). When [len(metrics)] can be
    taken and the batch fails validation, the answer is 400 with the first
    ten violations as details. *)
Theorem status_codes env request d :
  method request <> "OPTIONS" -> get_json request = Ok (VDict d) ->
  truthy (VDict d) = true ->
  let metrics := metrics_of d in
  let cid := correlation_of env d in
  let answer := sent (uploadHealthMetrics env request) in
  (forall violations session,
     validate_batch metrics = Ok (true, violations) -> new_session env = Ok session ->
     let out := insert_or_update_metrics session (items metrics) cid in
     (status answer = 200%Z <-> exists r, returned out = Ok r /\ failed r = 0%Z) /\
     (status answer = 207%Z <->
      exists r, returned out = Ok r /\ (0 < inserted r)%Z /\ (0 < failed r)%Z) /\
     (status answer = 500%Z <->
      (exists e, returned out = Raise e) \/
      (exists r, returned out = Ok r /\ inserted r = 0%Z))) /\
  (forall n violations,
     len metrics = Ok n -> validate_batch metrics = Ok (false, violations) ->
     answer = {| resp_body := Json [ ("error", VStr "Validation failed");
                                     ("details", strings (firstn 10 violations)) ];
                 status := 400; headers := [] |} /\
     length (firstn 10 violations) <= 10).
Proof.
  intros Hmethod Hjson Htruthy metrics cid answer. split.
  - intros violations session Hvalid Hsession out.
    destruct (accepted_is_list metrics) as (l & Hl); [by exists violations|].
    assert (Hlen : 1 <= length l <= 500).
    { apply accepted_length. exists violations. by rewrite <- Hl. }
    destruct (upload_validates env request d (Z.of_nat (length l)) Hmethod Hjson Htruthy)
      as (log & Hrun).
    { fold metrics. by rewrite Hl. }
    fold metrics cid in Hrun. rewrite Hvalid in Hrun. cbn [negb] in Hrun.
    subst answer. rewrite Hrun, (store_metrics_sent _ _ _ _ session Hsession).
    fold out. destruct (returned out) as [r|e] eqn:Hout.
    + rewrite respond_status.
      pose proof (returned_result session (items metrics) cid r Hout) as Hr.
      pose proof (loop_counts cid 0 (items metrics) (start session)) as Hc.
      cbn zeta in Hr, Hc. cbn [start inserted_count failed_count] in Hc.
      rewrite Hl in Hr, Hc. cbn [items] in Hr, Hc.
      destruct Hc as (Hsum & Hi & Hf & _).
      destruct (status_of_cases r) as (H200 & H207 & H500);
        try (subst r; cbn [success inserted failed]; first [reflexivity | lia]).
      rewrite H200, H207, H500. clear H200 H207 H500.
      split; [|split]; split.
      * intros H. by exists r.
      * by intros (r' & [= <-] & H).
      * intros H. by exists r.
      * by intros (r' & [= <-] & H).
      * intros H. right. by exists r.
      * intros [(e & [= ])|(r' & [= <-] & H)]. done.
    + cbn [status]. split; [|split]; split; try (intros [= ]);
        try (intros (r' & [= ] & _)); try done.
      left. by exists e.
  - intros n violations Hlen Hinvalid.
    destruct (upload_validates env request d n Hmethod Hjson Htruthy Hlen) as (log & Hrun).
    fold metrics cid in Hrun. rewrite Hinvalid in Hrun. cbn [negb] in Hrun.
    subst answer. rewrite Hrun. split; [reflexivity|].
    rewrite length_firstn. lia.
Qed.

(** The response when no session can be made. *)
Lemma store_metrics_no_session env metrics cid log e :
  new_session env = Raise e ->
  sent (store_metrics env metrics cid log) =
  {| resp_body := Json [ ("error", VStr "Database insertion failed");
                         ("message", VStr (exn_str e)) ];
     status := 500; headers := [] |}.
Proof. intros Hs. unfold store_metrics, create_session. by rewrite Hs. Qed.

(** What the engine raises when the commit does. *)
Lemma commit_failure_raises session metrics cid s1 e :
  commit (ls_session (loop cid 0 metrics (start session))) = (s1, Some e) ->
  returned (insert_or_update_metrics session metrics cid) =
  Raise (match snd (rollback s1) with
         | None => Exn "Exception" ("Batch insert failed: " +:+ exn_str e)
         | Some e' => e'
         end).
Proof.
  intros Hc. unfold insert_or_update_metrics. rewrite Hc.
  by destruct (rollback s1) as [s2 [e'|]].
Qed.

(** C6, amended. A transaction-level error (no session can be made, or the
    engine raises) is answered 500 with "Database insertion failed" and the
    text of the exception as message, and nothing else: the body carries no
    correlation id. When the commit fails and the rollback succeeds that
    text is "Batch insert failed: " followed by the storage error's own
    text; when the rollback raises too it is the text of the rollback's
    exception. An unexpected error ([len(metrics)] or the validation
    raising) is answered 500 with "Internal server error", the text of the
    exception and the correlation id; for a body that is not an object the
    text is that of the [AttributeError] and the correlation id is null. *)
Theorem error_responses env request :
  method request <> "OPTIONS" ->
  let answer := sent (uploadHealthMetrics env request) in
  let database_error text :=
    {| resp_body := Json [ ("error", VStr "Database insertion failed");
                           ("message", VStr text) ];
       status := 500; headers := [] |} in
  (forall d, get_json request = Ok (VDict d) -> truthy (VDict d) = true ->
     let metrics := metrics_of d in
     let cid := correlation_of env d in
     (forall violations, validate_batch metrics = Ok (true, violations) ->
        (forall e, new_session env = Raise e -> answer = database_error (exn_str e)) /\
        (forall session e,
           new_session env = Ok session ->
           returned (insert_or_update_metrics session (items metrics) cid) = Raise e ->
           answer = database_error (exn_str e)) /\
        (forall session s1 e,
           new_session env = Ok session ->
           commit (ls_session (loop cid 0 (items metrics) (start session))) = (s1, Some e) ->
           (snd (rollback s1) = None ->
            answer = database_error ("Batch insert failed: " +:+ exn_str e)) /\
           (forall e', snd (rollback s1) = Some e' ->
                       answer = database_error (exn_str e')))) /\
     (forall e,
        len metrics = Raise e \/
        ((exists n, len metrics = Ok n) /\ validate_batch metrics = Raise e) ->
        answer = {| resp_body :=
                      Json [ ("error", VStr "Internal server error");
                             ("message", VStr (exn_str e));
                             ("correlationId", cid) ];
                    status := 500; headers := [] |})) /\
  (forall data, get_json request = Ok data -> truthy data = true ->
     is_record data = false ->
     answer = {| resp_body :=
                   Json [ ("error", VStr "Internal server error");
                          ("message", VStr ("'" +:+ type_name data
                                              +:+ "' object has no attribute 'get'"));
                          ("correlationId", VNone) ];
                 status := 500; headers := [] |}).
Proof.
  intros Hmethod answer database_error. split.
  - intros d Hjson Htruthy metrics cid. split.
    + intros violations Hvalid.
      destruct (accepted_is_list metrics) as (l & Hl); [by exists violations|].
      destruct (upload_validates env request d (Z.of_nat (length l)) Hmethod Hjson Htruthy)
        as (log & Hrun).
      { fold metrics. by rewrite Hl. }
      fold metrics cid in Hrun. rewrite Hvalid in Hrun. cbn [negb] in Hrun.
      assert (Hraise : forall session e,
                new_session env = Ok session ->
                returned (insert_or_update_metrics session (items metrics) cid) = Raise e ->
                answer = database_error (exn_str e)).
      { intros session e Hsession He. subst answer.
        rewrite Hrun, (store_metrics_sent _ _ _ _ session Hsession). by rewrite He. }
      split; [|split].
      * intros e Hsession. subst answer.
        by rewrite Hrun, (store_metrics_no_session _ _ _ _ e Hsession).
      * exact Hraise.
      * intros session s1 e Hsession Hcommit.
        pose proof (commit_failure_raises session (items metrics) cid s1 e Hcommit) as Hr.
        split.
        -- intros Hrollback. rewrite Hrollback in Hr.
           exact (Hraise session _ Hsession Hr).
        -- intros e' Hrollback. rewrite Hrollback in Hr.
           exact (Hraise session _ Hsession Hr).
    + intros e [Hlen|[(n & Hlen) Hraise]].
      * subst answer. unfold uploadHealthMetrics.
        destruct (String.eqb_spec (method request) "OPTIONS") as [Heq|_]; [done|].
        rewrite Hjson, Htruthy. cbn [negb]. cbv zeta. fold metrics. by rewrite Hlen.
      * destruct (upload_validates env request d n Hmethod Hjson Htruthy Hlen)
          as (log & Hrun).
        fold metrics cid in Hrun. rewrite Hraise in Hrun.
        subst answer. by rewrite Hrun.
  - intros data Hjson Htruthy Hrecord. subst answer. unfold uploadHealthMetrics.
    destruct (String.eqb_spec (method request) "OPTIONS") as [Heq|_]; [done|].
    rewrite Hjson, Htruthy. cbn [negb].
    by destruct data; try discriminate Hrecord.
Qed.

End WithSession.

End MainProps.

(** ** The scenarios of the specification, run on the table *)

Module Scenarios.
Import Py Models Runtime Validators Engine Store Main Micros Spec Samples.
Import EngineProps StoreProps MainProps.

Local Abbreviation fresh := (Store.create_session empty_db None).
Local Abbreviation c1 := (VStr "c1").

(** A record submitted twice to the empty table: one row, created at the
    first write. *)
Lemma upsert_twice_is_idempotent_witness :
  keys_unique (table empty_db) /\
  returned (insert_or_update_metrics fresh [VDict reading] c1) = Ok persisted /\
  exists stored,
    table (database_of (final_session
      (insert_or_update_metrics
         (Store.create_session
            (database_of (final_session (insert_or_update_metrics fresh [VDict reading] c1)))
            None)
         [VDict reading] (VStr "c2")))) = [stored] /\
    CreatedAt stored = 1000%Z /\ id stored = 1%Z /\
    cells stored !! "HeartRate" = Some (VInt 72).
Proof.
  assert (Huniq : keys_unique (table empty_db)) by constructor.
  assert (Hfirst : returned (insert_or_update_metrics fresh [VDict reading] c1) = Ok persisted)
    by (vm_compute; reflexivity).
  split; [exact Huniq|]. split; [exact Hfirst|].
  destruct (upsert_twice_is_idempotent (DT := micros) empty_db (VDict reading) c1 (VStr "c2") persisted
              Huniq Hfirst eq_refl)
    as (p & k & stored & Hp & Hk & Hone & Htwo & Hsame & _ & Hcells & Hfresh & _).
  exists stored. destruct (Hfresh eq_refl) as (Hcreated & Hid & _).
  split; [|split; [exact Hcreated|split; [exact Hid|]]].
  - eapply eq_trans; [exact Hsame|]. eapply eq_trans; [|exact Hone].
    vm_compute in Hp. injection Hp as <-.
    vm_compute in Hk. injection Hk as <-. vm_compute. reflexivity.
  - apply Hcells. vm_compute in Hp. injection Hp as <-. vm_compute. tauto.
Defined.

(** The commit fails after the only record was written in the session:
    nothing is stored, and the engine raises. *)
Lemma commit_failure_discards_batch_witness :
  let session := Store.create_session empty_db (Some connection_lost) in
  let out := insert_or_update_metrics session [VDict reading] c1 in
  commit (ls_session (loop c1 0 [VDict reading] (start session)))
    = (ls_session (loop c1 0 [VDict reading] (start session)), Some connection_lost) /\
  returned out = Raise (Exn "Exception" "Batch insert failed: connection lost") /\
  table (database_of (final_session out)) = [].
Proof.
  intros session out.
  assert (Hcommit : commit (ls_session (loop c1 0 [VDict reading] (start session)))
            = (ls_session (loop c1 0 [VDict reading] (start session)), Some connection_lost))
    by (vm_compute; reflexivity).
  split; [exact Hcommit|].
  destruct (proj1 commit_failure_discards_batch micros (Store.session Z) table_session
              session [VDict reading] c1 _ _ Hcommit)
    as (_ & _ & Hraise).
  split.
  - apply Hraise. reflexivity.
  - apply (proj2 commit_failure_discards_batch micros _ empty_db connection_lost
             [VDict reading] c1).
Defined.

(** Partial success: two records written, one refused, the batch committed. *)
Lemma returned_counts_witness :
  let r := {| success := false; inserted := 2; failed := 1;
              errors := ["Record 1: String or binary data would be truncated in column 'UserId'"] |} in
  returned (insert_or_update_metrics fresh three c1) = Ok r /\
  (inserted r + failed r = Z.of_nat (length three))%Z /\
  (success r = true <-> failed r = 0%Z).
Proof.
  intros r.
  assert (Hr : returned (insert_or_update_metrics fresh three c1) = Ok r)
    by (vm_compute; reflexivity).
  split; [exact Hr|]. exact (returned_counts fresh three c1 r Hr).
Defined.

Lemma record_failure_does_not_abort_witness :
  let st := loop c1 0 [VDict reading] (start fresh) in
  let out := insert_or_update_metrics fresh three c1 in
  attempt (ls_session st) (VDict oversized_reading)
    = (fst (attempt (ls_session st) (VDict oversized_reading)), Some truncated) /\
  (exists r, returned out = Ok r /\ success r = false /\ (0 < failed r)%Z /\
     (inserted r + failed r = 3)%Z /\ length (errors r) <= 5) /\
  length (table (database_of (final_session out))) = 2.
Proof.
  intros st out.
  assert (Hfail : attempt (ls_session st) (VDict oversized_reading)
            = (fst (attempt (ls_session st) (VDict oversized_reading)), Some truncated))
    by (vm_compute; reflexivity).
  split; [exact Hfail|].
  destruct (record_failure_does_not_abort fresh [VDict reading] (VDict oversized_reading)
              [VDict later_reading] c1 _ truncated Hfail)
    as (_ & _ & Hcommit).
  destruct (Hcommit (fst (commit (ls_session (loop c1 0 three (start fresh))))))
    as (_ & r & Hr & Hs & Hf & Hsum & _ & Hlen).
  { vm_compute. reflexivity. }
  split.
  - exists r. repeat split; assumption.
  - vm_compute. reflexivity.
Defined.

(** C7 fails on the code for metrics that have no length: for the number
    5 the validator's own answer is a rejection ("metrics must be an
    array"), which a string for metrics is answered 400 with; but
    [len(metrics)], taken for the log entry ahead of the validation, raises,
    and the request is answered 500. *)
Lemma validation_failure_answered_500 :
  let d : gmap string pyval := <["metrics" := VInt 5]> (<["correlationId" := c1]> ∅) in
  let d' : gmap string pyval := <["metrics" := VStr "5"]> (<["correlationId" := c1]> ∅) in
  validate_batch (metrics_of d) = Ok (false, ["metrics must be an array"]) /\
  sent (uploadHealthMetrics (env_with None) (post (VDict d)))
  = {| resp_body := Json [ ("error", VStr "Internal server error");
                           ("message", VStr "object of type 'int' has no len()");
                           ("correlationId", c1) ];
       status := 500; headers := [] |} /\
  validate_batch (metrics_of d') = Ok (false, ["metrics must be an array"]) /\
  sent (uploadHealthMetrics (env_with None) (post (VDict d')))
  = {| resp_body := Json [ ("error", VStr "Validation failed");
                           ("details", strings ["metrics must be an array"]) ];
       status := 400; headers := [] |}.
Proof.
  intros d d'. repeat split; vm_compute; reflexivity.
Qed.

(** The end-to-end scenario is answered 200. *)
Lemma status_codes_witness :
  let answer := sent (uploadHealthMetrics (env_with None) (post (VDict scenario))) in
  let out := insert_or_update_metrics fresh [VDict reading] c1 in
  status answer = 200%Z /\
  (status answer = 200%Z <-> exists r, returned out = Ok r /\ failed r = 0%Z).
Proof.
  intros answer out. split; [vm_compute; reflexivity|].
  assert (Hmethod : method (post (VDict scenario)) <> "OPTIONS") by discriminate.
  destruct (status_codes (env_with None) (post (VDict scenario)) scenario
              Hmethod eq_refl eq_refl) as (Hupsert & _).
  destruct (Hupsert [] fresh) as (H200 & _).
  - vm_compute. reflexivity.
  - reflexivity.
  - exact H200.
Defined.

(** C6 as stated fails: when the commit fails the body carries the storage
    error's text and no correlation id. *)
Lemma commit_failure_body_exposes_detail :
  let b := resp_body (sent (uploadHealthMetrics (env_with (Some connection_lost))
                              (post (VDict scenario)))) in
  b = Json [ ("error", VStr "Database insertion failed");
             ("message", VStr "Batch insert failed: connection lost") ] /\
  mentions (exn_str connection_lost) "Batch insert failed: connection lost" = true /\
  body_field b "correlationId" = None /\
  ~ generic_error_body c1 (exn_str connection_lost) b.
Proof.
  intros b. split; [vm_compute; reflexivity|]. split; [vm_compute; reflexivity|].
  split; [vm_compute; reflexivity|].
  intros [Hcid _]. vm_compute in Hcid. discriminate Hcid.
Qed.

Lemma error_responses_witness :
  let session := Store.create_session empty_db (Some connection_lost) in
  commit (ls_session (loop c1 0 [VDict reading] (start session)))
    = (ls_session (loop c1 0 [VDict reading] (start session)), Some connection_lost) /\
  sent (uploadHealthMetrics (env_with (Some connection_lost)) (post (VDict scenario)))
  = {| resp_body := Json [ ("error", VStr "Database insertion failed");
                           ("message", VStr "Batch insert failed: connection lost") ];
       status := 500; headers := [] |}.
Proof.
  intros session.
  assert (Hcommit : commit (ls_session (loop c1 0 [VDict reading] (start session)))
            = (ls_session (loop c1 0 [VDict reading] (start session)), Some connection_lost))
    by (vm_compute; reflexivity).
  split; [exact Hcommit|].
  assert (Hmethod : method (post (VDict scenario)) <> "OPTIONS") by discriminate.
  assert (Hvalid : validate_batch (metrics_of scenario) = Ok (true, []))
    by (vm_compute; reflexivity).
  destruct (error_responses (env_with (Some connection_lost)) (post (VDict scenario)) Hmethod)
    as (Hobject & _).
  destruct (Hobject scenario eq_refl eq_refl) as (Hdb & _).
  destruct (Hdb [] Hvalid) as (_ & _ & Hcommitted).
  destruct (Hcommitted session (ls_session (loop c1 0 [VDict reading] (start session)))
              connection_lost eq_refl Hcommit) as (Hrolled & _).
  apply Hrolled. reflexivity.
Defined.

End Scenarios.

(** ** The rules of the field validator *)

Module RulesProps.
Import Py Validators Rules PyProps ValidatorProps.
Local Open Scope py_scope.

Lemma between_within lo v hi ctype :
  is_numeric v = true -> between lo v hi ctype = Ok (within lo hi v).
Proof.
  destruct v; try discriminate; intros _; unfold between; cbn;
    match goal with |- context [if ?c then _ else _] => destruct c end; reflexivity.
Qed.

Lemma lt_const_negative v ctype :
  is_numeric v = true -> lt_const v 0 ctype = Ok (negative v).
Proof. destruct v; try discriminate; reflexivity. Qed.

Lemma numeric_range_msgs metric index k lo hi ctype range errors :
  numeric_range metric index k lo hi ctype range errors =
  Ok (errors ++ range_msgs false metric index k lo hi range).
Proof.
  unfold numeric_range, range_msgs. destruct (present metric k) as [v|];
    [|by rewrite app_nil_r].
  cbn [type_ok type_word]. destruct (is_numeric v) eqn:Hv; cbn [negb]; [|done].
  rewrite (between_within _ _ _ _ Hv). cbn [bind].
  destruct (within lo hi v); cbn [negb append_if]; by rewrite ?app_nil_r.
Qed.

Lemma integer_range_msgs metric index k lo hi range errors :
  integer_range metric index k lo hi range errors =
  Ok (errors ++ range_msgs true metric index k lo hi range).
Proof.
  unfold integer_range, range_msgs. destruct (present metric k) as [v|];
    [|by rewrite app_nil_r].
  cbn [type_ok type_word]. destruct (is_int v) eqn:Hv; cbn [negb]; [|done].
  rewrite (between_within _ _ _ _ (is_int_numeric v Hv)). cbn [bind].
  destruct (within lo hi v); cbn [negb append_if]; by rewrite ?app_nil_r.
Qed.

Lemma numeric_nonneg_msgs metric index k errors :
  numeric_nonneg metric index k errors = Ok (errors ++ nonneg_msgs false metric index k).
Proof.
  unfold numeric_nonneg, nonneg_msgs. destruct (present metric k) as [v|];
    [|by rewrite app_nil_r].
  cbn [type_ok type_word]. destruct (is_numeric v) eqn:Hv; cbn [negb]; [|done].
  rewrite (lt_const_negative _ _ Hv). cbn [bind].
  destruct (negative v); cbn [append_if]; by rewrite ?app_nil_r.
Qed.

Lemma integer_nonneg_msgs metric index k errors :
  integer_nonneg metric index k errors = Ok (errors ++ nonneg_msgs true metric index k).
Proof.
  unfold integer_nonneg, nonneg_msgs. destruct (present metric k) as [v|];
    [|by rewrite app_nil_r].
  cbn [type_ok type_word]. destruct (is_int v) eqn:Hv; cbn [negb]; [|done].
  rewrite (lt_const_negative _ _ (is_int_numeric v Hv)). cbn [bind].
  destruct (negative v); cbn [append_if]; by rewrite ?app_nil_r.
Qed.

Lemma append_if_app c msg errors : append_if c msg errors = errors ++ append_if c msg [].
Proof. destruct c; cbn; by rewrite ?app_nil_r. Qed.

Lemma wearing_check_app metric index errors :
  wearing_check metric index errors = errors ++ wearing_check metric index [].
Proof.
  unfold wearing_check. destruct (metric !! "isWearing"); [apply append_if_app|].
  by rewrite app_nil_r.
Qed.

(** [validate_metric] is the timestamp test followed by the list of what
    each rule adds. *)
Lemma validate_metric_violations metric index :
  validate_metric metric index =
  bind (timestamp_invalid (dict_get metric "timestamp"))
       (fun bad => Ok (violations metric index bad)).
Proof.
  unfold validate_metric.
  destruct (timestamp_invalid (dict_get metric "timestamp")) as [bad|e]; cbn [bind]; [|done].
  repeat (rewrite ?numeric_range_msgs, ?integer_range_msgs, ?numeric_nonneg_msgs,
            ?integer_nonneg_msgs; cbn [bind]).
  rewrite wearing_check_app.
  rewrite (append_if_app _ _ (append_if _ _ (append_if _ _ (append_if _ _ [])))).
  rewrite (append_if_app _ _ (append_if _ _ (append_if _ _ []))).
  rewrite (append_if_app _ _ (append_if _ _ [])).
  unfold violations. by rewrite <- !app_assoc.
Qed.

Lemma app_nil_iff {A} (l1 l2 : list A) : l1 ++ l2 = [] <-> l1 = [] /\ l2 = [].
Proof. destruct l1; cbn; split; intros; intuition congruence. Qed.

Lemma append_if_nil c msg : append_if c msg [] = [] <-> c = false.
Proof. destruct c; cbn; split; intros; congruence. Qed.

Lemma range_msgs_nil integer metric index k lo hi range :
  range_msgs integer metric index k lo hi range = [] <->
  range_ok integer metric k lo hi = true.
Proof.
  unfold range_msgs, range_ok. destruct (present metric k) as [v|]; [|done].
  destruct (type_ok integer v); cbn [negb andb]; [|split; discriminate].
  destruct (within lo hi v); split; intros; congruence.
Qed.

Lemma nonneg_msgs_nil integer metric index k :
  nonneg_msgs integer metric index k = [] <-> nonneg_ok integer metric k = true.
Proof.
  unfold nonneg_msgs, nonneg_ok. destruct (present metric k) as [v|]; [|done].
  destruct (type_ok integer v); cbn [negb andb]; [|split; discriminate].
  destruct (negative v); split; cbn; intros; congruence.
Qed.

Lemma wearing_check_nil metric index :
  wearing_check metric index [] = [] <-> wearing_ok metric = true.
Proof.
  unfold wearing_check, wearing_ok. destruct (metric !! "isWearing") as [v|]; [|done].
  rewrite append_if_nil. by destruct (is_bool v).
Qed.

Lemma timestamp_invalid_ok metric bad :
  timestamp_invalid (dict_get metric "timestamp") = Ok bad ->
  (bad = false <-> timestamp_ok metric = true).
Proof.
  unfold timestamp_invalid, timestamp_ok.
  destruct (dict_get metric "timestamp"); cbn [is_none le_const]; try discriminate;
    intros [= <-]; rewrite ?negb_true_iff; try reflexivity; split; discriminate.
Qed.

Lemma timestamp_invalid_raise metric e :
  timestamp_invalid (dict_get metric "timestamp") = Raise e ->
  timestamp_ok metric = false /\ timestamp_comparable metric = false.
Proof.
  unfold timestamp_invalid, timestamp_ok, timestamp_comparable.
  destruct (dict_get metric "timestamp"); cbn; try discriminate; done.
Qed.

Lemma timestamp_comparable_returns metric :
  timestamp_comparable metric = true <->
  exists bad, timestamp_invalid (dict_get metric "timestamp") = Ok bad.
Proof.
  unfold timestamp_invalid, timestamp_comparable.
  destruct (dict_get metric "timestamp"); cbn; split; eauto; try discriminate;
    intros (bad & Hbad); discriminate.
Qed.

Lemma valid_record_spec metric index :
  validate_metric metric index = Ok [] <-> valid_record metric = true.
Proof.
  rewrite validate_metric_violations.
  destruct (timestamp_invalid (dict_get metric "timestamp")) as [bad|e] eqn:Hts; cbn [bind].
  - pose proof (timestamp_invalid_ok _ _ Hts) as Hbad.
    split.
    + intros [= Hnil]. unfold violations in Hnil.
      repeat (apply app_nil_iff in Hnil as [?H Hnil]).
      repeat match goal with
      | H : append_if _ _ [] = [] |- _ => apply append_if_nil in H
      | H : range_msgs _ _ _ _ _ _ _ = [] |- _ => apply range_msgs_nil in H
      | H : nonneg_msgs _ _ _ _ = [] |- _ => apply nonneg_msgs_nil in H
      | H : wearing_check _ _ [] = [] |- _ => apply wearing_check_nil in H
      | H : negb _ = false |- _ => apply negb_false_iff in H
      end.
      unfold valid_record.
      repeat (apply andb_true_intro; split); try assumption. by apply Hbad.
    + unfold valid_record. intros Hvalid.
      repeat (apply andb_true_iff in Hvalid as [Hvalid ?H]).
      f_equal. unfold violations.
      repeat (apply app_nil_iff; split);
        first [ by apply range_msgs_nil | by apply nonneg_msgs_nil
              | by apply wearing_check_nil
              | apply append_if_nil; first [ by apply negb_false_iff | by apply Hbad ] ].
  - destruct (timestamp_invalid_raise _ _ Hts) as [Hno _]. split; [discriminate|].
    unfold valid_record. rewrite Hno. rewrite !andb_false_r. cbn. discriminate.
Qed.

(** A record passes the validator, at whatever index, exactly when it
    meets every rule as the comparisons of the code decide them: [userId],
    [deviceId] and [recordHash] are truthy; the timestamp is a number for
    which [timestamp <= 0] is false (every positive number, and a NaN);
    every ranged field that is present and non-null has its type and
    [lo <= v <= hi] holds (it fails for a NaN); [steps], [calories] and
    [distance], when present and non-null, have their type and [v < 0] is
    false (it is for a NaN); and [isWearing], if present, is a boolean. *)
Theorem valid_iff_rules metric index :
  validate_metric metric index = Ok [] <-> valid_record metric = true.
Proof. apply valid_record_spec. Qed.

(** *** Attribution and number of violations *)

Lemma append_if_names c index text :
  Forall (names_record index) (append_if c (record_msg index text) []) /\
  length (append_if c (record_msg index text) []) <= 1.
Proof.
  destruct c; cbn; split; try lia; [|constructor].
  constructor; [by exists text|constructor].
Qed.

Lemma range_msgs_names integer metric index k lo hi range :
  Forall (names_record index) (range_msgs integer metric index k lo hi range) /\
  length (range_msgs integer metric index k lo hi range) <= 1.
Proof.
  unfold range_msgs. destruct (present metric k) as [v|]; [|by split; [constructor|cbn; lia]].
  destruct (negb (type_ok integer v)); [|destruct (within lo hi v)]; cbn [length];
    split; try lia; repeat constructor; eexists; reflexivity.
Qed.

Lemma nonneg_msgs_names integer metric index k :
  Forall (names_record index) (nonneg_msgs integer metric index k) /\
  length (nonneg_msgs integer metric index k) <= 1.
Proof.
  unfold nonneg_msgs. destruct (present metric k) as [v|]; [|by split; [constructor|cbn; lia]].
  destruct (negb (type_ok integer v)); [|destruct (negative v)]; cbn [length];
    split; try lia; repeat constructor; eexists; reflexivity.
Qed.

Lemma wearing_check_names metric index :
  Forall (names_record index) (wearing_check metric index []) /\
  length (wearing_check metric index []) <= 1.
Proof.
  unfold wearing_check. destruct (metric !! "isWearing") as [v|];
    [apply append_if_names|by split; [constructor|cbn; lia]].
Qed.

Lemma violations_name_record_aux metric index errs :
  validate_metric metric index = Ok errs ->
  Forall (names_record index) errs /\ length errs <= 20.
Proof.
  rewrite validate_metric_violations. intros (bad & _ & [= <-])%bind_ok.
  unfold violations. rewrite !Forall_app, !length_app.
  pose proof (append_if_names (negb (truthy (dict_get metric "userId"))) index
                "userId is required").
  pose proof (append_if_names (negb (truthy (dict_get metric "deviceId"))) index
                "deviceId is required").
  pose proof (append_if_names bad index "invalid timestamp (must be positive)").
  pose proof (append_if_names (negb (truthy (dict_get metric "recordHash"))) index
                "recordHash is required for deduplication").
  pose proof (range_msgs_names false metric index "heartRate" 30 220 "30-220 bpm").
  pose proof (range_msgs_names false metric index "bpSystolic" 60 280 "60-280 mmHg").
  pose proof (range_msgs_names false metric index "bpDiastolic" 30 150 "30-150 mmHg").
  pose proof (range_msgs_names false metric index "spO2" 70 100 "70-100%").
  pose proof (range_msgs_names false metric index "temperature" 35 41 "35.0-41.0°C").
  pose proof (range_msgs_names false metric index "bloodGlucose" 50 500 "50-500").
  pose proof (nonneg_msgs_names true metric index "steps").
  pose proof (nonneg_msgs_names false metric index "calories").
  pose proof (nonneg_msgs_names false metric index "distance").
  pose proof (range_msgs_names true metric index "totalSleep" 0 1440 "0-1440 minutes").
  pose proof (range_msgs_names true metric index "deepSleep" 0 1440 "0-1440 minutes").
  pose proof (range_msgs_names true metric index "lightSleep" 0 1440 "0-1440 minutes").
  pose proof (range_msgs_names true metric index "stress" 0 100 "0-100").
  pose proof (range_msgs_names false metric index "met" 0 20 "0.0-20.0").
  pose proof (range_msgs_names true metric index "mai" 0 100 "0-100").
  pose proof (wearing_check_names metric index).
  repeat match goal with H : _ /\ _ |- _ => destruct H end.
  split; [repeat split; assumption | lia].
Qed.

(** Every violation of a record starts with "Record {index}: ", and a
    record has at most twenty of them, one per rule. *)
Theorem violations_name_record metric index errs :
  validate_metric metric index = Ok errs ->
  Forall (fun msg => exists text, msg = record_msg index text) errs /\
  length errs <= 20.
Proof. apply violations_name_record_aux. Qed.

Lemma violations_name_record_witness :
  validate_metric (<["heartRate" := VInt 500]> (<["steps" := VFloat 5]> Samples.reading)) 7
  = Ok ["Record 7: heartRate out of range (30-220 bpm)"; "Record 7: steps must be integer"] /\
  Forall (fun msg => exists text, msg = record_msg 7 text)
    ["Record 7: heartRate out of range (30-220 bpm)"; "Record 7: steps must be integer"].
Proof.
  assert (H : validate_metric
                (<["heartRate" := VInt 500]> (<["steps" := VFloat 5]> Samples.reading)) 7
              = Ok ["Record 7: heartRate out of range (30-220 bpm)";
                    "Record 7: steps must be integer"]) by (vm_compute; reflexivity).
  split; [exact H|]. exact (proj1 (violations_name_record _ _ _ H)).
Defined.

(** The bounds are inclusive: with an integer put in a ranged field, the
    record is valid exactly when the integer lies between the field's two
    bounds, ends included, and the rest of the record is valid. *)
Theorem bounds_are_inclusive k lo hi (metric : gmap string pyval) (z : Z) :
  In (k, (lo, hi)) bounds ->
  (valid_record (<[k := VInt z]> metric) = true <->
   (lo <= z <= hi)%Z /\ valid_record (delete k metric) = true).
Proof.
  intros Hin. unfold bounds in Hin.
  repeat (destruct Hin as [[= <- <- <-]|Hin]); try contradiction;
    unfold valid_record, range_ok, nonneg_ok, wearing_ok, timestamp_ok, present, dict_get;
    rewrite lookup_insert_eq, lookup_delete_eq;
    rewrite !lookup_insert_ne, !lookup_delete_ne by done;
    cbn [is_none type_ok is_int is_numeric within andb];
    match goal with
    | |- context [((?a <=? z)%Z && (z <=? ?b)%Z)] =>
        destruct (Z.leb_spec a z), (Z.leb_spec z b)
    end;
    repeat (rewrite ?andb_true_r, ?andb_false_r; cbn [andb]);
    (split; [first [discriminate | intros Hv; split; [lia | exact Hv]]
            | intros [Hz Hv]; first [exact Hv | lia]]).
Qed.

Lemma bounds_are_inclusive_witness :
  In ("heartRate", (30, 220)%Z) bounds /\
  (valid_record (<["heartRate" := VInt 220]> Samples.reading) = true <->
   (30 <= 220 <= 220)%Z /\ valid_record (delete "heartRate" Samples.reading) = true) /\
  (valid_record (<["heartRate" := VInt 221]> Samples.reading) = true <->
   (30 <= 221 <= 220)%Z /\ valid_record (delete "heartRate" Samples.reading) = true).
Proof.
  assert (Hin : In ("heartRate", (30, 220)%Z) bounds) by (cbn; tauto).
  split; [exact Hin|]. split.
  - exact (bounds_are_inclusive _ _ _ Samples.reading 220 Hin).
  - exact (bounds_are_inclusive _ _ _ Samples.reading 221 Hin).
Defined.

End RulesProps.

(** ** The batch validator, further *)

Module BatchMore.
Import Py Validators Rules Spec PyProps ValidatorProps BatchProps RulesProps.
Local Open Scope py_scope.

Lemma element_errors_nil i v :
  element_errors i v = Ok [] <-> valid_element v.
Proof.
  unfold valid_element. destruct v; cbn [element_errors];
    try (split; [discriminate | by intros (d' & [= ] & _)]).
  rewrite valid_record_spec. split; [eauto|]. by intros (d' & [= <-] & Hd).
Qed.

Lemma element_errors_raise i v :
  (exists e, element_errors i v = Raise e) <-> raising_element v.
Proof.
  unfold raising_element. destruct v; cbn [element_errors];
    try (split; [by intros (e & [= ]) | by intros (d' & [= ] & _)]).
  split.
  - intros (e & He). apply validate_metric_raises in He.
    exists d. split; [done|]. by apply timestamp_invalid_raise in He as [_ He].
  - intros (d' & [= <-] & Hd).
    destruct (timestamp_invalid (dict_get d "timestamp")) as [bad|e] eqn:Hts.
    + assert (timestamp_comparable d = true) by (apply timestamp_comparable_returns; eauto).
      congruence.
    + exists e. by apply validate_metric_raises.
Qed.

Lemma collected_nil i l : collected i l = Ok [] <-> Forall valid_element l.
Proof.
  revert i. induction l as [|v l IH]; intros i; cbn [collected].
  - split; [constructor|done].
  - rewrite Forall_cons, <- (IH (S i)), <- (element_errors_nil i). split.
    + intros (e & He & (more & Hmore & [= Hnil])%bind_ok)%bind_ok.
      apply app_nil_iff in Hnil as [-> ->]. done.
    + intros [-> Hl]. cbn [bind]. by rewrite Hl.
Qed.

Lemma collected_raise i l :
  (exists e, collected i l = Raise e) <-> Exists raising_element l.
Proof.
  revert i. induction l as [|v l IH]; intros i; cbn [collected].
  - split; [by intros (e & [= ])|by intros ?%Exists_nil].
  - rewrite Exists_cons, <- (IH (S i)), <- (element_errors_raise i). split.
    + intros (e & He). destruct (element_errors i v) as [errs|e0]; cbn [bind] in He.
      * right. destruct (collected (S i) l) as [more|e1]; cbn [bind] in He; [done|eauto].
      * left. eauto.
    + intros [(e & ->)|(e & He)]; [by exists e|].
      destruct (element_errors i v) as [errs|e0]; cbn [bind]; [|eauto].
      rewrite He. cbn [bind]. eauto.
Qed.

(** A batch is accepted exactly when it is a list of 1 to 500 elements,
    each of them a record that meets every rule. *)
Theorem accepted_iff_all_valid v :
  accepted (validate_batch v) <->
  exists l, v = VList l /\ 1 <= length l <= 500 /\ Forall valid_element l.
Proof.
  split.
  - intros Hacc. destruct (accepted_is_list v Hacc) as (l & ->).
    pose proof (accepted_length l Hacc) as Hlen.
    exists l. split; [done|]. split; [done|].
    destruct Hacc as (violations & Hv). rewrite validate_batch_in_range in Hv by done.
    apply rmap_ok in Hv as (all_errors & Hc & [= Hflag ->]).
    symmetry in Hflag. apply Nat.eqb_eq in Hflag.
    apply (collected_nil 0). by destruct all_errors.
  - intros (l & -> & Hlen & Hall). rewrite validate_batch_in_range by done.
    apply (collected_nil 0) in Hall. rewrite Hall. by exists [].
Qed.

(** [validate_batch] raises exactly when the input is a list of 1 to 500
    elements one of which is a record whose timestamp is neither null nor a
    number; on every other input it returns. *)
Theorem validate_batch_raises_iff v :
  (exists e, validate_batch v = Raise e) <->
  exists l, v = VList l /\ 1 <= length l <= 500 /\ Exists raising_element l.
Proof.
  split.
  - intros (e & He). destruct v; try discriminate He.
    exists l. split; [done|]. unfold validate_batch in He.
    destruct (Nat.eqb_spec (length l) 0) as [H0|H0]; [discriminate He|].
    destruct (Nat.ltb_spec 500 (length l)) as [Hlt|Hle]; [discriminate He|].
    split; [lia|]. apply (collected_raise 0). rewrite validate_loop_collected in He.
    unfold rmap in He. destruct (collected 0 l) as [errs|e0]; [discriminate He|eauto].
  - intros (l & -> & Hlen & Hex). apply (collected_raise 0) in Hex as (e & He).
    exists e. rewrite validate_batch_in_range by done. by rewrite He.
Qed.

Lemma collected_names i l errs :
  collected i l = Ok errs ->
  Forall (fun msg => exists j text,
            i <= j < i + length l /\ msg = record_msg (Z.of_nat j) text) errs /\
  length errs <= 20 * length l.
Proof.
  revert i errs. induction l as [|v l IH]; intros i errs; cbn [collected].
  - intros [= <-]. split; [constructor|cbn; lia].
  - intros (e & He & (more & Hmore & [= <-])%bind_ok)%bind_ok.
    destruct (IH _ _ Hmore) as [Hnames Hlen].
    assert (Hv : Forall (names_record (Z.of_nat i)) e /\ length e <= 20).
    { destruct v; cbn [element_errors] in He;
        try (injection He as <-; split; [|cbn; lia];
             repeat constructor; eexists; reflexivity).
      by apply violations_name_record_aux in He. }
    destruct Hv as [Hv Hlv]. rewrite Forall_app, length_app. cbn [length].
    split; [split|lia].
    + eapply Forall_impl; [exact Hv|]. intros msg (text & ->).
      exists i, text. split; [lia|done].
    + eapply Forall_impl; [exact Hnames|]. intros msg (j & text & Hj & ->).
      exists j, text. split; [lia|done].
Qed.

(** In the violations of a batch of 1 to 500 elements every message names
    the index of one of the elements, and the batch is flagged valid
    exactly when there is no message. *)
Theorem batch_violations_name_elements l ok errs :
  1 <= length l <= 500 ->
  validate_batch (VList l) = Ok (ok, errs) ->
  Forall (fun msg => exists j text,
            j < length l /\ msg = record_msg (Z.of_nat j) text) errs /\
  (ok = true <-> errs = []) /\
  length errs <= 20 * length l.
Proof.
  intros Hlen Hv. rewrite validate_batch_in_range in Hv by done.
  apply rmap_ok in Hv as (all_errors & Hc & [= -> ->]).
  destruct (collected_names _ _ _ Hc) as [Hnames Hcount].
  split; [|split; [|done]].
  - eapply Forall_impl; [exact Hnames|]. intros msg (j & text & Hj & ->).
    exists j, text. split; [lia|done].
  - rewrite Nat.eqb_eq. by destruct all_errors.
Qed.

Lemma batch_violations_name_elements_witness :
  let l := [VDict Samples.reading; VInt 5; VDict (<["heartRate" := VInt 29]> Samples.reading)] in
  let errs := ["Record 1: must be a JSON object";
               "Record 2: heartRate out of range (30-220 bpm)"] in
  1 <= length l <= 500 /\
  validate_batch (VList l) = Ok (false, errs) /\
  Forall (fun msg => exists j text,
            j < length l /\ msg = record_msg (Z.of_nat j) text) errs.
Proof.
  intros l errs.
  assert (Hlen : 1 <= length l <= 500) by (cbn; lia).
  assert (Hv : validate_batch (VList l) = Ok (false, errs)) by (vm_compute; reflexivity).
  split; [exact Hlen|]. split; [exact Hv|].
  exact (proj1 (batch_violations_name_elements l false errs Hlen Hv)).
Defined.

End BatchMore.

(** ** The engine: counts, messages, and what validation guarantees *)

Module EngineMore.
Import Py Validators Rules Models Runtime Engine PyProps EngineProps RulesProps.
Local Open Scope py_scope.

Section WithSession.
Context `{DT : DatetimeLib} {Sess : Type} `{SO : !SessionOps datetime Sess}.

(** The result carries one message per failed record up to five: the
    number of messages is the smaller of 5 and the failed count. *)
Theorem errors_match_failed (session : Sess) metrics cid r :
  returned (insert_or_update_metrics session metrics cid) = Ok r ->
  Z.of_nat (length (errors r)) = Z.min 5 (failed r) /\
  (errors r = [] <-> failed r = 0%Z).
Proof.
  intros Hr. apply returned_result in Hr. cbn zeta in Hr. subst r.
  cbn [errors failed].
  pose proof (loop_counts cid 0 metrics (start session)) as (_ & _ & Hf & He & _).
  cbn [start ls_errors failed_count length] in Hf, He.
  rewrite length_firstn. split; [lia|].
  destruct (ls_errors (loop cid 0 metrics (start session))) as [|msg errs] eqn:Herrs;
    cbn [length firstn] in *; split; intros; try lia; try discriminate; done.
Qed.

(** A record that passed validation gets past every statement before the
    store except the timestamp conversion: it can fail only because its
    timestamp is an integer too large for a float, or because
    [utcfromtimestamp] refuses the seconds. *)
Theorem valid_record_build_failure (d : gmap string pyval) e :
  valid_record d = true ->
  build_params (VDict d) = Raise e ->
  e = Exn "OverflowError" "int too large to convert to float" \/
  exists secs, utcfromtimestamp secs = Raise e.
Proof.
  unfold valid_record. intros Hvalid.
  repeat (apply andb_true_iff in Hvalid as [Hvalid ?H]).
  match goal with H : timestamp_ok d = true |- _ => rename H into Hts end.
  unfold timestamp_ok, dict_get in Hts. unfold build_params. cbn [getitem].
  destruct (d !! "timestamp") as [ts|]; cbn [default] in Hts; [|discriminate Hts].
  cbn [bind]. destruct ts; try discriminate Hts; cbn [truediv bind].
  - destruct (utcfromtimestamp _) eqn:Hu; cbn [bind]; [discriminate|].
    intros [= <-]. right. eauto.
  - unfold float_of_int.
    destruct (PrimFloat.is_infinity _); cbn [bind]; [intros [= <-]; by left|].
    destruct (utcfromtimestamp _) eqn:Hu; cbn [bind]; [discriminate|].
    intros [= <-]. right. eauto.
  - destruct (utcfromtimestamp _) eqn:Hu; cbn [bind]; [discriminate|].
    intros [= <-]. right. eauto.
Qed.

End WithSession.

End EngineMore.

(** ** Batches against the table *)

Module StoreMore.
Import Py Models Runtime Engine Store Batches PyProps EngineProps StoreProps.

Section Table.
Context `{DT : DatetimeLib} `{EQ : !EqDecision datetime}.

Local Abbreviation session := (Store.session datetime).
Local Abbreviation database := (Store.database datetime).
Local Abbreviation row := (Store.row datetime).
Local Abbreviation key := (Store.key datetime).

Implicit Types (s : session) (db : database) (rows : list row) (k : key)
  (p : HealthMetric datetime) (cid : pyval) (metrics : list pyval).

(** *** From statements to batches *)

Lemma attempt_rows s metric :
  working (fst (attempt s metric)) =
  match build_params metric with
  | Ok p =>
      match merge (working s) (next_id s) (now s) p with
      | Ok (rows', _) => rows'
      | Raise _ => working s
      end
  | Raise _ => working s
  end.
Proof.
  unfold attempt. destruct (build_params metric) as [p|e]; [|done].
  cbn [execute table_session]. unfold execute_merge.
  by destruct (merge (working s) (next_id s) (now s) p) as [[rows' ident']|e].
Qed.

Lemma process_rows cid i (st : @loop_state session) metric :
  working (ls_session (process cid i st metric)) =
  working (fst (attempt (ls_session st) metric)).
Proof. unfold process. by destruct (attempt (ls_session st) metric) as [s' [e|]]. Qed.

(** What every successful statement of a batch preserves, the batch's loop
    preserves. *)
Lemma loop_rows_invariant (P : list row -> Prop) cid i metrics (st : @loop_state session) :
  (forall metric p rows ident time rows' ident',
     In metric metrics -> build_params metric = Ok p -> P rows ->
     merge rows ident time p = Ok (rows', ident') -> P rows') ->
  P (working (ls_session st)) ->
  P (working (ls_session (loop cid i metrics st))).
Proof.
  revert i st. induction metrics as [|metric rest IH]; intros i st Hstep Hst; [done|].
  cbn [loop]. apply IH.
  - intros m p rows ident time rows' ident' Hin. apply Hstep. by right.
  - rewrite process_rows, attempt_rows.
    destruct (build_params metric) as [p|e] eqn:Hp; [|done].
    destruct (merge _ _ _ p) as [[rows' ident']|e] eqn:Hm; [|done].
    eapply Hstep; [by left|exact Hp|exact Hst|exact Hm].
Qed.

(** The table a call leaves: the rows the loop reached when the commit
    succeeds, the rows it found when the commit raises. *)
Lemma submit_table db fault metrics cid :
  table (fst (submit db fault metrics cid)) =
  match fault with
  | None => working (ls_session (loop cid 0 metrics (start (create_session db None))))
  | Some _ => table db
  end.
Proof.
  unfold submit. cbn [fst]. destruct fault as [e|].
  - by destruct (commit_fault_outcome db e metrics cid) as (_ & Ht & _).
  - unfold insert_or_update_metrics.
    destruct (loop_durable cid 0 metrics (start (create_session db None))) as [_ Hf].
    cbn [start ls_session create_session commit_fault] in Hf.
    cbn [commit table_session]. unfold commit_session. rewrite Hf.
    reflexivity.
Qed.

Lemma submit_invariant (P : list row -> Prop) db fault metrics cid :
  (forall metric p rows ident time rows' ident',
     In metric metrics -> build_params metric = Ok p -> P rows ->
     merge rows ident time p = Ok (rows', ident') -> P rows') ->
  P (table db) -> P (table (fst (submit db fault metrics cid))).
Proof.
  intros Hstep Hdb. rewrite submit_table. destruct fault; [done|].
  by apply loop_rows_invariant.
Qed.

(** *** What a statement leaves alone *)

Lemma rows_with_update_other k k' p rows :
  k <> k' -> rows_with k (update_matching k' p rows) = rows_with k rows.
Proof.
  intros Hne. unfold rows_with, update_matching. induction rows as [|r rows IH]; [done|].
  cbn [map]. rewrite !filter_cons, IH.
  destruct (matches k' r) eqn:Hm; [|done].
  apply matches_true in Hm. rewrite update_row_key.
  destruct (decide (row_key r = k)) as [Hk|_]; [congruence|done].
Qed.

Lemma merge_frame rows ident time p rows' ident' k :
  merge rows ident time p = Ok (rows', ident') ->
  natural_key p <> Some k ->
  rows_with k rows' = rows_with k rows.
Proof.
  intros Hm Hk. destruct (merge_ok _ _ _ _ _ _ Hm) as (u & d & h & Hkey & _ & Hcase).
  cbn zeta in Hcase.
  assert (Hne : k <> (u, d, timestamp p, h)) by (intros ->; by apply Hk).
  destruct Hcase as [(_ & -> & _)|(_ & -> & _)].
  - by apply rows_with_update_other.
  - unfold rows_with. rewrite filter_app, filter_cons, filter_nil.
    destruct (decide (row_key (new_row ident u d h time p) = k)) as [Heq|_].
    + by destruct Hne.
    + by rewrite app_nil_r.
Qed.

Lemma merge_skeleton rows ident time p rows' ident' :
  merge rows ident time p = Ok (rows', ident') ->
  map skeleton rows `prefix_of` map skeleton rows'.
Proof.
  intros Hm. destruct (merge_ok _ _ _ _ _ _ Hm) as (u & d & h & _ & _ & Hcase).
  cbn zeta in Hcase. destruct Hcase as [(_ & -> & _)|(_ & -> & _)].
  - unfold update_matching. rewrite map_map.
    erewrite map_ext; [reflexivity|]. intros r. cbn beta.
    by destruct (matches (u, d, timestamp p, h) r).
  - rewrite map_app. by apply prefix_app_r.
Qed.

(** A batch keeps the table free of duplicate natural keys, whether its
    commit succeeds or raises. *)
Theorem batch_keeps_keys_unique db fault metrics cid :
  keys_unique (table db) ->
  keys_unique (table (fst (submit db fault metrics cid))).
Proof.
  apply submit_invariant. intros metric p rows ident time rows' ident' _ _.
  apply merge_keeps_keys_unique.
Qed.

(** A batch changes nothing under a natural key that none of its records
    carries. *)
Theorem batch_leaves_other_keys db fault metrics cid k :
  ~ In k (batch_keys metrics) ->
  rows_with k (table (fst (submit db fault metrics cid))) = rows_with k (table db).
Proof.
  intros Hk.
  apply (submit_invariant (fun rows => rows_with k rows = rows_with k (table db)));
    [|done].
  intros metric p rows ident time rows' ident' Hin Hp Hrows Hm.
  rewrite <- Hrows. eapply merge_frame; [exact Hm|].
  intros Hkey. apply Hk. unfold batch_keys.
  apply list_elem_of_In, list_elem_of_omap. exists metric.
  split; [by apply list_elem_of_In|]. unfold metric_key. by rewrite Hp.
Qed.

(** A batch deletes no row and rewrites no row's id, natural key or
    [CreatedAt]: the rows stored before it are, in their order and up to
    their mutable columns, the first rows stored after it. *)
Theorem batch_keeps_rows db fault metrics cid :
  map skeleton (table db) `prefix_of`
  map skeleton (table (fst (submit db fault metrics cid))).
Proof.
  apply (submit_invariant (fun rows => map skeleton (table db) `prefix_of` map skeleton rows));
    [|done].
  intros metric p rows ident time rows' ident' _ _ Hrows Hm.
  etrans; [exact Hrows|]. by eapply merge_skeleton.
Qed.

(** Whatever the batch and whether or not the commit raises, the call
    leaves the session closed with no uncommitted row in it. *)
Theorem session_left_closed db fault metrics cid :
  let out := insert_or_update_metrics (create_session db fault) metrics cid in
  closed (final_session out) = true /\
  working (final_session out) = committed (final_session out).
Proof.
  cbn zeta. destruct fault as [e|].
  - destruct (commit_fault_outcome db e metrics cid) as (_ & Ht & Hw & Hc).
    cbn [database_of table] in Ht. split; [done|congruence].
  - unfold insert_or_update_metrics.
    destruct (loop_durable cid 0 metrics (start (create_session db None))) as [_ Hf].
    cbn [start ls_session create_session commit_fault] in Hf.
    cbn [commit table_session]. unfold commit_session. rewrite Hf.
    by cbn.
Qed.

(** *** The MERGE, case by case *)

Lemma natural_key_texts p k :
  natural_key p = Some k ->
  exists u d h, k = (u, d, timestamp p, h) /\
    user_id p = VStr u /\ device_id p = VStr d /\ record_hash p = VStr h.
Proof.
  unfold natural_key. intros Hk.
  destruct (user_id p) as [| | | |u| |]; try discriminate Hk.
  destruct (device_id p) as [| | | |d| |]; try discriminate Hk.
  destruct (record_hash p) as [| | | |h| |]; try discriminate Hk.
  injection Hk as <-. by exists u, d, h.
Qed.

Lemma merge_update rows ident time p k :
  natural_key p = Some k -> bind_cells (set_clause p) = Ok tt ->
  existsb (matches k) rows = true ->
  merge rows ident time p = Ok (update_matching k p rows, ident).
Proof.
  intros (u & d & h & -> & Hu & Hd & Hh)%natural_key_texts Hcells Hex.
  unfold merge. rewrite Hu, Hd, Hh. cbn [text_param Py.bind]. rewrite Hcells. cbn [Py.bind].
  by rewrite Hex.
Qed.

Lemma merge_insert rows ident time p u d h :
  natural_key p = Some (u, d, timestamp p, h) -> bind_cells (set_clause p) = Ok tt ->
  existsb (matches (u, d, timestamp p, h)) rows = false ->
  fits (u, d, timestamp p, h) = true ->
  merge rows ident time p = Ok (rows ++ [new_row ident u d h time p], (ident + 1)%Z).
Proof.
  intros Hk Hcells Hex Hfits.
  destruct (natural_key_texts _ _ Hk) as (u' & d' & h' & [= <- <- <-] & Hu & Hd & Hh).
  unfold fits in Hfits. apply andb_true_iff in Hfits as [[Hlu Hld]%andb_true_iff Hlh].
  unfold merge. rewrite Hu, Hd, Hh. cbn [text_param Py.bind]. rewrite Hcells. cbn [Py.bind].
  rewrite Hex. unfold required_text. by rewrite Hlu, Hld, Hlh.
Qed.

(** A statement that raises does so with an exception that does not depend
    on the rows, as long as they hold no row under its key. *)
Lemma merge_raise_stable rows ident time p e rows2 ident2 time2 :
  merge rows ident time p = Raise e ->
  (forall k, natural_key p = Some k -> existsb (matches k) rows2 = false) ->
  merge rows2 ident2 time2 p = Raise e.
Proof.
  unfold merge. intros Hm Hno.
  destruct (text_param "UserId" (user_id p)) as [u|e1] eqn:Hu; cbn [Py.bind] in *; [|done].
  destruct (text_param "DeviceId" (device_id p)) as [d|e2] eqn:Hd; cbn [Py.bind] in *; [|done].
  destruct (text_param "RecordHash" (record_hash p)) as [h|e3] eqn:Hh;
    cbn [Py.bind] in *; [|done].
  destruct (bind_cells (set_clause p)) as [[]|e4] eqn:Hc; cbn [Py.bind] in *; [|done].
  destruct u as [u|]; [|exact Hm]. destruct d as [d|]; [|exact Hm].
  destruct h as [h|]; [|exact Hm].
  apply text_param_some in Hu, Hd, Hh.
  rewrite (Hno (u, d, timestamp p, h)) by (unfold natural_key; by rewrite Hu, Hd, Hh).
  destruct (existsb (matches (u, d, timestamp p, h)) rows); [discriminate Hm|].
  destruct (required_text "UserId" UserId_max (Some u)); cbn [Py.bind] in *; [|done].
  destruct (required_text "DeviceId" DeviceId_max (Some d)); cbn [Py.bind] in *; [|done].
  destruct (required_text "RecordHash" RecordHash_max (Some h)); cbn [Py.bind] in *; done.
Qed.

Lemma merge_raise_no_match rows ident time p e k :
  merge rows ident time p = Raise e -> natural_key p = Some k ->
  bind_cells (set_clause p) = Ok tt ->
  existsb (matches k) rows = false /\ fits k = false.
Proof.
  intros Hm Hk Hcells.
  destruct (existsb (matches k) rows) eqn:Hex.
  - by rewrite (merge_update _ _ _ _ _ Hk Hcells Hex) in Hm.
  - split; [done|]. destruct (fits k) eqn:Hfits; [|done].
    destruct (natural_key_texts _ _ Hk) as (u & d & h & -> & _).
    by rewrite (merge_insert _ _ _ _ _ _ _ Hk Hcells Hex Hfits) in Hm.
Qed.

Lemma existsb_app_new k rows (r : row) :
  existsb (matches k) (rows ++ [r]) = existsb (matches k) rows || matches k r.
Proof. rewrite existsb_app. cbn. by rewrite orb_false_r. Qed.

Lemma matches_new_row ident u d h time p :
  matches (u, d, timestamp p, h) (new_row ident u d h time p) = true.
Proof. by apply matches_true. Qed.

(** After a statement that succeeded there is a row under its key, and
    every key that had a row still has one. *)
Lemma merge_key_present rows ident time p rows' ident' k :
  merge rows ident time p = Ok (rows', ident') -> natural_key p = Some k ->
  existsb (matches k) rows' = true.
Proof.
  intros Hm Hk. destruct (merge_ok _ _ _ _ _ _ Hm) as (u & d & h & Hk' & _ & Hcase).
  cbn zeta in Hcase. rewrite Hk' in Hk. injection Hk as <-.
  destruct Hcase as [(Hex & -> & _)|(_ & -> & _)].
  - by rewrite existsb_update_matching.
  - by rewrite existsb_app_new, matches_new_row, orb_true_r.
Qed.

Lemma existsb_update_any k k' p rows :
  existsb (matches k) (update_matching k' p rows) = existsb (matches k) rows.
Proof.
  induction rows as [|r rows IH]; [done|]. cbn [existsb update_matching map].
  fold (update_matching k' p rows). rewrite IH. f_equal.
  destruct (matches k' r); [|done]. unfold matches. by rewrite update_row_key.
Qed.

Lemma merge_grows rows0 rows ident time p rows' ident' :
  grown_from rows0 rows -> merge rows ident time p = Ok (rows', ident') ->
  grown_from rows0 rows'.
Proof.
  intros [Hkeep Hnew] Hm.
  destruct (merge_ok _ _ _ _ _ _ Hm) as (u & d & h & _ & _ & Hcase). cbn zeta in Hcase.
  destruct Hcase as [(_ & -> & _)|(_ & -> & _ & Hlu & Hld & Hlh)].
  - split; intros k; rewrite existsb_update_any; auto.
  - split; intros k; rewrite existsb_app_new.
    + intros Hk. by rewrite (Hkeep k Hk).
    + intros [Hk|Hk]%orb_true_iff; [by apply Hnew|]. right.
      apply matches_true in Hk. subst k. unfold fits. cbn [row_key new_row UserId DeviceId
        Timestamp RecordHash].
      by rewrite !andb_true_iff, !Nat.leb_le.
Qed.

Lemma grown_from_refl rows : grown_from rows rows.
Proof. split; auto. Qed.

Lemma loop_grows cid i metrics (st : @loop_state session) :
  grown_from (working (ls_session st)) (working (ls_session (loop cid i metrics st))).
Proof.
  apply (loop_rows_invariant (grown_from (working (ls_session st)))).
  - intros metric p rows ident time rows' ident' _ _. apply merge_grows.
  - apply grown_from_refl.
Qed.

(** *** A batch that can only update *)

Lemma rewrite_row_key metric (r : row) : row_key (rewrite_row metric r) = row_key r.
Proof.
  unfold rewrite_row. destruct (build_params metric) as [p|]; [|done].
  destruct (natural_key p) as [k|]; [|done].
  destruct (bind_cells (set_clause p)) as [[]|]; [|done].
  by destruct (matches k r).
Qed.

Lemma settle_key metrics (r : row) : row_key (settle metrics r) = row_key r.
Proof.
  revert r. induction metrics as [|m rest IH]; intros r; [done|].
  cbn [settle fold_left]. fold (settle rest (rewrite_row m r)).
  by rewrite IH, rewrite_row_key.
Qed.

Lemma existsb_rewrite k metric rows :
  existsb (matches k) (map (rewrite_row metric) rows) = existsb (matches k) rows.
Proof.
  induction rows as [|r rows IH]; [done|]. cbn [map existsb]. rewrite IH. f_equal.
  unfold matches. by rewrite rewrite_row_key.
Qed.

Lemma attempt_next_id s metric :
  next_id (fst (attempt s metric)) =
  match build_params metric with
  | Ok p =>
      match merge (working s) (next_id s) (now s) p with
      | Ok (_, ident') => ident'
      | Raise _ => next_id s
      end
  | Raise _ => next_id s
  end.
Proof.
  unfold attempt. destruct (build_params metric) as [p|e]; [|done].
  cbn [execute table_session]. unfold execute_merge.
  by destruct (merge (working s) (next_id s) (now s) p) as [[rows' ident']|e].
Qed.

Lemma process_next_id cid i (st : @loop_state session) metric :
  next_id (ls_session (process cid i st metric)) =
  next_id (fst (attempt (ls_session st) metric)).
Proof. unfold process. by destruct (attempt (ls_session st) metric) as [s' [e|]]. Qed.

(** Where every record that could insert finds its key, a record's
    statement rewrites the rows in place and draws no identity value. *)
Lemma attempt_settled s metric :
  settled_for (working s) [metric] ->
  working (fst (attempt s metric)) = map (rewrite_row metric) (working s) /\
  next_id (fst (attempt s metric)) = next_id s.
Proof.
  intros Hset. rewrite attempt_rows, attempt_next_id. unfold rewrite_row.
  destruct (build_params metric) as [p|e] eqn:Hp; [|by rewrite map_id].
  destruct (natural_key p) as [k|] eqn:Hk.
  - destruct (bind_cells (set_clause p)) as [[]|e] eqn:Hc.
    + destruct (existsb (matches k) (working s)) eqn:Hex.
      * by rewrite (merge_update _ _ _ _ _ Hk Hc Hex).
      * destruct (merge _ _ _ p) as [[rows' ident']|e] eqn:Hm.
        -- destruct (merge_ok _ _ _ _ _ _ Hm) as (u & d & h & Hk' & _ & Hcase).
           cbn zeta in Hcase. rewrite Hk in Hk'. injection Hk' as ->.
           destruct Hcase as [(Hex' & _)|(_ & _ & _ & Hlu & Hld & Hlh)]; [congruence|].
           assert (Hfits : fits (u, d, timestamp p, h) = true).
           { unfold fits. by rewrite !andb_true_iff, !Nat.leb_le. }
           rewrite (Hset metric p _ (or_introl eq_refl) Hp Hk Hc Hfits) in Hex.
           discriminate Hex.
        -- split; [|done]. symmetry. by apply update_matching_none.
    + destruct (merge _ _ _ p) as [[rows' ident']|e'] eqn:Hm; [|by rewrite map_id].
      destruct (merge_ok _ _ _ _ _ _ Hm) as (_ & _ & _ & _ & Hc' & _). congruence.
  - destruct (merge _ _ _ p) as [[rows' ident']|e'] eqn:Hm; [|by rewrite map_id].
    destruct (merge_ok _ _ _ _ _ _ Hm) as (u & d & h & Hk' & _). congruence.
Qed.

Lemma settled_for_cons rows metric rest :
  settled_for rows (metric :: rest) ->
  settled_for rows [metric] /\ settled_for (map (rewrite_row metric) rows) rest.
Proof.
  intros Hset. split.
  - intros m p k [<-|[]]. apply Hset. by left.
  - intros m p k Hin Hp Hk Hc Hfits. rewrite existsb_rewrite.
    eapply Hset; eauto. by right.
Qed.

Lemma loop_settled cid i metrics (st : @loop_state session) :
  settled_for (working (ls_session st)) metrics ->
  working (ls_session (loop cid i metrics st))
  = map (settle metrics) (working (ls_session st)) /\
  next_id (ls_session (loop cid i metrics st)) = next_id (ls_session st).
Proof.
  revert i st. induction metrics as [|metric rest IH]; intros i st Hset.
  - cbn [loop settle fold_left]. by rewrite map_id.
  - cbn [loop]. apply settled_for_cons in Hset as [Hhead Hrest].
    destruct (attempt_settled _ _ Hhead) as [Hrows Hid].
    destruct (IH (S i) (process cid i st metric)) as [-> ->].
    + by rewrite process_rows, Hrows.
    + rewrite process_rows, process_next_id, Hrows, Hid, map_map. done.
Qed.

(** After a batch every record of it that could insert has its key in the
    rows. *)
Lemma loop_settles cid i metrics (st : @loop_state session) :
  settled_for (working (ls_session (loop cid i metrics st))) metrics.
Proof.
  revert i st. induction metrics as [|metric rest IH]; intros i st; [by intros m p k []|].
  intros m p k [<-|Hin] Hp Hk Hc Hfits; cbn [loop].
  - apply (proj1 (loop_grows cid (S i) rest (process cid i st metric))).
    rewrite process_rows, attempt_rows, Hp.
    destruct (merge _ _ _ p) as [[rows' ident']|e] eqn:Hm.
    + by eapply merge_key_present.
    + destruct (merge_raise_no_match _ _ _ _ _ _ Hm Hk Hc). congruence.
  - by eapply IH.
Qed.

(** *** Rows a batch has already written *)

Lemma assigned_same_columns p (q : HealthMetric datetime) (column : string) :
  assigned p !! column = None -> assigned q !! column = None.
Proof. unfold assigned. rewrite <- !not_elem_of_list_to_map. done. Qed.

Lemma assigned_absorbs p (q : HealthMetric datetime) (c : gmap string pyval) :
  assigned p ∪ (assigned q ∪ c) = assigned p ∪ c.
Proof.
  apply map_eq. intros column. rewrite !lookup_union.
  destruct (assigned p !! column) as [v|] eqn:Hp.
  - by destruct (assigned q !! column), (c !! column).
  - rewrite (assigned_same_columns p q column Hp). by destruct (c !! column).
Qed.

Lemma update_row_absorbs p (q : HealthMetric datetime) (r : row) : update_row p (update_row q r) = update_row p r.
Proof.
  unfold update_row. cbn [cells id UserId DeviceId Timestamp RecordHash CreatedAt].
  by rewrite assigned_absorbs.
Qed.

Lemma update_rewrite p metric (r : row) :
  update_row p (rewrite_row metric r) = update_row p r.
Proof.
  unfold rewrite_row. destruct (build_params metric) as [q|]; [|done].
  destruct (natural_key q) as [k|]; [|done].
  destruct (bind_cells (set_clause q)) as [[]|]; [|done].
  destruct (matches k r); [apply update_row_absorbs|done].
Qed.

Lemma update_settle p metrics (r : row) :
  update_row p (settle metrics r) = update_row p r.
Proof.
  revert r. induction metrics as [|m rest IH]; intros r; [done|].
  cbn [settle fold_left]. fold (settle rest (rewrite_row m r)).
  by rewrite IH, update_rewrite.
Qed.

Lemma settle_snoc metrics metric (r : row) :
  settle (metrics ++ [metric]) r = rewrite_row metric (settle metrics r).
Proof. unfold settle. by rewrite fold_left_app. Qed.

Lemma no_match_in k rows (r : row) :
  existsb (matches k) rows = false -> In r rows -> matches k r = false.
Proof.
  intros Hex Hin. destruct (matches k r) eqn:Hm; [|done].
  assert (existsb (matches k) rows = true); [|congruence].
  apply existsb_exists. eauto.
Qed.

(** The rows a batch leaves are rows its statements, run again as updates,
    do not change. *)
Lemma loop_fixed cid i metrics (st : @loop_state session) (r : row) :
  In r (working (ls_session (loop cid i metrics st))) -> settle metrics r = r.
Proof.
  revert i st r. induction metrics as [|x b IH] using rev_ind; intros i st r Hin; [done|].
  rewrite loop_app in Hin. cbn [loop] in Hin.
  rewrite process_rows, attempt_rows in Hin.
  rewrite settle_snoc. unfold rewrite_row.
  destruct (build_params x) as [p|e] eqn:Hp; [|by eapply IH].
  destruct (merge _ _ _ p) as [[rows' ident']|e] eqn:Hm.
  - destruct (merge_ok _ _ _ _ _ _ Hm) as (u & d & h & Hk & Hc & Hcase).
    cbn zeta in Hcase. rewrite Hk, Hc. unfold matches at 1. rewrite settle_key.
    fold (matches (u, d, timestamp p, h) r).
    destruct Hcase as [(_ & -> & _)|(Hex & -> & _)].
    + unfold update_matching in Hin. apply in_map_iff in Hin as (r0 & <- & Hin).
      destruct (matches (u, d, timestamp p, h) r0) eqn:Hr0.
      * replace (matches (u, d, timestamp p, h) (update_row p r0)) with true
          by (unfold matches in *; by rewrite update_row_key).
        by rewrite update_settle, update_row_twice.
      * rewrite Hr0. by eapply IH.
    + apply in_app_or in Hin as [Hin|[<-|[]]].
      * rewrite (no_match_in _ _ _ Hex Hin). by eapply IH.
      * rewrite matches_new_row. by rewrite update_settle, update_row_new.
  - assert (Hr : settle b r = r) by (by eapply IH).
    destruct (natural_key p) as [k|] eqn:Hk; [|done].
    destruct (bind_cells (set_clause p)) as [[]|e'] eqn:Hc; [|done].
    destruct (merge_raise_no_match _ _ _ _ _ _ Hm Hk Hc) as [Hex _].
    rewrite Hr. by rewrite (no_match_in _ _ _ Hex Hin).
Qed.

(** *** The same batch against two tables *)

Lemma attempt_outcome s metric :
  snd (attempt s metric) =
  match build_params metric with
  | Ok p =>
      match merge (working s) (next_id s) (now s) p with
      | Ok _ => None
      | Raise e => Some e
      end
  | Raise e => Some e
  end.
Proof.
  unfold attempt. destruct (build_params metric) as [p|e]; [|done].
  cbn [execute table_session]. unfold execute_merge.
  by destruct (merge (working s) (next_id s) (now s) p) as [[rows' ident']|e].
Qed.

Lemma merge_raise_same rows ident time rows2 ident2 time2 p e e2 :
  merge rows ident time p = Raise e -> merge rows2 ident2 time2 p = Raise e2 -> e = e2.
Proof.
  unfold merge. intros Hm Hm2.
  destruct (text_param "UserId" (user_id p)) as [u|e1]; cbn [Py.bind] in *; [|congruence].
  destruct (text_param "DeviceId" (device_id p)) as [d|e1]; cbn [Py.bind] in *; [|congruence].
  destruct (text_param "RecordHash" (record_hash p)) as [h|e1];
    cbn [Py.bind] in *; [|congruence].
  destruct (bind_cells (set_clause p)) as [[]|e1]; cbn [Py.bind] in *; [|congruence].
  assert (Hchain : forall (m : option key) (rs : list row) (i t : Z) (x : exn),
            match m with
            | Some k => Ok (update_matching k p rs, i)
            | None =>
                Py.bind (required_text "UserId" UserId_max u) (fun u0 =>
                Py.bind (required_text "DeviceId" DeviceId_max d) (fun d0 =>
                Py.bind (required_text "RecordHash" RecordHash_max h) (fun h0 =>
                Ok (rs ++ [new_row i u0 d0 h0 t p], (i + 1)%Z))))
            end = Raise x ->
            m = None /\
            ((exists y, required_text "UserId" UserId_max u = Raise y /\ x = y) \/
             (exists y, required_text "DeviceId" DeviceId_max d = Raise y /\ x = y
                        /\ exists u0, required_text "UserId" UserId_max u = Ok u0) \/
             (exists y, required_text "RecordHash" RecordHash_max h = Raise y /\ x = y
                        /\ (exists u0, required_text "UserId" UserId_max u = Ok u0)
                        /\ exists d0, required_text "DeviceId" DeviceId_max d = Ok d0))).
  { intros m rs i t x. destruct m; [discriminate|]. intros Hx. split; [done|].
    destruct (required_text "UserId" UserId_max u); cbn [Py.bind] in Hx;
      [|left; injection Hx as <-; eauto].
    destruct (required_text "DeviceId" DeviceId_max d); cbn [Py.bind] in Hx;
      [|right; left; injection Hx as <-; eauto].
    destruct (required_text "RecordHash" RecordHash_max h); cbn [Py.bind] in Hx;
      [discriminate|]. right. right. injection Hx as <-. eauto 10. }
  apply Hchain in Hm as [_ Hm]. apply Hchain in Hm2 as [_ Hm2].
  destruct Hm as [(y & Hy & ->)|[(y & Hy & -> & u0 & Hu0)|(y & Hy & -> & (u0 & Hu0) & d0 & Hd0)]],
    Hm2 as [(z & Hz & ->)|[(z & Hz & -> & u1 & Hu1)|(z & Hz & -> & (u1 & Hu1) & d1 & Hd1)]];
    congruence.
Qed.

Lemma merge_keys rows ident time p rows' ident' :
  merge rows ident time p = Ok (rows', ident') ->
  exists k, natural_key p = Some k /\ bind_cells (set_clause p) = Ok tt /\
    (existsb (matches k) rows = true \/ fits k = true) /\
    forall k', existsb (matches k') rows' = existsb (matches k') rows || bool_decide (k' = k).
Proof.
  intros Hm. destruct (merge_ok _ _ _ _ _ _ Hm) as (u & d & h & Hk & Hc & Hcase).
  cbn zeta in Hcase. exists (u, d, timestamp p, h). split; [done|]. split; [done|].
  destruct Hcase as [(Hex & -> & _)|(Hex & -> & _ & Hlu & Hld & Hlh)].
  - split; [by left|]. intros k'. rewrite existsb_update_any.
    destruct (bool_decide_reflect (k' = (u, d, timestamp p, h))) as [->|_].
    + by rewrite Hex.
    + by rewrite orb_false_r.
  - split.
    + right. unfold fits. by rewrite !andb_true_iff, !Nat.leb_le.
    + intros k'. rewrite existsb_app_new. f_equal. unfold matches. cbn [row_key new_row
        UserId DeviceId Timestamp RecordHash].
      apply bool_decide_ext. split; intros Heq; by symmetry.
Qed.

(** Against a table grown from another, a record's statement succeeds or
    raises as against the other, with the same exception. *)
Lemma attempt_sim s1 s2 metric :
  grown_from (working s1) (working s2) ->
  snd (attempt s1 metric) = snd (attempt s2 metric) /\
  grown_from (working (fst (attempt s1 metric))) (working (fst (attempt s2 metric))).
Proof.
  intros [Hkeep Hnew]. rewrite !attempt_outcome, !attempt_rows.
  destruct (build_params metric) as [p|e]; [|by split].
  destruct (merge (working s1) _ _ p) as [[rows1 ident1]|e1] eqn:Hm1,
           (merge (working s2) _ _ p) as [[rows2 ident2]|e2] eqn:Hm2.
  - split; [done|].
    destruct (merge_keys _ _ _ _ _ _ Hm1) as (k & Hk & _ & _ & Hkeys1).
    destruct (merge_keys _ _ _ _ _ _ Hm2) as (k2 & Hk2 & _ & _ & Hkeys2).
    assert (k2 = k) as -> by congruence.
    split; intros k'; rewrite Hkeys1, Hkeys2, !orb_true_iff.
    + intros [H|H]; [left; by apply Hkeep|by right].
    + intros [H|H]; [|left; by right]. destruct (Hnew k' H); [left; by left|by right].
  - exfalso.
    destruct (merge_keys _ _ _ _ _ _ Hm1) as (k & Hk & Hc & Hin & _).
    destruct (merge_raise_no_match _ _ _ _ _ _ Hm2 Hk Hc) as [Hex Hfits].
    destruct Hin as [Hin|Hin]; [|congruence]. apply Hkeep in Hin. congruence.
  - exfalso.
    destruct (merge_keys _ _ _ _ _ _ Hm2) as (k & Hk & Hc & Hin & _).
    destruct (merge_raise_no_match _ _ _ _ _ _ Hm1 Hk Hc) as [Hex Hfits].
    destruct Hin as [Hin|Hin]; [|congruence].
    destruct (Hnew k Hin); congruence.
  - split; [|by split]. f_equal. by eapply merge_raise_same.
Qed.

Lemma loop_sim cid1 cid2 i metrics (st1 st2 : @loop_state session) :
  grown_from (working (ls_session st1)) (working (ls_session st2)) ->
  inserted_count st1 = inserted_count st2 -> failed_count st1 = failed_count st2 ->
  ls_errors st1 = ls_errors st2 ->
  let fin1 := loop cid1 i metrics st1 in
  let fin2 := loop cid2 i metrics st2 in
  inserted_count fin1 = inserted_count fin2 /\ failed_count fin1 = failed_count fin2 /\
  ls_errors fin1 = ls_errors fin2.
Proof.
  revert i st1 st2. induction metrics as [|metric rest IH]; intros i st1 st2 Hg Hi Hf He;
    [done|].
  cbn [loop]. cbn zeta. destruct (attempt_sim _ _ metric Hg) as [Hout Hg'].
  apply IH; unfold process;
    destruct (attempt (ls_session st1) metric) as [s1' [e1|]],
             (attempt (ls_session st2) metric) as [s2' [e2|]];
    cbn [fst snd] in *; try discriminate Hout; cbn; try congruence; done.
Qed.

Lemma submit_returned db metrics cid :
  let fin := loop cid 0 metrics (start (create_session db None)) in
  snd (submit db None metrics cid) =
  Ok {| success := (failed_count fin =? 0)%Z; inserted := inserted_count fin;
        failed := failed_count fin; errors := firstn 5 (ls_errors fin) |} /\
  identity (fst (submit db None metrics cid)) = next_id (ls_session fin).
Proof.
  cbn zeta. unfold submit. cbn [fst snd]. unfold insert_or_update_metrics.
  destruct (loop_durable cid 0 metrics (start (create_session db None))) as [_ Hf].
  cbn [start ls_session create_session commit_fault] in Hf.
  cbn [commit table_session]. unfold commit_session. rewrite Hf. by cbn.
Qed.

(** Submitting the same batch a second time changes nothing: the table is
    the one the first submission left, no identity value is drawn, and the
    second call returns what the first returned, message for message. *)
Theorem resubmission_changes_nothing db metrics cid1 cid2 :
  let first := submit db None metrics cid1 in
  let second := submit (fst first) None metrics cid2 in
  table (fst second) = table (fst first) /\
  identity (fst second) = identity (fst first) /\
  snd second = snd first.
Proof.
  intros first second.
  pose proof (submit_table db None metrics cid1) as Ht1.
  pose proof (submit_table (fst first) None metrics cid2) as Ht2.
  destruct (submit_returned db metrics cid1) as [Hr1 Hi1].
  destruct (submit_returned (fst first) metrics cid2) as [Hr2 Hi2].
  fold first in Ht1, Hr1, Hi1. fold second in Ht2, Hr2, Hi2.
  set (st1 := start (create_session db None)) in *.
  set (st2 := start (create_session (fst first) None)) in *.
  assert (Hw2 : working (ls_session st2) = working (ls_session (loop cid1 0 metrics st1))).
  { subst st2. cbn [start ls_session create_session working]. exact Ht1. }
  destruct (loop_settled cid2 0 metrics st2) as [Hrows Hid].
  { rewrite Hw2. apply loop_settles. }
  split; [|split].
  - rewrite Ht2, Hrows, Hw2, Ht1.
    erewrite map_ext_in; [apply map_id|]. intros r Hin. by eapply loop_fixed.
  - rewrite Hi2, Hid. subst st2. cbn [start ls_session create_session next_id]. done.
  - rewrite Hr1, Hr2.
    destruct (loop_sim cid1 cid2 0 metrics st1 st2) as (-> & -> & ->); try done.
    rewrite Hw2. apply loop_grows.
Qed.

(** *** One record after another *)

Lemma submit_one db metric cid :
  snd (submit db None [metric] cid) = Ok persisted ->
  exists p rows' ident',
    build_params metric = Ok p /\
    merge (table db) (identity db) (clock db) p = Ok (rows', ident') /\
    fst (submit db None [metric] cid)
    = {| table := rows'; identity := ident'; clock := (clock db + 1)%Z |}.
Proof.
  unfold submit. cbn [fst snd]. intros Hr.
  pose proof (single_submission db metric cid) as H1. cbn zeta in H1.
  destruct (build_params metric) as [p|e] eqn:Hp;
    [|destruct H1 as (r & Hr' & H0); rewrite Hr' in Hr; injection Hr as ->;
      discriminate H0].
  destruct (merge (table db) (identity db) (clock db) p) as [[rows' ident']|e] eqn:Hm;
    [|destruct H1 as (r & Hr' & H0); rewrite Hr' in Hr; injection Hr as ->;
      discriminate H0].
  destruct H1 as [Hdb _]. exists p, rows', ident'. by repeat split.
Qed.

Lemma merge_stored rows ident time p rows' ident' k :
  keys_unique rows -> merge rows ident time p = Ok (rows', ident') ->
  natural_key p = Some k ->
  exists stored,
    rows_with k rows' = [stored] /\ row_key stored = k /\
    (forall column v, In (column, v) (set_clause p) -> cells stored !! column = Some v) /\
    (forall old, rows_with k rows = [old] -> skeleton stored = skeleton old) /\
    (rows_with k rows = [] -> id stored = ident /\ CreatedAt stored = time).
Proof.
  intros Huniq Hm Hk.
  destruct (merge_ok _ _ _ _ _ _ Hm) as (u & d & h & Hk' & _ & Hcase). cbn zeta in Hcase.
  rewrite Hk in Hk'. injection Hk' as ->.
  destruct Hcase as [(Hex & -> & _)|(Hex & -> & _)].
  - destruct (rows_with_unique _ _ Huniq Hex) as (old & Hold & Hkey).
    exists (update_row p old). rewrite rows_with_update, Hold.
    split; [done|]. split; [by rewrite update_row_key|]. split; [|split].
    + intros column v Hin. unfold update_row. cbn [cells].
      apply lookup_union_Some_l. by apply assigned_lookup.
    + by intros old' [= <-].
    + discriminate.
  - exists (new_row ident u d h time p).
    unfold rows_with. rewrite filter_app. fold (rows_with (u, d, timestamp p, h) rows).
    rewrite (rows_with_none _ _ Hex). rewrite filter_cons, filter_nil.
    destruct (decide (row_key (new_row ident u d h time p) = (u, d, timestamp p, h)))
      as [_|Hne]; [|by destruct Hne].
    split; [done|]. split; [done|]. split; [|split].
    + intros column v Hin. unfold new_row. cbn [cells]. by apply assigned_lookup.
    + discriminate.
    + done.
Qed.

(** The later payload wins: when a second record with the natural key of
    a stored one is written, the row keeps its id, key and [CreatedAt],
    and its mutable columns hold the second record's values. *)
Theorem later_payload_wins db metric metric' cid cid' k :
  keys_unique (table db) ->
  metric_key metric = Some k -> metric_key metric' = Some k ->
  let first := submit db None [metric] cid in
  let second := submit (fst first) None [metric'] cid' in
  snd first = Ok persisted -> snd second = Ok persisted ->
  exists p' before after,
    build_params metric' = Ok p' /\
    rows_with k (table (fst first)) = [before] /\
    rows_with k (table (fst second)) = [after] /\
    skeleton after = skeleton before /\
    forall column v, In (column, v) (set_clause p') -> cells after !! column = Some v.
Proof.
  intros Huniq Hk Hk' first second Hfirst Hsecond.
  destruct (submit_one _ _ _ Hfirst) as (p & rows1 & ident1 & Hp & Hm1 & Hdb1).
  fold first in Hdb1.
  destruct (submit_one _ _ _ Hsecond) as (p' & rows2 & ident2 & Hp' & Hm2 & Hdb2).
  fold second in Hdb2. rewrite Hdb1 in Hm2. cbn [table identity clock] in Hm2.
  unfold metric_key in Hk, Hk'. rewrite Hp in Hk. rewrite Hp' in Hk'.
  destruct (merge_stored _ _ _ _ _ _ _ Huniq Hm1 Hk) as (before & Hbefore & _).
  destruct (merge_stored _ _ _ _ _ _ _ (merge_keeps_keys_unique _ _ _ _ _ _ Huniq Hm1) Hm2 Hk')
    as (after & Hafter & _ & Hcells & Hold & _).
  exists p', before, after. rewrite Hdb1, Hdb2. cbn [table].
  split; [done|]. split; [done|]. split; [done|]. split; [by apply Hold|exact Hcells].
Qed.

(** Versions are kept apart: two records that differ in their recordHash
    only are stored in two rows, and writing the second leaves the row of
    the first as it was. *)
Theorem record_hash_separates_versions db metric1 metric2 cid1 cid2 u d (t : datetime) h1 h2 :
  keys_unique (table db) ->
  metric_key metric1 = Some (u, d, t, h1) -> metric_key metric2 = Some (u, d, t, h2) ->
  h1 <> h2 ->
  let first := submit db None [metric1] cid1 in
  let second := submit (fst first) None [metric2] cid2 in
  snd first = Ok persisted -> snd second = Ok persisted ->
  exists row1 row2,
    rows_with (u, d, t, h1) (table (fst first)) = [row1] /\
    rows_with (u, d, t, h1) (table (fst second)) = [row1] /\
    rows_with (u, d, t, h2) (table (fst second)) = [row2] /\
    RecordHash row1 = h1 /\ RecordHash row2 = h2.
Proof.
  intros Huniq Hk1 Hk2 Hne first second Hfirst Hsecond.
  destruct (submit_one _ _ _ Hfirst) as (p1 & rows1 & ident1 & Hp1 & Hm1 & Hdb1).
  fold first in Hdb1.
  destruct (submit_one _ _ _ Hsecond) as (p2 & rows2 & ident2 & Hp2 & Hm2 & Hdb2).
  fold second in Hdb2. rewrite Hdb1 in Hm2. cbn [table identity clock] in Hm2.
  unfold metric_key in Hk1, Hk2. rewrite Hp1 in Hk1. rewrite Hp2 in Hk2.
  destruct (merge_stored _ _ _ _ _ _ _ Huniq Hm1 Hk1) as (row1 & Hrow1 & Hkey1 & _).
  destruct (merge_stored _ _ _ _ _ _ _ (merge_keeps_keys_unique _ _ _ _ _ _ Huniq Hm1) Hm2 Hk2)
    as (row2 & Hrow2 & Hkey2 & _).
  exists row1, row2. rewrite Hdb1, Hdb2. cbn [table].
  split; [done|]. split; [|split; [done|]].
  - rewrite <- Hrow1. eapply merge_frame; [exact Hm2|]. rewrite Hk2. congruence.
  - unfold row_key in Hkey1, Hkey2. split; congruence.
Qed.

End Table.

End StoreMore.

(** ** The HTTP entry point, further *)

Module MainMore.
Import Py Models Runtime Validators Engine Main Spec PyProps BatchProps EngineProps MainProps.

Section WithSession.
Context `{DT : DatetimeLib} {Sess : Type} `{SO : !SessionOps datetime Sess}.

Implicit Types (env : environment Sess) (request : request) (d : gmap string pyval).

Lemma store_metrics_status env metrics cid log :
  let code := status (sent (store_metrics env metrics cid log)) in
  code = 200%Z \/ code = 207%Z \/ code = 500%Z.
Proof.
  cbn zeta. unfold store_metrics, create_session.
  destruct (new_session env) as [session|e]; [|cbn; auto].
  destruct (returned _) as [r|e]; [|cbn; auto].
  rewrite respond_status. unfold status_of.
  destruct (success r); [auto|]. destruct (0 <? inserted r)%Z; auto.
Qed.

(** Every response carries one of five status codes, and 204 is the answer
    to OPTIONS and to nothing else. *)
Theorem status_is_one_of_five env request :
  let code := status (sent (uploadHealthMetrics env request)) in
  (code = 200 \/ code = 204 \/ code = 207 \/ code = 400 \/ code = 500)%Z /\
  (code = 204%Z <-> method request = "OPTIONS").
Proof.
  cbn zeta. unfold uploadHealthMetrics.
  destruct (String.eqb_spec (method request) "OPTIONS") as [Heq|Hne].
  { cbn. split; [auto|done]. }
  assert (Hno : forall code : Z,
            (code = 200 \/ code = 207 \/ code = 400 \/ code = 500)%Z ->
            (code = 200 \/ code = 204 \/ code = 207 \/ code = 400 \/ code = 500)%Z /\
            (code = 204%Z <-> method request = "OPTIONS")).
  { intros code Hcode. split; [tauto|]. split; [lia|done]. }
  apply Hno.
  destruct (get_json request) as [data|e]; [|cbn; auto].
  destruct (truthy data); cbn [negb]; [|cbn; auto].
  destruct data; try (cbn; by auto).
  cbv zeta. destruct (len (metrics_of d)) as [n|e]; [|cbn; auto].
  destruct (validate_batch (metrics_of d)) as [[is_valid errs]|e]; [|cbn; auto].
  destruct is_valid; cbn [negb]; [|cbn; auto].
  pose proof (store_metrics_status env (metrics_of d) (correlation_of env d)
                [LogEntry INFO (Some (correlation_of env d))
                   ("Received " +:+ str_int n +:+ " metrics from " +:+ remote_addr request)])
    as Hs.
  cbn zeta in Hs. tauto.
Qed.

(** The database is reached only for a batch that passed validation: if a
    run leaves a session behind, the request was not OPTIONS, its body was
    an object, [validate_batch] accepted its metrics, and the session is
    the one the engine closed. *)
Theorem session_only_after_validation env request s :
  session_after (uploadHealthMetrics env request) = Some s ->
  exists d violations session,
    method request <> "OPTIONS" /\
    get_json request = Ok (VDict d) /\
    validate_batch (metrics_of d) = Ok (true, violations) /\
    new_session env = Ok session /\
    s = final_session
          (insert_or_update_metrics session (items (metrics_of d)) (correlation_of env d)).
Proof.
  unfold uploadHealthMetrics.
  destruct (String.eqb_spec (method request) "OPTIONS") as [Heq|Hne]; [discriminate|].
  destruct (get_json request) as [data|e]; [|discriminate].
  destruct (truthy data); cbn [negb]; [|discriminate].
  destruct data; try discriminate.
  cbv zeta. destruct (len (metrics_of d)) as [n|e]; [|discriminate].
  destruct (validate_batch (metrics_of d)) as [[is_valid errs]|e] eqn:Hv; [|discriminate].
  destruct is_valid; cbn [negb]; [|discriminate].
  unfold store_metrics, create_session.
  destruct (new_session env) as [session|e] eqn:Hs; [|discriminate].
  intros Hafter. exists d, errs, session.
  repeat split; try done.
  destruct (returned _); cbn in Hafter; by injection Hafter as <-.
Qed.

(** The body for a result of the engine: the two counts add up to the
    number of metrics sent, and "errors" is there exactly when a record
    failed, with the engine's messages. *)
Theorem result_body env request d violations session r :
  method request <> "OPTIONS" -> get_json request = Ok (VDict d) ->
  truthy (VDict d) = true ->
  validate_batch (metrics_of d) = Ok (true, violations) ->
  new_session env = Ok session ->
  returned (insert_or_update_metrics session (items (metrics_of d)) (correlation_of env d))
    = Ok r ->
  resp_body (sent (uploadHealthMetrics env request)) =
    Json ([ ("success", VBool (success r));
            ("syncedCount", VInt (inserted r));
            ("failedCount", VInt (failed r));
            ("durationMs", VInt (duration_ms env));
            ("correlationId", correlation_of env d) ]
          ++ (if (failed r =? 0)%Z then [] else [("errors", strings (errors r))])) /\
  (inserted r + failed r)%Z = Z.of_nat (length (items (metrics_of d))).
Proof.
  intros Hmethod Hjson Htruthy Hvalid Hsession Hr.
  destruct (accepted_is_list (metrics_of d)) as (l & Hl); [by exists violations|].
  destruct (upload_validates env request d (Z.of_nat (length l)) Hmethod Hjson Htruthy)
    as (log & Hrun); [by rewrite Hl|].
  rewrite Hvalid in Hrun. cbn [negb] in Hrun.
  rewrite Hrun, (store_metrics_sent _ _ _ _ session Hsession), Hr.
  pose proof (returned_result _ _ _ _ Hr) as Hres. cbn zeta in Hres.
  pose proof (loop_counts (correlation_of env d) 0 (items (metrics_of d)) (start session))
    as (Hsum & _ & Hf & He & _).
  cbn [start inserted_count failed_count ls_errors length] in Hsum, Hf, He.
  split; [|subst r; cbn [inserted failed]; lia].
  unfold respond. cbn [sent reply resp_body]. f_equal.
  assert (Htr : truthy (strings (errors r)) = negb (failed r =? 0)%Z).
  { subst r. cbn [errors failed truthy strings]. rewrite length_map, length_firstn.
    destruct (Z.eqb_spec (failed_count
                (loop (correlation_of env d) 0 (items (metrics_of d)) (start session))) 0)
      as [H0|H0]; cbn [negb].
    - replace (length (ls_errors _)) with 0 by lia. done.
    - destruct (length (ls_errors
                  (loop (correlation_of env d) 0 (items (metrics_of d)) (start session))))
        eqn:Hlen; [lia|]. by destruct n. }
  rewrite Htr. by destruct (failed r =? 0)%Z; cbn [negb]; rewrite ?app_nil_r.
Qed.

(** Requests whose metrics are no batch. A missing "metrics" is answered
    400 as an empty array; a string or an object is answered 400, "metrics
    must be an array"; null, a boolean or a number is answered 500, because
    [len(metrics)] raises in the log call that precedes the validation. *)
Theorem metrics_that_are_no_list env request d :
  method request <> "OPTIONS" -> get_json request = Ok (VDict d) ->
  truthy (VDict d) = true ->
  let answer := sent (uploadHealthMetrics env request) in
  let invalid details :=
    {| resp_body := Json [ ("error", VStr "Validation failed");
                           ("details", strings details) ];
       status := 400; headers := [] |} in
  (d !! "metrics" = None -> answer = invalid ["metrics array cannot be empty"]) /\
  (forall v, d !! "metrics" = Some v -> is_record v = true \/ (exists t, v = VStr t) ->
     answer = invalid ["metrics must be an array"]) /\
  (forall v, d !! "metrics" = Some v -> is_none v || is_numeric v = true ->
     answer = {| resp_body :=
                   Json [ ("error", VStr "Internal server error");
                          ("message", VStr ("object of type '" +:+ type_name v
                                              +:+ "' has no len()"));
                          ("correlationId", correlation_of env d) ];
                 status := 500; headers := [] |}).
Proof.
  intros Hmethod Hjson Htruthy answer invalid. subst answer invalid.
  unfold uploadHealthMetrics.
  destruct (String.eqb_spec (method request) "OPTIONS") as [Heq|_]; [done|].
  rewrite Hjson, Htruthy. cbn [negb]. cbv zeta. unfold metrics_of, dict_get_default.
  split; [|split].
  - intros ->. reflexivity.
  - intros v -> [Hv|(t & ->)]; [|reflexivity]. destruct v; try discriminate Hv. reflexivity.
  - intros v -> Hv. destruct v; try discriminate Hv; reflexivity.
Qed.

End WithSession.

End MainMore.

(** ** config.py *)

Module ConfigProps.
Import Py Runtime Config PyProps.

Section WithEngine.
Context {Engine : Type}.

Implicit Types (c : cloud Engine) (w : process Engine).

Lemma get_secret_spec c secret_id w :
  let name := secret_name default_project secret_id in
  let r := get_secret c secret_id default_project w in
  fst r = access_secret_version c name /\
  lookups (snd r) = lookups w ++ [name] /\
  created (snd r) = created w /\
  _db_engine (snd r) = _db_engine w.
Proof.
  cbn zeta. unfold get_secret. by destruct (access_secret_version c _).
Qed.

Lemma get_database_url_spec c w :
  let r := get_database_url c w in
  (forall url, fst r = Ok url ->
     lookups (snd r) = lookups w ++ url_secrets /\
     exists server database user password,
       map (access_secret_version c) url_secrets
       = [Ok server; Ok database; Ok user; Ok password] /\
       url = connection_string server database user password) /\
  (forall e, fst r = Raise e ->
     exists n name,
       url_secrets !! n = Some name /\
       access_secret_version c name = Raise e /\
       lookups (snd r) = lookups w ++ take (S n) url_secrets /\
       forall m name', m < n -> url_secrets !! m = Some name' ->
                       returns (access_secret_version c name')).
Proof.
  cbn zeta. unfold get_database_url, get_secret, url_secrets. cbn [map].
  destruct (access_secret_version c (secret_name default_project "azure-sql-server"))
    as [server|e0] eqn:H0.
  2: { cbn. split; [discriminate|]. intros e [= <-]. exists 0; eexists.
       split; [reflexivity|]. split; [exact H0|]. split; [done|]. intros; lia. }
  destruct (access_secret_version c (secret_name default_project "azure-sql-database"))
    as [database|e1] eqn:H1.
  2: { cbn. split; [discriminate|]. intros e [= <-]. exists 1; eexists.
       split; [reflexivity|]. split; [exact H1|]. split; [by rewrite <- app_assoc|].
       intros m name' Hm Hname. destruct m as [|m]; [|lia].
       injection Hname as <-. by eexists. }
  destruct (access_secret_version c (secret_name default_project "azure-sql-user"))
    as [user|e2] eqn:H2.
  2: { cbn. split; [discriminate|]. intros e [= <-]. exists 2; eexists.
       split; [reflexivity|]. split; [exact H2|]. split; [by rewrite <- !app_assoc|].
       intros m name' Hm Hname. destruct m as [|[|m]]; [| |lia];
         injection Hname as <-; by eexists. }
  destruct (access_secret_version c (secret_name default_project "azure-sql-password"))
    as [password|e3] eqn:H3.
  2: { cbn. split; [discriminate|]. intros e [= <-]. exists 3; eexists.
       split; [reflexivity|]. split; [exact H3|]. split; [by rewrite <- !app_assoc|].
       intros m name' Hm Hname. destruct m as [|[|[|m]]]; [| | |lia];
         injection Hname as <-; by eexists. }
  cbn. split; [|discriminate]. intros url [= <-].
  split; [by rewrite <- !app_assoc|]. by exists server, database, user, password.
Qed.

(** [get_database_url] looks the four secrets up in the order server,
    database, user, password. When all are there it returns the URL made
    of them; when one fails it raises that secret's exception and looks up
    none of the later ones. *)
Theorem database_url_lookups c w :
  let r := get_database_url c w in
  (forall url, fst r = Ok url ->
     lookups (snd r) = lookups w ++ url_secrets /\
     exists server database user password,
       map (access_secret_version c) url_secrets
       = [Ok server; Ok database; Ok user; Ok password] /\
       url = connection_string server database user password) /\
  (forall e, fst r = Raise e ->
     exists n name,
       url_secrets !! n = Some name /\
       access_secret_version c name = Raise e /\
       lookups (snd r) = lookups w ++ take (S n) url_secrets /\
       forall m name', m < n -> url_secrets !! m = Some name' ->
                       returns (access_secret_version c name')).
Proof. exact (get_database_url_spec c w). Qed.

Lemma get_database_url_cache c w :
  _db_engine (snd (get_database_url c w)) = _db_engine w.
Proof.
  unfold get_database_url, secrets_failed, get_secret.
  repeat match goal with
  | |- context [access_secret_version c ?n] => destruct (access_secret_version c n)
  end; reflexivity.
Qed.

Lemma get_database_url_created c w :
  created (snd (get_database_url c w)) = created w.
Proof.
  unfold get_database_url, secrets_failed, get_secret.
  repeat match goal with
  | |- context [access_secret_version c ?n] => destruct (access_secret_version c n)
  end; reflexivity.
Qed.

(** [create_db_engine] does not touch the cache; when it raises, the
    exception is a secret's, [create_engine]'s or a registration's. *)
Lemma create_db_engine_cache c w :
  _db_engine (snd (create_db_engine c w)) = _db_engine w.
Proof.
  unfold create_db_engine. pose proof (get_database_url_cache c w) as Hkeep.
  destruct (get_database_url c w) as [[url|e] w0]; cbn [snd] in *; [|done].
  by destruct (create_engine c url) as [engine|e];
    [destruct (listens_for c engine "connect");
     [|destruct (listens_for c engine "pool_connect")]|].
Qed.

Lemma create_db_engine_raise c w e :
  fst (create_db_engine c w) = Raise e ->
  (exists name, In name url_secrets /\ access_secret_version c name = Raise e) \/
  (exists url, fst (get_database_url c w) = Ok url /\ create_engine c url = Raise e) \/
  (exists url engine identifier,
     fst (get_database_url c w) = Ok url /\ create_engine c url = Ok engine /\
     In identifier listener_events /\ listens_for c engine identifier = Some e).
Proof.
  unfold create_db_engine.
  pose proof (get_database_url_spec c w) as [_ Hraise]. cbn zeta in Hraise.
  destruct (get_database_url c w) as [[url|e0] w0]; cbn [fst snd] in *.
  - destruct (create_engine c url) as [engine|e1] eqn:Hmade.
    + destruct (listens_for c engine "connect") as [e2|] eqn:Hconnect.
      * intros [= <-]. right. right. exists url, engine, "connect".
        repeat split; [done|by left|done].
      * destruct (listens_for c engine "pool_connect") as [e3|] eqn:Hpool; [|discriminate].
        intros [= <-]. right. right. exists url, engine, "pool_connect".
        repeat split; [done|by right; left|done].
    + intros [= <-]. right. left. by exists url.
  - intros [= <-]. left. destruct (Hraise e0 eq_refl) as (n & name & Hname & Hacc & _).
    exists name. split; [|done]. apply (proj1 (list_elem_of_In url_secrets name)).
    by eapply list_elem_of_lookup_2.
Qed.

(** If the registration of a listener for "pool_connect" raises whatever
    the engine (SQLAlchemy knows no event of that name), [get_db_engine]
    with an empty cache raises and leaves the cache empty: no call ever
    returns an engine, and each call starts over. With the four secrets
    there and [create_engine] and the listener for "connect" accepted, the
    exception is that of the registration, and the call has looked the four
    secrets up and created an engine. *)
Theorem listener_failure_defeats_cache c w :
  (forall engine, listens_for c engine "pool_connect" <> None) ->
  _db_engine w = None ->
  let r := get_db_engine c w in
  (exists e, fst r = Raise e) /\
  _db_engine (snd r) = None /\
  (forall url engine,
     fst (get_database_url c w) = Ok url -> create_engine c url = Ok engine ->
     listens_for c engine "connect" = None ->
     exists e, listens_for c engine "pool_connect" = Some e /\ fst r = Raise e /\
               lookups (snd r) = lookups w ++ url_secrets /\
               created (snd r) = created w ++ [url]).
Proof.
  intros Hpool Hcache. cbn zeta. unfold get_db_engine. rewrite Hcache.
  pose proof (create_db_engine_cache c w) as Hkeep. rewrite Hcache in Hkeep.
  unfold create_db_engine in *.
  pose proof (get_database_url_spec c w) as [Hok _]. cbn zeta in Hok.
  pose proof (get_database_url_created c w) as Hcreated.
  destruct (get_database_url c w) as [[url|e0] w0]; cbn [fst snd] in *.
  - destruct (create_engine c url) as [engine|e1] eqn:Hmade.
    + destruct (listens_for c engine "connect") as [e2|] eqn:Hconnect.
      * cbn. split; [by eexists|]. split; [done|].
        intros url' engine' [= <-] Hmade' Hnone. rewrite Hmade in Hmade'.
        injection Hmade' as <-. congruence.
      * destruct (listens_for c engine "pool_connect") as [e3|] eqn:Hraise;
          [|by destruct (Hpool engine)].
        cbn. split; [by eexists|]. split; [done|].
        intros url' engine' [= <-] Hmade' _. rewrite Hmade in Hmade'.
        injection Hmade' as <-. exists e3.
        destruct (Hok url eq_refl) as (Hlook & _). rewrite Hraise, Hcreated.
        repeat split. exact Hlook.
    + cbn. split; [by eexists|]. split; [done|].
      intros url' engine' [= <-] Hmade'. congruence.
  - cbn. split; [by eexists|]. split; [done|]. intros url' engine' [= ].
Qed.

(** A call of [get_db_engine] that raises leaves the cache empty, so the
    next call tries again; the exception is the one a secret's lookup,
    [create_engine] or the registration of one of the two listeners
    raised. *)
Theorem failed_engine_is_not_cached c w e w' :
  get_db_engine c w = (Raise e, w') ->
  _db_engine w' = None /\
  ((exists name, In name url_secrets /\ access_secret_version c name = Raise e) \/
   (exists url, fst (get_database_url c w) = Ok url /\ create_engine c url = Raise e) \/
   (exists url engine identifier,
      fst (get_database_url c w) = Ok url /\ create_engine c url = Ok engine /\
      In identifier listener_events /\ listens_for c engine identifier = Some e)).
Proof.
  unfold get_db_engine. destruct (_db_engine w) as [cached|] eqn:Hcache; [discriminate|].
  pose proof (create_db_engine_cache c w) as Hkeep.
  pose proof (create_db_engine_raise c w) as Hraise.
  destruct (create_db_engine c w) as [[made|e0] w0]; cbn [fst snd] in *; [discriminate|].
  intros [= <- <-]. cbn. split; [congruence|]. by apply Hraise.
Qed.

End WithEngine.

End ConfigProps.

(** ** models.py *)

Module ModelsDictProps.
Import Py Models Runtime Engine ModelsDict PyProps.

Section WithDatetime.
Context `{DR : DatetimeRead}.

(** [to_dict] of the object the engine builds from a record gives the
    record's fields back: each field as [record.get(field)], null when the
    record has none, [isWearing] true when the record has none, and [id]
    and [createdAt] null, the server not having filled them in. *)
Theorem to_dict_gives_record_back (d : gmap string pyval) p out :
  build_params (VDict d) = Ok p ->
  to_dict (constructed p) = Ok out ->
  (forall k, In k echoed_fields -> out !! k = Some (dict_get d k)) /\
  out !! "isWearing" = Some (dict_get_default d "isWearing" (VBool true)) /\
  out !! "id" = Some VNone /\ out !! "createdAt" = Some VNone /\
  exists millis, out !! "timestamp" = Some (VInt millis).
Proof.
  unfold build_params.
  intros (raw & _ & (secs & _ & (ts & _ & [= <-])%bind_ok)%bind_ok)%bind_ok.
  unfold to_dict. cbn [constructed columns inst_id created_at timestamp].
  intros (seconds & _ & (millis & _ & Hout)%bind_ok)%bind_ok.
  assert (Hmap := f_equal (fun r => match r with Ok m => m | Raise _ => out end) Hout).
  cbn beta iota in Hmap. clear Hout. subst out.
  split; [|split; [|split; [|split]]]; try reflexivity.
  - intros k Hk. unfold echoed_fields in Hk.
    repeat (destruct Hk as [<-|Hk]; [reflexivity|]). destruct Hk.
  - by exists millis.
Qed.

End WithDatetime.

End ModelsDictProps.

(** ** Further scenarios, run on the table *)

Module MoreScenarios.
Import Py Validators Rules Models Runtime Engine Store Batches Main Micros Config ModelsDict.
Import Spec Samples MoreSamples.
Import EngineMore StoreMore MainMore ConfigProps ModelsDictProps.

Local Abbreviation fresh := (Store.create_session empty_db None).
Local Abbreviation c1 := (VStr "c1").

(** Three records of which one fails: one message for one failure. *)
Lemma errors_match_failed_witness :
  let r := {| success := false; inserted := 2; failed := 1;
              errors := ["Record 1: String or binary data would be truncated in column 'UserId'"] |} in
  returned (insert_or_update_metrics fresh three c1) = Ok r /\
  Z.of_nat (length (errors r)) = Z.min 5 (failed r).
Proof.
  intros r.
  assert (Hr : returned (insert_or_update_metrics fresh three c1) = Ok r)
    by (vm_compute; reflexivity).
  split; [exact Hr|]. exact (proj1 (errors_match_failed fresh three c1 r Hr)).
Defined.

(** A valid record the engine cannot convert. *)
Lemma valid_record_build_failure_witness :
  valid_record far_future = true /\
  build_params (VDict far_future)
    = Raise (Exn "OverflowError" "int too large to convert to float") /\
  (Exn "OverflowError" "int too large to convert to float"
     = Exn "OverflowError" "int too large to convert to float" \/
   exists secs, utcfromtimestamp secs
                = Raise (Exn "OverflowError" "int too large to convert to float")).
Proof.
  assert (Hv : valid_record far_future = true) by (vm_compute; reflexivity).
  assert (Hb : build_params (VDict far_future)
               = Raise (Exn "OverflowError" "int too large to convert to float"))
    by (vm_compute; reflexivity).
  split; [exact Hv|]. split; [exact Hb|].
  exact (valid_record_build_failure far_future _ Hv Hb).
Defined.

Lemma batch_keeps_keys_unique_witness :
  keys_unique (table empty_db) /\
  keys_unique (table (fst (submit empty_db None three c1))).
Proof.
  assert (Huniq : keys_unique (table empty_db)) by constructor.
  split; [exact Huniq|].
  exact (batch_keeps_keys_unique (DT := micros) empty_db None three c1 Huniq).
Defined.

(** The database after the scenario's reading was stored. *)
Local Abbreviation stored_once := (fst (submit empty_db None [VDict reading] c1)).

Lemma batch_leaves_other_keys_witness :
  let k := ("u1", "d1", 1704067200000000%Z, "h1") in
  ~ In k (batch_keys [VDict later_reading; VDict second_version]) /\
  length (rows_with k (table stored_once)) = 1 /\
  rows_with k (table (fst (submit stored_once None
                             [VDict later_reading; VDict second_version] (VStr "c2"))))
  = rows_with k (table stored_once).
Proof.
  intros k.
  assert (Hk : ~ In k (batch_keys [VDict later_reading; VDict second_version])).
  { vm_compute. intros [H|[H|[]]]; discriminate H. }
  split; [exact Hk|]. split; [vm_compute; reflexivity|].
  exact (batch_leaves_other_keys (DT := micros) stored_once None
           [VDict later_reading; VDict second_version] (VStr "c2") k Hk).
Defined.

Lemma later_payload_wins_witness :
  let k := ("u1", "d1", 1704067200000000%Z, "h1") in
  let first := submit empty_db None [VDict reading] c1 in
  let second := submit (fst first) None [VDict corrected_reading] (VStr "c2") in
  keys_unique (table empty_db) /\
  snd first = Ok persisted /\ snd second = Ok persisted /\
  exists before after,
    rows_with k (table (fst first)) = [before] /\
    rows_with k (table (fst second)) = [after] /\
    skeleton after = skeleton before /\
    cells before !! "HeartRate" = Some (VInt 72) /\
    cells after !! "HeartRate" = Some (VInt 80).
Proof.
  intros k first second.
  assert (Huniq : keys_unique (table empty_db)) by constructor.
  assert (H1 : snd first = Ok persisted) by (vm_compute; reflexivity).
  assert (H2 : snd second = Ok persisted) by (vm_compute; reflexivity).
  split; [exact Huniq|]. split; [exact H1|]. split; [exact H2|].
  destruct (later_payload_wins (DT := micros) empty_db (VDict reading)
              (VDict corrected_reading) c1 (VStr "c2") k Huniq eq_refl eq_refl H1 H2)
    as (p' & before & after & Hp' & Hb & Ha & Hs & Hcells).
  exists before, after. split; [exact Hb|]. split; [exact Ha|]. split; [exact Hs|].
  split.
  - assert (Hrow : rows_with k (table (fst first)) = [before]) by exact Hb.
    vm_compute in Hrow. injection Hrow as <-. vm_compute. reflexivity.
  - apply Hcells. vm_compute in Hp'. injection Hp' as <-. vm_compute. tauto.
Defined.

Lemma record_hash_separates_versions_witness :
  let first := submit empty_db None [VDict reading] c1 in
  let second := submit (fst first) None [VDict second_version] (VStr "c2") in
  keys_unique (table empty_db) /\ "h1" <> "h2" /\
  snd first = Ok persisted /\ snd second = Ok persisted /\
  length (table (fst second)) = 2 /\
  exists row1 row2,
    rows_with ("u1", "d1", 1704067200000000%Z, "h1") (table (fst second)) = [row1] /\
    rows_with ("u1", "d1", 1704067200000000%Z, "h2") (table (fst second)) = [row2] /\
    RecordHash row1 = "h1" /\ RecordHash row2 = "h2".
Proof.
  intros first second.
  assert (Huniq : keys_unique (table empty_db)) by constructor.
  assert (Hne : "h1" <> "h2") by discriminate.
  assert (H1 : snd first = Ok persisted) by (vm_compute; reflexivity).
  assert (H2 : snd second = Ok persisted) by (vm_compute; reflexivity).
  split; [exact Huniq|]. split; [exact Hne|]. split; [exact H1|]. split; [exact H2|].
  split; [vm_compute; reflexivity|].
  destruct (record_hash_separates_versions (DT := micros) empty_db (VDict reading)
              (VDict second_version) c1 (VStr "c2") "u1" "d1" 1704067200000000%Z "h1" "h2"
              Huniq eq_refl eq_refl Hne H1 H2)
    as (row1 & row2 & _ & Hr1 & Hr2 & Hh1 & Hh2).
  exists row1, row2. split; [exact Hr1|]. split; [exact Hr2|]. split; assumption.
Defined.

Lemma session_only_after_validation_witness :
  let s := final_session (insert_or_update_metrics fresh [VDict reading] c1) in
  session_after (uploadHealthMetrics (env_with None) (post (VDict scenario))) = Some s /\
  exists d violations,
    get_json (post (VDict scenario)) = Ok (VDict d) /\
    validate_batch (metrics_of d) = Ok (true, violations).
Proof.
  intros s.
  assert (Hs : session_after (uploadHealthMetrics (env_with None) (post (VDict scenario)))
               = Some s) by (vm_compute; reflexivity).
  split; [exact Hs|].
  destruct (session_only_after_validation _ _ _ Hs)
    as (d & violations & session & _ & Hjson & Hvalid & _).
  exists d, violations. split; [exact Hjson | exact Hvalid].
Defined.

Lemma result_body_witness :
  let env := {| new_session := Ok fresh; clock_millis := 0; duration_ms := 7 |} in
  let answer := sent (uploadHealthMetrics env (post (VDict (payload three)))) in
  status answer = 207%Z /\
  resp_body answer =
    Json [ ("success", VBool false); ("syncedCount", VInt 2); ("failedCount", VInt 1);
           ("durationMs", VInt 7); ("correlationId", c1);
           ("errors", strings ["Record 1: String or binary data would be truncated in column 'UserId'"]) ].
Proof.
  intros env answer. split; [vm_compute; reflexivity|].
  assert (Hmethod : method (post (VDict (payload three))) <> "OPTIONS") by discriminate.
  assert (Hr : returned (insert_or_update_metrics fresh (items (metrics_of (payload three)))
                           (correlation_of env (payload three)))
               = Ok {| success := false; inserted := 2; failed := 1;
                       errors := ["Record 1: String or binary data would be truncated in column 'UserId'"] |})
    by (vm_compute; reflexivity).
  assert (Hv : validate_batch (metrics_of (payload three)) = Ok (true, []))
    by (vm_compute; reflexivity).
  exact (proj1 (result_body env (post (VDict (payload three))) (payload three) [] fresh _
                  Hmethod eq_refl eq_refl Hv eq_refl Hr)).
Defined.

Lemma metrics_that_are_no_list_witness :
  let d : gmap string pyval := <["metrics" := VInt 5]> (<["correlationId" := c1]> ∅) in
  d !! "metrics" = Some (VInt 5) /\
  sent (uploadHealthMetrics (env_with None) (post (VDict d)))
  = {| resp_body := Json [ ("error", VStr "Internal server error");
                           ("message", VStr "object of type 'int' has no len()");
                           ("correlationId", c1) ];
       status := 500; headers := [] |}.
Proof.
  intros d.
  assert (Hmethod : method (post (VDict d)) <> "OPTIONS") by discriminate.
  assert (Hd : d !! "metrics" = Some (VInt 5)) by reflexivity.
  split; [exact Hd|].
  destruct (metrics_that_are_no_list (env_with None) (post (VDict d)) d
              Hmethod eq_refl eq_refl) as (_ & _ & Hnum).
  exact (Hnum (VInt 5) Hd eq_refl).
Defined.

(** The URL is made of the four secrets; with the user's secret missing
    the password is never looked up. *)
Lemma database_url_lookups_witness :
  fst (get_database_url vault cold)
    = Ok (connection_string "db.example.net" "health" "svc" "s3cret") /\
  lookups (snd (get_database_url vault cold)) = lookups cold ++ url_secrets /\
  exists n name,
    url_secrets !! n = Some name /\
    lookups (snd (get_database_url vault_without_user cold))
    = lookups cold ++ take (S n) url_secrets.
Proof.
  assert (Hok : fst (get_database_url vault cold)
                = Ok (connection_string "db.example.net" "health" "svc" "s3cret"))
    by (vm_compute; reflexivity).
  split; [exact Hok|].
  split; [exact (proj1 (proj1 (database_url_lookups vault cold) _ Hok))|].
  destruct (proj2 (database_url_lookups vault_without_user cold)
              (Exn "NotFound"
                 ("Secret [" +:+ secret_name default_project "azure-sql-user"
                    +:+ "] not found")))
    as (n & name & Hname & _ & Hlook & _).
  { vm_compute. reflexivity. }
  exists n, name. split; [exact Hname | exact Hlook].
Defined.

Lemma listener_failure_defeats_cache_witness :
  let url := connection_string "db.example.net" "health" "svc" "s3cret" in
  let r := get_db_engine vault cold in
  _db_engine cold = None /\
  fst r = Raise (Exn "InvalidRequestError"
                   ("No such event 'pool_connect' for target '" +:+ url +:+ "'")) /\
  _db_engine (snd r) = None /\ lookups (snd r) = url_secrets /\ created (snd r) = [url].
Proof.
  intros url r.
  assert (Hpool : forall engine, listens_for vault engine "pool_connect" <> None)
    by (intros engine; discriminate).
  assert (Hcold : _db_engine cold = None) by reflexivity.
  destruct (listener_failure_defeats_cache vault cold Hpool Hcold) as (_ & Hempty & Hmade).
  destruct (Hmade url url) as (e & He & Hr & Hlook & Hcreated).
  { vm_compute. reflexivity. }
  { reflexivity. }
  { reflexivity. }
  split; [exact Hcold|]. split; [|split; [exact Hempty|split; [exact Hlook|exact Hcreated]]].
  eapply eq_trans; [exact Hr|]. f_equal.
  assert (Hsome : Some e = Some (Exn "InvalidRequestError"
                     ("No such event 'pool_connect' for target '" +:+ url +:+ "'")))
    by (rewrite <- He; reflexivity).
  by injection Hsome.
Defined.

Lemma failed_engine_is_not_cached_witness :
  let e := Exn "NotFound"
             ("Secret [" +:+ secret_name default_project "azure-sql-user" +:+ "] not found") in
  let w' := snd (get_db_engine vault_without_user cold) in
  get_db_engine vault_without_user cold = (Raise e, w') /\
  _db_engine w' = None /\
  lookups (snd (get_db_engine vault w')) = lookups w' ++ url_secrets.
Proof.
  intros e w'.
  assert (H : get_db_engine vault_without_user cold = (Raise e, w'))
    by (vm_compute; reflexivity).
  split; [exact H|].
  split; [exact (proj1 (failed_engine_is_not_cached vault_without_user cold e w' H))|].
  vm_compute. reflexivity.
Defined.

(** The scenario's reading through the engine's constructor and back. *)
Lemma to_dict_gives_record_back_witness :
  exists p out,
    build_params (VDict reading) = Ok p /\
    to_dict (constructed p) = Ok out /\
    out !! "heartRate" = Some (VInt 72) /\
    out !! "steps" = Some VNone /\
    out !! "isWearing" = Some (VBool true) /\
    out !! "timestamp" = Some (VInt 1704067200000).
Proof.
  assert (Hp : exists p, build_params (DT := micros) (VDict reading) = Ok p)
    by (eexists; vm_compute; reflexivity).
  destruct Hp as (p & Hp).
  assert (Hout : exists out, to_dict (constructed p) = Ok out /\
                             out !! "timestamp" = Some (VInt 1704067200000)).
  { assert (Hq := Hp). vm_compute in Hq.
    assert (Hpq := f_equal (fun r => match r with Ok q => q | Raise _ => p end) Hq).
    cbn beta iota in Hpq. rewrite <- Hpq. unfold to_dict. eexists. split.
    - apply (proj2 (PyProps.bind_ok _ _ _)). eexists. split; [vm_compute; reflexivity|].
      apply (proj2 (PyProps.bind_ok _ _ _)). eexists. split; [vm_compute; reflexivity|reflexivity].
    - vm_compute. reflexivity. }
  destruct Hout as (out & Hout & Hmillis).
  exists p, out. split; [exact Hp|]. split; [exact Hout|].
  destruct (to_dict_gives_record_back reading p out Hp Hout) as (Hecho & Hw & _).
  split; [|split; [|split]].
  - rewrite (Hecho "heartRate") by (cbn; tauto). reflexivity.
  - rewrite (Hecho "steps") by (cbn; tauto). reflexivity.
  - rewrite Hw. reflexivity.
  - exact Hmillis.
Defined.

End MoreScenarios.
